(** * The agentkit sandbox tool backend

    A shallow embedding of [adk/backend/agentkit] (sandbox.go,
    code_template.go and the wire types) together with the parts of the Go
    runtime library the package leans on (path cleaning, string helpers,
    base64 and hex encoding, the [pyfmt] template renderer), followed by the
    properties of the backend that the specification states.

    Go strings and byte slices are sequences of bytes: both are [string]
    here (a [string] is a list of [ascii], that is of 8-bit bytes).  Go [int]
    is [Z]: the package compares and prints its ints and computes nothing
    with them, so there is no wrap-around to write out.
    A Go [error] is the text that [Error()] returns, and wrapping with [%w]
    is the concatenation [fmt.Errorf] performs. *)

From Stdlib Require Import ZArith List String Ascii Lia Bool DecimalString.
From stdpp Require Import base option gmap strings.
Import ListNotations.

Local Open Scope string_scope.
Local Open Scope list_scope.
Local Open Scope Z_scope.

(** ** Errors and fallible results *)

Definition error := string.

Inductive fallible (A : Type) : Type :=
| Ok (a : A)
| Err (e : error).
Arguments Ok {A} a.
Arguments Err {A} e.

Definition isErr {A} (r : fallible A) : bool :=
  match r with Ok _ => false | Err _ => true end.

(** ** The [strings] package *)

Module Strings.

Definition bytes (s : string) : list ascii := list_ascii_of_string s.
Definition ofBytes (l : list ascii) : string := string_of_list_ascii l.

(** [strings.HasPrefix] *)
Fixpoint HasPrefix (s pre : string) {struct pre} : bool :=
  match pre, s with
  | EmptyString, _ => true
  | String _ _, EmptyString => false
  | String a pre', String c s' => Ascii.eqb a c && HasPrefix s' pre'
  end.

(** [strings.Contains] *)
Fixpoint Contains (s sub : string) : bool :=
  HasPrefix s sub
  || match s with
     | EmptyString => false
     | String _ s' => Contains s' sub
     end.

(** [strings.Join] *)
Fixpoint Join (elems : list string) (sep : string) : string :=
  match elems with
  | [] => ""
  | [e] => e
  | e :: rest => e +:+ sep +:+ Join rest sep
  end.

(** [strings.Split(s, sep)] for a separator of one byte, the only way the
    package calls it.  The result is never empty: splitting the empty
    string gives one empty field. *)
Fixpoint SplitByte (s : list ascii) (sep : ascii) : list (list ascii) :=
  match s with
  | [] => [[]]
  | c :: s' =>
      if Ascii.eqb c sep then [] :: SplitByte s' sep
      else match SplitByte s' sep with
           | e :: es => (c :: e) :: es
           | [] => [[c]]
           end
  end.

Definition Split (s : string) (sep : ascii) : list string :=
  map ofBytes (SplitByte (bytes s) sep).

(** [strings.Replace(s, old, new, -1)] for [old] of one byte. *)
Fixpoint ReplaceByte (s : string) (old : ascii) (new : string) : string :=
  match s with
  | EmptyString => ""
  | String c s' =>
      (if Ascii.eqb c old then new else String c "") +:+ ReplaceByte s' old new
  end.

(** White space in the sense of [unicode.IsSpace], as UTF-8 byte
    sequences: the six ASCII characters, U+0085, U+00A0, U+1680,
    U+2000..U+200A, U+2028, U+2029, U+202F, U+205F and U+3000. *)
Definition asciiSpace (c : ascii) : bool :=
  let n := nat_of_ascii c in
  ((9 <=? n) && (n <=? 13) || (n =? 32))%nat.

Definition b (n : nat) : ascii := ascii_of_nat n.

Definition spaceRunes : list (list ascii) :=
  [ [b 194; b 133]; [b 194; b 160]; [b 225; b 154; b 128] ]
  ++ map (fun k => [b 226; b 128; b (128 + k)]) (seq 0 11)
  ++ [ [b 226; b 128; b 168]; [b 226; b 128; b 169]; [b 226; b 128; b 175];
       [b 226; b 129; b 159]; [b 227; b 128; b 128] ].

Fixpoint isPrefixOf (p s : list ascii) : bool :=
  match p, s with
  | [], _ => true
  | _ :: _, [] => false
  | x :: p', y :: s' => Ascii.eqb x y && isPrefixOf p' s'
  end.

(** The number of bytes of the white-space rune [s] begins with, 0 when it
    begins with none. *)
Definition leadingSpace (s : list ascii) : nat :=
  match s with
  | [] => O
  | c :: _ =>
      if asciiSpace c then 1%nat
      else match List.find (fun r => isPrefixOf r s) spaceRunes with
           | Some r => List.length r
           | None => O
           end
  end.

Fixpoint trimLeft (fuel : nat) (s : list ascii) : list ascii :=
  match fuel with
  | O => s
  | S fuel' =>
      match leadingSpace s with
      | O => s
      | n => trimLeft fuel' (skipn n s)
      end
  end.

(** The same from the right end: a rune that ends [s] is a reversed rune
    that begins the reversed [s]. *)
Definition trailingSpace (r : list ascii) : nat :=
  match r with
  | [] => O
  | c :: _ =>
      if asciiSpace c then 1%nat
      else match List.find (fun w => isPrefixOf (rev w) r) spaceRunes with
           | Some w => List.length w
           | None => O
           end
  end.

Fixpoint trimRight (fuel : nat) (r : list ascii) : list ascii :=
  match fuel with
  | O => r
  | S fuel' =>
      match trailingSpace r with
      | O => r
      | n => trimRight fuel' (skipn n r)
      end
  end.

(** [strings.TrimSpace]; each round removes at least one byte, so the
    length of the input is fuel enough. *)
Definition TrimSpace (s : string) : string :=
  let l := bytes s in
  let l1 := trimLeft (List.length l) l in
  ofBytes (rev (trimRight (List.length l1) (rev l1))).

(** [strconv.Itoa], which is also how [%d] and [%v] print an [int]. *)
Definition Itoa (z : Z) : string := NilZero.string_of_int (Z.to_int z).

End Strings.

(** ** The [path/filepath] package (Unix) *)

Module Filepath.

Definition isSep (c : ascii) : bool := Ascii.eqb c "/".

(** [filepath.IsAbs] *)
Definition IsAbs (path : string) : bool := Strings.HasPrefix path "/".

(** The inner loop of the [..] case of [Clean], entered after the first
    [out.w--]:
    [for out.w > dotdot && !os.IsPathSeparator(out.index(out.w)) { out.w-- }] *)
Fixpoint backtrack (out : list ascii) (dotdot w : nat) : nat :=
  match w with
  | O => O
  | S w' =>
      if (dotdot <? w)%nat && negb (isSep (nth w out "/"%char))
      then backtrack out dotdot w'
      else w
  end.

Definition dotElem : list ascii := ["."%char].
Definition dotdotElem : list ascii := ["."%char; "."%char].

Definition elemEqb (x y : list ascii) : bool :=
  Strings.isPrefixOf x y && Strings.isPrefixOf y x.

(** One round of the loop of [Clean], which consumes one path element.
    The state is the output buffer (its length is [out.w]) and [dotdot]. *)
Definition cleanStep (rooted : bool) (st : list ascii * nat) (elem : list ascii)
  : list ascii * nat :=
  let '(out, dotdot) := st in
  let w := List.length out in
  if elemEqb elem [] then st
  else if elemEqb elem dotElem then st
  else if elemEqb elem dotdotElem then
    if (dotdot <? w)%nat then
      (firstn (backtrack out dotdot (w - 1)) out, dotdot)
    else if negb rooted then
      let out1 := if (0 <? w)%nat then out ++ ["/"%char] else out in
      let out2 := out1 ++ dotdotElem in
      (out2, List.length out2)
    else st
  else
    let out1 :=
      if (rooted && negb (w =? 1)%nat) || (negb rooted && negb (w =? 0)%nat)
      then out ++ ["/"%char] else out in
    (out1 ++ elem, dotdot).

(** [filepath.Clean].  The loop reads the path one element at a time, the
    elements being the fields between separators. *)
Definition Clean (path : string) : string :=
  match Strings.bytes path with
  | [] => "."
  | (c :: _) as p =>
      let rooted := isSep c in
      let init := if rooted then (["/"%char], 1%nat) else ([], O) in
      let '(out, _) := fold_left (cleanStep rooted) (Strings.SplitByte p "/") init in
      match out with
      | [] => "."
      | _ => Strings.ofBytes out
      end
  end.

End Filepath.

(** ** The [encoding/base64] and [encoding/hex] packages *)

Module Base64.

Definition encodeStd : string :=
  "ABCDEFGHIJKLMNOPQRSTUVWXYZabcdefghijklmnopqrstuvwxyz0123456789+/".

Definition padChar : ascii := "="%char.

(** The character of a 6-bit value. *)
Definition enc6 (n : N) : ascii :=
  match String.get (N.to_nat n) encodeStd with
  | Some c => c
  | None => padChar
  end.

Definition byteVal (c : ascii) : N := N_of_ascii c.

(** [base64.StdEncoding.EncodeToString]: three bytes become four
    characters, and a last group of one or two bytes is padded with [=]. *)
Fixpoint encodeBytes (src : list ascii) : list ascii :=
  match src with
  | [] => []
  | [x] =>
      let a := byteVal x in
      [enc6 (a / 4); enc6 ((a mod 4) * 16); padChar; padChar]
  | [x; y] =>
      let a := byteVal x in
      let b := byteVal y in
      [enc6 (a / 4); enc6 ((a mod 4) * 16 + b / 16); enc6 ((b mod 16) * 4);
       padChar]
  | x :: y :: z :: rest =>
      let a := byteVal x in
      let b := byteVal y in
      let c := byteVal z in
      enc6 (a / 4) :: enc6 ((a mod 4) * 16 + b / 16)
      :: enc6 ((b mod 16) * 4 + c / 64) :: enc6 (c mod 64)
      :: encodeBytes rest
  end%N.

Definition EncodeToString (src : string) : string :=
  Strings.ofBytes (encodeBytes (Strings.bytes src)).

(** The 6-bit value of a character of the alphabet. *)
Fixpoint indexOf (c : ascii) (s : string) (i : N) : option N :=
  match s with
  | EmptyString => None
  | String d s' => if Ascii.eqb c d then Some i else indexOf c s' (i + 1)%N
  end.

Definition dec6 (c : ascii) : option N := indexOf c encodeStd 0%N.

Definition mkByte (n : N) : ascii := ascii_of_N n.

(** Decoding of padded input, as Python's [base64.b64decode] does it on a
    string that holds only characters of the alphabet and padding. *)
Fixpoint decodeBytes (src : list ascii) : option (list ascii) :=
  match src with
  | [] => Some []
  | c1 :: c2 :: c3 :: c4 :: rest =>
      match dec6 c1, dec6 c2 with
      | Some s1, Some s2 =>
          let x := mkByte (s1 * 4 + s2 / 16) in
          if Ascii.eqb c3 padChar then
            if Ascii.eqb c4 padChar then
              match rest with [] => Some [x] | _ => None end
            else None
          else
            match dec6 c3 with
            | Some s3 =>
                let y := mkByte ((s2 mod 16) * 16 + s3 / 4) in
                if Ascii.eqb c4 padChar then
                  match rest with [] => Some [x; y] | _ => None end
                else
                  match dec6 c4, decodeBytes rest with
                  | Some s4, Some tl =>
                      Some (x :: y :: mkByte ((s3 mod 4) * 64 + s4) :: tl)
                  | _, _ => None
                  end
            | None => None
            end
      | _, _ => None
      end
  | _ => None
  end%N.

Definition b64decode (s : string) : option string :=
  Strings.ofBytes <$> decodeBytes (Strings.bytes s).

End Base64.

Module Hex.

Definition hextable : string := "0123456789abcdef".

Definition digit (n : N) : ascii :=
  match String.get (N.to_nat n) hextable with
  | Some c => c
  | None => "0"%char
  end.

(** [hex.EncodeToString] *)
Fixpoint EncodeToString (src : string) : string :=
  match src with
  | EmptyString => ""
  | String c rest =>
      let n := N_of_ascii c in
      String (digit (n / 16)) (String (digit (n mod 16)) (EncodeToString rest))
  end.

End Hex.

(** ** The [net/url] and [net/textproto] packages *)

Module Url.

Definition upperhex : string := "0123456789ABCDEF".

Definition hexDigit (n : N) : ascii :=
  match String.get (N.to_nat n) upperhex with
  | Some c => c
  | None => "0"%char
  end.

Definition isAlnum (c : ascii) : bool :=
  let n := nat_of_ascii c in
  ((48 <=? n) && (n <=? 57) || (65 <=? n) && (n <=? 90)
   || (97 <=? n) && (n <=? 122))%nat.

(** [shouldEscape] in query-component mode: letters, digits and [-_.~]
    stay as they are. *)
Definition unreserved (c : ascii) : bool :=
  isAlnum c || Ascii.eqb c "-" || Ascii.eqb c "_" || Ascii.eqb c "."
  || Ascii.eqb c "~".

(** [url.QueryEscape] *)
Fixpoint QueryEscape (s : string) : string :=
  match s with
  | EmptyString => ""
  | String c rest =>
      (if unreserved c then String c ""
       else if Ascii.eqb c " " then "+"
       else let n := N_of_ascii c in
            String "%" (String (hexDigit (n / 16)) (String (hexDigit (n mod 16)) "")))
      +:+ QueryEscape rest
  end.

(** [url.Values] with one value for a key, kept in the order of the keys,
    which is the order [Encode] writes them in. *)
Definition Values := list (string * string).

Fixpoint Set_ (v : Values) (key value : string) : Values :=
  match v with
  | [] => [(key, value)]
  | (k, x) :: rest =>
      if String.eqb key k then (key, value) :: rest
      else if String.ltb key k then (key, value) :: (k, x) :: rest
      else (k, x) :: Set_ rest key value
  end.

(** [Values.Encode] *)
Definition Encode (v : Values) : string :=
  Strings.Join
    (map (fun kv => QueryEscape (fst kv) +:+ "=" +:+ QueryEscape (snd kv)) v) "&".

(** The host of an absolute URL [scheme://host/...], which
    [http.NewRequest] stores in [Request.Host]. *)
Fixpoint untilDelim (s : string) : string :=
  match s with
  | EmptyString => ""
  | String c rest =>
      if Ascii.eqb c "/" || Ascii.eqb c "?" || Ascii.eqb c "#" then ""
      else String c (untilDelim rest)
  end.

Fixpoint Host (rawURL : string) : string :=
  match rawURL with
  | EmptyString => ""
  | String c rest =>
      if Strings.HasPrefix rawURL "://" then untilDelim (String.substring 3 (String.length rest) rawURL)
      else Host rest
  end.

End Url.

Module Textproto.

Definition isLower (c : ascii) : bool :=
  let n := nat_of_ascii c in ((97 <=? n) && (n <=? 122))%nat.
Definition isUpper (c : ascii) : bool :=
  let n := nat_of_ascii c in ((65 <=? n) && (n <=? 90))%nat.
Definition toUpper (c : ascii) : ascii :=
  if isLower c then ascii_of_nat (nat_of_ascii c - 32) else c.
Definition toLower (c : ascii) : ascii :=
  if isUpper c then ascii_of_nat (nat_of_ascii c + 32) else c.

(** [textproto.CanonicalMIMEHeaderKey] on a key made of token characters:
    the first letter and each letter after a hyphen in upper case, the
    others in lower case. *)
Fixpoint canonical (upper : bool) (s : string) : string :=
  match s with
  | EmptyString => ""
  | String c rest =>
      String (if upper then toUpper c else toLower c)
             (canonical (Ascii.eqb c "-") rest)
  end.

Definition CanonicalMIMEHeaderKey (s : string) : string := canonical true s.

End Textproto.

(** ** Dynamic values and the [pyfmt] renderer *)

(** The values the package stores in a [map[string]any]: strings and
    ints. *)
Inductive any : Type :=
| AString (s : string)
| AInt (z : Z).

Module Pyfmt.

(** A format string is text with replacement fields: [{name}] is replaced
    by the value of [name], [{{] and [}}] stand for one brace. *)
Inductive segment : Type :=
| Lit (c : ascii)
| Field (name : string).

Inductive scan : Type :=
| Text                      (* outside a field *)
| Open                      (* after one opening brace *)
| Name (rev_name : string)  (* inside a field, the name read so far, reversed *)
| Close.                    (* after one closing brace outside a field *)

Fixpoint revString (s acc : string) : string :=
  match s with
  | EmptyString => acc
  | String c rest => revString rest (String c acc)
  end.

Fixpoint parse (st : scan) (format : string) : fallible (list segment) :=
  match format with
  | EmptyString =>
      match st with
      | Text => Ok []
      | Open | Name _ => Err "Single '{' encountered in format string"
      | Close => Err "Single '}' encountered in format string"
      end
  | String c rest =>
      let cons x r := match r with Ok l => Ok (x :: l) | Err e => Err e end in
      match st with
      | Text =>
          if Ascii.eqb c "{" then parse Open rest
          else if Ascii.eqb c "}" then parse Close rest
          else cons (Lit c) (parse Text rest)
      | Open =>
          if Ascii.eqb c "{" then cons (Lit "{"%char) (parse Text rest)
          else if Ascii.eqb c "}" then cons (Field "") (parse Text rest)
          else parse (Name (String c "")) rest
      | Name n =>
          if Ascii.eqb c "}" then cons (Field (revString n "")) (parse Text rest)
          else parse (Name (String c n)) rest
      | Close =>
          if Ascii.eqb c "}" then cons (Lit "}"%char) (parse Text rest)
          else Err "Single '}' encountered in format string"
      end
  end.

(** A value with no format specification prints as [%v] does. *)
Definition show (v : any) : string :=
  match v with
  | AString s => s
  | AInt z => Strings.Itoa z
  end.

Fixpoint render (params : gmap string any) (segs : list segment) : fallible string :=
  match segs with
  | [] => Ok ""
  | Lit c :: rest =>
      match render params rest with
      | Ok s => Ok (String c s)
      | Err e => Err e
      end
  | Field name :: rest =>
      match params !! name with
      | None => Err ("KeyError: " +:+ name)
      | Some v =>
          match render params rest with
          | Ok s => Ok (show v +:+ s)
          | Err e => Err e
          end
      end
  end.

(** [pyfmt.Fmt(format, params)] with one map argument. *)
Definition Fmt (format : string) (params : gmap string any) : fallible string :=
  match parse Text format with
  | Ok segs => render params segs
  | Err e => Err e
  end.

End Pyfmt.

(** ** code_template.go *)

(** A double quote, which the templates below splice in where the Python
    source has one. *)
Definition dq : string := String (ascii_of_nat 34) "".

Definition readPythonCodeTemplate : string :=
  "
import os
import sys

file_path = '{file_path}'
offset = {offset}
limit = {limit}

# Check if file exists
if not os.path.isfile(file_path):
    print('Error: File not found')
    sys.exit(-1)

# Check if file is empty
if os.path.getsize(file_path) == 0:
    print('System reminder: File exists but has empty contents')
    sys.exit(0)

# Read file with offset and limit
with open(file_path, 'r') as f:
    lines = f.readlines()

# Apply offset and limit
start_idx = offset
end_idx = offset + limit
selected_lines = lines[start_idx:end_idx]

# Format with line numbers (1-indexed, starting from offset + 1)
for i, line in enumerate(selected_lines):
    line_num = offset + i + 1
    # Remove trailing newline for formatting, then add it back
    line_content = line.rstrip('\n')
    print(f'{{line_num:6d}}\t{{line_content}}')
".

Definition lsInfoPythonCodeTemplate : string :=
  "
import os
import json

path = '{path}'

try:
    with os.scandir(path) as it:
        for entry in sorted(it, key=lambda e: e.name):
            result = {{
                'path': entry.name,
                'is_dir': entry.is_dir(follow_symlinks=False)
            }}
            print(json.dumps(result))
except FileNotFoundError:
    pass
except PermissionError:
    pass
".

Definition writePythonCodeTemplate : string :=
  "
import os
import sys
import base64

file_path = '{file_path}'

# Check if file already exists (atomic with write)
if os.path.exists(file_path):
    print(f" +:+ dq +:+ "Error: File '{{file_path}}' already exists" +:+ dq +:+ ", file=sys.stderr)
    sys.exit(-1)

# Create parent directory if needed
parent_dir = os.path.dirname(file_path) or '.'
os.makedirs(parent_dir, exist_ok=True)

# Decode and write content
content = base64.b64decode('{content_b64}').decode('utf-8')
with open(file_path, 'w') as f:
    f.write(content)
".

Definition editPythonCodeTemplate : string :=
  "
import sys
import base64

# Read file content
with open('{file_path}', 'r') as f:
    text = f.read()

# Decode base64-encoded strings
old = base64.b64decode('{old_b64}').decode('utf-8')
new = base64.b64decode('{new_b64}').decode('utf-8')

# Count occurrences
count = text.count(old)

# Exit with error codes if issues found
if count == 0:
    print(f" +:+ dq +:+ "Error: String not found in file: '{{old}}'" +:+ dq +:+ ")
    sys.exit(-1)  # String not found
elif count > 1 and not {replace_all}:
    print(f" +:+ dq +:+ "Error: String '{{old}}' appears multiple times. Use replace_all=True to replace all occurrences." +:+ dq +:+ ")
    sys.exit(-1)  # Multiple occurrences without replace_all

# Perform replacement
if {replace_all}:
    result = text.replace(old, new)
else:
    result = text.replace(old, new, 1)

# Write back to file
with open('{file_path}', 'w') as f:
    f.write(result)

print(count)
".

Definition grepPythonCodeTemplate : string :=
  "
import os
import sys
import json
import subprocess

pattern = '{pattern}'
path = '{path}'
glob_pattern = '{glob_pattern}'

search_path = path or '.'

# Build grep command: recursive, with filename, with line number, fixed-strings (literal)
grep_cmd = ['grep', '-rHnF']

if glob_pattern:
    grep_cmd.extend(['--include', glob_pattern])

grep_cmd.extend(['-e', pattern, search_path])

try:
    result = subprocess.run(grep_cmd, capture_output=True, text=True, check=False)

    # grep exits with 1 if no lines were selected. We can ignore this case.
    if result.returncode > 1:
        print(f" +:+ dq +:+ "Grep error: {{result.stderr}}" +:+ dq +:+ ", file=sys.stderr)
        sys.exit(result.returncode)

    output = result.stdout.strip()
    if not output:
        sys.exit(0)

    for line in output.splitlines():
        # Format is: path:line_number:content
        parts = line.split(':', 2)
        if len(parts) >= 3:
            try:
                line_num = int(parts[1])
                match = {{
                    'Path': parts[0],
                    'Line': line_num,
                    'Content': parts[2]
                }}
                print(json.dumps(match))
            except (ValueError, IndexError):
                # Ignore malformed lines, e.g., " +:+ dq +:+ "grep: ...: Is a directory" +:+ dq +:+ "
                continue
except Exception as e:
    print(f" +:+ dq +:+ "Error executing grep script: {{e}}" +:+ dq +:+ ", file=sys.stderr)
    sys.exit(1)
".

Definition globPythonCodeTemplate : string :=
  "
import glob
import os
import json
import base64

# Decode base64-encoded parameters
path = base64.b64decode('{path_b64}').decode('utf-8')
pattern = base64.b64decode('{pattern_b64}').decode('utf-8')

os.chdir(path)
matches = sorted(glob.glob(pattern, recursive=True))
for m in matches:
    stat = os.stat(m)
    result = {{
        'path': m,
        'size': stat.st_size,
        'mtime': stat.st_mtime,
        'is_dir': os.path.isdir(m)
    }}
    print(json.dumps(result))
".

Definition executePythonCodeTemplate : string :=
  "
import sys
import subprocess
import base64

# Decode base64-encoded command
command = base64.b64decode('{command_b64}').decode('utf-8')

try:
    # Execute the command
    result = subprocess.run(command, shell=True, capture_output=True, text=True, check=False)

    # Check for stderr
    if result.stderr:
        print(f" +:+ dq +:+ "Error executing command: {{result.stderr}}" +:+ dq +:+ ", file=sys.stderr)
        sys.exit(result.returncode if result.returncode != 0 else 1)
    
    # Print stdout
    print(result.stdout, end='')

except Exception as e:
    print(f" +:+ dq +:+ "Error executing command script: {{e}}" +:+ dq +:+ ", file=sys.stderr)
    sys.exit(1)
".

(** ** The [net/http] types the package touches *)

(** An [*http.Client]: the default client of the library or one the caller
    supplies. *)
Inductive Client : Type :=
| DefaultClient
| CustomClient (id : nat).

Module Request.
Record t : Type := mk {
  Method : string;
  URL : string;
  Host : string;
  Header : gmap string string;
  Body : string
}.
End Request.

Module Response.
(** [Body] is what [io.ReadAll] makes of the body, which may fail. *)
Record t : Type := mk {
  StatusCode : Z;
  Body : fallible string
}.
End Response.

Module Http.

Definition MethodPost : string := "POST".

(** [http.NewRequestWithContext].  It fails on a method that is no token
    and on a URL that does not parse; the package calls it with [POST] and
    with one of its two constant base URLs followed by a constant query,
    so that branch is not reachable and is left out. *)
Definition NewRequest (method url : string) (body : string) : Request.t :=
  Request.mk method url (Url.Host url) ∅ body.

(** [Header.Set] and [Header.Get] *)
Definition HeaderSet (r : Request.t) (key value : string) : Request.t :=
  Request.mk (Request.Method r) (Request.URL r) (Request.Host r)
    (<[Textproto.CanonicalMIMEHeaderKey key := value]> (Request.Header r))
    (Request.Body r).

Definition HeaderGet (r : Request.t) (key : string) : string :=
  default "" (Request.Header r !! Textproto.CanonicalMIMEHeaderKey key).

End Http.

(** ** Effects

    The backend reads the clock, sends HTTP requests and writes to the
    standard logger.  A computation is a tree of these three requests, and
    running it against a world gives its value and the trace of what it
    did. *)

Inductive Prog (A : Type) : Type :=
| Ret (a : A)
| Now (k : string -> Prog A)
| Do (c : Client) (r : Request.t) (k : fallible Response.t -> Prog A)
| Log (msg : string) (k : Prog A).
Arguments Ret {A} a.
Arguments Now {A} k.
Arguments Do {A} c r k.
Arguments Log {A} msg k.

Fixpoint bind {A B} (p : Prog A) (f : A -> Prog B) : Prog B :=
  match p with
  | Ret a => f a
  | Now k => Now (fun d => bind (k d) f)
  | Do c r k => Do c r (fun x => bind (k x) f)
  | Log m k => Log m (bind k f)
  end.

#[global] Instance Prog_ret : MRet Prog := @Ret.
#[global] Instance Prog_bind : MBind Prog := fun A B f p => bind p f.

(** [time.Now().UTC().Format("20060102T150405Z")] *)
Definition timeNow : Prog string := Now Ret.
(** [client.Do(request)] followed by [io.ReadAll] of the body *)
Definition clientDo (c : Client) (r : Request.t) : Prog (fallible Response.t) :=
  Do c r Ret.
(** [log.Printf] *)
Definition logPrintf (msg : string) : Prog unit := Log msg (Ret tt).

Inductive event : Type :=
| EvRequest (c : Client) (r : Request.t)
| EvLog (msg : string).

Record World : Type := {
  clock : string;
  roundTrip : Client -> Request.t -> fallible Response.t
}.

Fixpoint run {A} (w : World) (p : Prog A) : A * list event :=
  match p with
  | Ret a => (a, [])
  | Now k => run w (k (clock w))
  | Do c r k =>
      let '(a, t) := run w (k (roundTrip w c r)) in (a, EvRequest c r :: t)
  | Log m k =>
      let '(a, t) := run w k in (a, EvLog m :: t)
  end.

Definition isRequest (e : event) : bool :=
  match e with EvRequest _ _ => true | EvLog _ => false end.

(** The requests a run sent, and the lines it logged. *)
Definition requests (t : list event) : list Request.t :=
  omap (fun e => match e with EvRequest _ r => Some r | EvLog _ => None end) t.
Definition logged (t : list event) : list string :=
  omap (fun e => match e with EvLog m => Some m | EvRequest _ _ => None end) t.

(** ** The wire types *)

Module invokeToolRequest.
Record t : Type := mk {
  ToolID : string;
  SessionID : string;
  UserSessionID : string;
  OperationPayload : string;
  OperationType : string;
  Ttl : option Z
}.
End invokeToolRequest.

Module response.
(** [Result] is the field [Result.Result] of the Go struct. *)
Record t : Type := mk { Result : string }.
End response.

Module output.
Record t : Type := mk {
  OutputType : string;
  Text : string;
  EName : string;
  EValue : string
}.
End output.

Module result.
(** [Outputs] is the field [Data.Outputs] of the Go struct. *)
Record t : Type := mk {
  Outputs : list output.t;
  Success : bool
}.
End result.

(** ** The requests of the [filesystem] package

    Modelled from the spec: the request structs of
    [github.com/cloudwego/eino/adk/filesystem], a package the repository
    imports and whose source is not part of it; each struct has the fields
    sandbox.go reads or writes. *)

Module LsInfoRequest.
Record t : Type := mk { Path : string }.
End LsInfoRequest.

Module ReadRequest.
Record t : Type := mk { FilePath : string; Offset : Z; Limit : Z }.
End ReadRequest.

Module GrepRequest.
Record t : Type := mk { Pattern : string; Path : string; Glob : string }.
End GrepRequest.

Module GlobInfoRequest.
Record t : Type := mk { Path : string; Pattern : string }.
End GlobInfoRequest.

Module WriteRequest.
Record t : Type := mk { FilePath : string; Content : string }.
End WriteRequest.

Module EditRequest.
Record t : Type := mk {
  FilePath : string;
  OldString : string;
  NewString : string;
  ReplaceAll : bool
}.
End EditRequest.

Module ExecuteRequest.
Record t : Type := mk { Command : string }.
End ExecuteRequest.

Module ExecuteResponse.
Record t : Type := mk { Output : string }.
End ExecuteResponse.

(** ** The libraries the backend calls and the model leaves abstract

    SHA-256 and HMAC of the Go runtime, and the JSON encoders and decoders
    ([sonic.Marshal], [sonic.MarshalString], [json.Unmarshal]) at the types
    the backend uses them at.  Marshalling strings and ints cannot fail, so
    the encoders are total. *)

Class Crypto : Type := {
  sha256Sum : string -> string;
  hmacSum : string -> string -> string   (* key, message *)
}.

Class Json (FileInfo GrepMatch : Type) : Type := {
  marshalMap : gmap string any -> string;
  marshalRequest : invokeToolRequest.t -> string;
  unmarshalResponse : string -> fallible response.t;
  unmarshalResult : string -> fallible result.t;
  unmarshalFileInfo : string -> fallible FileInfo;
  unmarshalGrepMatch : string -> fallible GrepMatch
}.

(** ** sandbox.go *)

Definition Region := string.

Definition service : string := "agentkit".
Definition regionOfBeijingBaseURL : string := "https://agentkit.cn-beijing.volces.com".
Definition regionOfShangHaiBaseURL : string := "https://agentkit.cn-shanghai.volces.com".
Definition python3KernelName : string := "python3".
Definition runCodeOperationType : string := "RunCode".

Definition RegionOfBeijing : Region := "cn-beijing".
Definition RegionOfShangHai : Region := "cn-shanghai".

Module Config.
Record t : Type := mk {
  AccessKeyID : string;
  SecretAccessKey : string;
  HTTPClient : option Client;
  Region : Region;
  ToolID : string;
  SessionID : string;
  UserSessionID : string;
  SessionTTL : Z;
  ExecutionTimeout : Z
}.
End Config.

Record sandboxToolBackend : Type := {
  secretAccessKey : string;
  accessKeyID : string;
  baseURL : string;
  region : Region;
  httpClient : Client;
  toolID : string;
  userSessionID : string;
  sessionID : string;
  sessionTTL : Z;
  executionTimeout : Z
}.

Definition isEmpty (s : string) : bool := String.eqb s "".

Definition NewSandboxToolBackend (config : Config.t) : fallible sandboxToolBackend :=
  if isEmpty (Config.AccessKeyID config) then Err "AccessKeyID is required"
  else if isEmpty (Config.SecretAccessKey config) then Err "SecretAccessKey is required"
  else if isEmpty (Config.ToolID config) then Err "ToolID is required"
  else if isEmpty (Config.SessionID config) && isEmpty (Config.UserSessionID config) then
    Err "SessionID or UserSessionID is required, at least one must be provided"
  else
    let httpClient :=
      match Config.HTTPClient config with
      | Some c => c
      | None => DefaultClient
      end in
    let region :=
      if isEmpty (Config.Region config) then RegionOfBeijing else Config.Region config in
    let construct baseURL :=
      Ok {| accessKeyID := Config.AccessKeyID config;
            secretAccessKey := Config.SecretAccessKey config;
            httpClient := httpClient;
            region := region;
            baseURL := baseURL;
            toolID := Config.ToolID config;
            sessionID := Config.SessionID config;
            userSessionID := Config.UserSessionID config;
            sessionTTL := Config.SessionTTL config;
            executionTimeout := Config.ExecutionTimeout config |} in
    if String.eqb region RegionOfBeijing then construct regionOfBeijingBaseURL
    else if String.eqb region RegionOfShangHai then construct regionOfShangHaiBaseURL
    else Err ("invalid region: " +:+ region).

(** [formatPath] normalizes a file path with optional default value and
    absolute path validation. *)
Definition formatPath (path defaultPath : string) (requireAbs : bool) : fallible string :=
  let path := if isEmpty path && negb (isEmpty defaultPath) then defaultPath else path in
  let path := Filepath.Clean path in
  if requireAbs && negb (Filepath.IsAbs path) then
    Err ("path must be an absolute path: " +:+ path)
  else Ok path.

(** The value of a call whose error the caller drops ([path, _ := ...]):
    the zero value on error. *)
Definition orZero (r : fallible string) : string :=
  match r with Ok v => v | Err _ => "" end.

(** [exitCode != nil && *exitCode != 0] *)
Definition nonZero (exitCode : option Z) : option Z :=
  match exitCode with
  | Some c => if c =? 0 then None else Some c
  | None => None
  end.

Section Backend.

Context `{Crypto} {FileInfo GrepMatch : Type} `{Json FileInfo GrepMatch}.

Definition hmacSHA256 (key : string) (content : string) : string :=
  hmacSum key content.

Definition getSignedKey (secretKey date region service : string) : string :=
  let kDate := hmacSHA256 secretKey date in
  let kRegion := hmacSHA256 kDate region in
  let kService := hmacSHA256 kRegion service in
  let kSigning := hmacSHA256 kService "request" in
  kSigning.

Definition hashSHA256 (data : string) : string := sha256Sum data.

Definition signedHeaders : list string :=
  ["host"; "x-date"; "x-content-sha256"; "content-type"].

Definition nl : string := String (ascii_of_nat 10) "".

Definition signRequest (s : sandboxToolBackend) (request : Request.t)
    (queries : Url.Values) (body : string) : Prog Request.t :=
  date ← timeNow;
  let authDate := String.substring 0 8 date in
  let request := Http.HeaderSet request "X-Date" date in
  let payload := Hex.EncodeToString (hashSHA256 body) in
  let request := Http.HeaderSet request "X-Content-Sha256" payload in
  let request := Http.HeaderSet request "Content-Type" "application/json" in
  let queryString := Strings.ReplaceByte (Url.Encode queries) "+" "%20" in
  let headerList :=
    map (fun header =>
           if String.eqb header "host" then header +:+ ":" +:+ Request.Host request
           else header +:+ ":" +:+ Strings.TrimSpace (Http.HeaderGet request header))
        signedHeaders in
  let headerString := Strings.Join headerList nl in
  let canonicalString :=
    Strings.Join [Request.Method request; "/"; queryString; headerString +:+ nl;
                  Strings.Join signedHeaders ";"; payload] nl in
  let hashedCanonicalString := Hex.EncodeToString (hashSHA256 canonicalString) in
  let credentialScope := authDate +:+ "/" +:+ region s +:+ "/" +:+ service +:+ "/request" in
  let signString :=
    Strings.Join ["HMAC-SHA256"; date; credentialScope; hashedCanonicalString] nl in
  let signedKey := getSignedKey (secretAccessKey s) authDate (region s) service in
  let signature := Hex.EncodeToString (hmacSHA256 signedKey signString) in
  let authorization :=
    "HMAC-SHA256" +:+
    " Credential=" +:+ accessKeyID s +:+ "/" +:+ credentialScope +:+
    ", SignedHeaders=" +:+ Strings.Join signedHeaders ";" +:+
    ", Signature=" +:+ signature in
  mret (Http.HeaderSet request "Authorization" authorization).

Definition invokeTool (s : sandboxToolBackend) (method : string) (body : string)
  : Prog (fallible string) :=
  let queries := Url.Set_ (Url.Set_ [] "Action" "InvokeTool") "Version" "2025-10-30" in
  let requestAddr := baseURL s +:+ "/" +:+ "?" +:+ Url.Encode queries in
  let request := Http.NewRequest method requestAddr body in
  request ← signRequest s request queries body;
  r ← clientDo (httpClient s) request;
  match r with
  | Err e => mret (Err ("do request err: " +:+ e))
  | Ok response =>
      match Response.Body response with
      | Err e => mret (Err ("failed to read response body: " +:+ e))
      | Ok responseBody =>
          if negb (Response.StatusCode response =? 200) then
            mret (Err ("request failed with status code "
                       +:+ Strings.Itoa (Response.StatusCode response)))
          else mret (Ok responseBody)
      end
  end.

(** The map [execute] marshals into the operation payload. *)
Definition operationPayloadMap (s : sandboxToolBackend) (command : string)
  : gmap string any :=
  if executionTimeout s <=? 0 then
    <["code" := AString command]> (<["kernelName" := AString python3KernelName]> ∅)
  else
    <["code" := AString command]>
      (<["timeout" := AInt (executionTimeout s)]>
         (<["kernelName" := AString python3KernelName]> ∅)).

(** The request [execute] builds around the marshalled payload. *)
Definition buildRequest (s : sandboxToolBackend) (operationPayload : string)
  : invokeToolRequest.t :=
  let req :=
    invokeToolRequest.mk (toolID s) (sessionID s) (userSessionID s)
      operationPayload runCodeOperationType None in
  if 0 <? sessionTTL s then
    invokeToolRequest.mk (invokeToolRequest.ToolID req) (invokeToolRequest.SessionID req)
      (invokeToolRequest.UserSessionID req) (invokeToolRequest.OperationPayload req)
      (invokeToolRequest.OperationType req) (Some (sessionTTL s))
  else req.

(** [execute] executes a command in the sandbox. *)
Definition execute (s : sandboxToolBackend) (command : string)
  : Prog (string * option Z * option error) :=
  let operationPayload := marshalMap (operationPayloadMap s command) in
  let req := buildRequest s operationPayload in
  let requestBytes := marshalRequest req in
  r ← invokeTool s Http.MethodPost requestBytes;
  match r with
  | Err e => mret ("", None, Some ("failed to invoke tool: " +:+ e))
  | Ok respBody =>
      match unmarshalResponse respBody with
      | Err e => mret ("", None, Some ("failed to unmarshal response: " +:+ e))
      | Ok resp =>
          match unmarshalResult (response.Result resp) with
          | Err e => mret ("", None, Some ("failed to unmarshal result data: " +:+ e))
          | Ok ret =>
              if negb (result.Success ret) then
                let errorExitCode := -1 in
                let text :=
                  match result.Outputs ret with
                  | firstOutput :: _ =>
                      if negb (isEmpty (output.Text firstOutput)) then
                        output.Text firstOutput
                      else if negb (isEmpty (output.EName firstOutput)) then
                        output.EName firstOutput +:+ ": " +:+ output.EValue firstOutput
                      else ""
                  | [] => ""
                  end in
                mret (text, Some errorExitCode, None)
              else
                let exitCode := 0 in (* Success, so exit code is 0 *)
                let text :=
                  match result.Outputs ret with
                  | o :: _ => output.Text o
                  | [] => ""
                  end in
                mret (text, Some exitCode, None)
          end
      end
  end.

(** The tail every operation shares: the error of [execute] wrapped, then
    the exit code checked.  [what] and [exited] are the two message
    prefixes of the operation. *)
Definition checked (what exited : string) (r : string * option Z * option error)
  : fallible string :=
  let '(output, exitCode, err) := r in
  match err with
  | Some e => Err (what +:+ e)
  | None =>
      match nonZero exitCode with
      | Some c => Err (exited +:+ Strings.Itoa c +:+ ": " +:+ output)
      | None => Ok output
      end
  end.

Definition outputLines (output : string) : list string :=
  Strings.Split (Strings.TrimSpace output) (ascii_of_nat 10).

(** The loop of [LsInfo] and [GlobInfo] over the lines of the output. *)
Fixpoint fileInfoLines (lines : list string) (files : list FileInfo) : list FileInfo :=
  match lines with
  | [] => files
  | line :: rest =>
      match unmarshalFileInfo line with
      | Err _ => fileInfoLines rest files   (* continue *)
      | Ok fi => fileInfoLines rest (files ++ [fi])
      end
  end.

(** [LsInfo] lists file information under the given path. *)
Definition LsInfo (s : sandboxToolBackend) (req : LsInfoRequest.t)
  : Prog (fallible (list FileInfo)) :=
  match formatPath (LsInfoRequest.Path req) "/" true with
  | Err e => mret (Err e)
  | Ok path =>
      let params : gmap string any := <["path" := AString path]> ∅ in
      match Pyfmt.Fmt lsInfoPythonCodeTemplate params with
      | Err e => mret (Err ("failed to render ls template: " +:+ e))
      | Ok script =>
          r ← execute s script;
          match checked "failed to execute ls script: "
                        "ls script exited with non-zero code " r with
          | Err e => mret (Err e)
          | Ok output =>
              if isEmpty output then mret (Ok [])
              else mret (Ok (fileInfoLines (outputLines output) []))
          end
      end
  end.

(** [Read] reads file content with support for line-based offset and
    limit.  The request is passed by pointer: the first component of the
    result is the caller's struct as the call leaves it. *)
Definition Read (s : sandboxToolBackend) (req : ReadRequest.t)
  : Prog (ReadRequest.t * fallible string) :=
  match formatPath (ReadRequest.FilePath req) "" true with
  | Err e => mret (req, Err e)
  | Ok path =>
      let req :=
        if ReadRequest.Offset req <=? 0
        then ReadRequest.mk (ReadRequest.FilePath req) 0 (ReadRequest.Limit req)
        else req in
      let req :=
        if ReadRequest.Limit req <=? 0
        then ReadRequest.mk (ReadRequest.FilePath req) (ReadRequest.Offset req) 200
        else req in
      let params : gmap string any :=
        <["file_path" := AString path]>
          (<["offset" := AInt (ReadRequest.Offset req)]>
             (<["limit" := AInt (ReadRequest.Limit req)]> ∅)) in
      match Pyfmt.Fmt readPythonCodeTemplate params with
      | Err e => mret (req, Err ("failed to render read template: " +:+ e))
      | Ok script =>
          r ← execute s script;
          mret (req, checked "failed to execute read script: "
                             "read script exited with non-zero code " r)
      end
  end.

(** The loop of [GrepRaw], which logs the lines it cannot decode. *)
Fixpoint grepMatchLines (lines : list string) (matches : list GrepMatch)
  : Prog (list GrepMatch) :=
  match lines with
  | [] => mret matches
  | line :: rest =>
      match unmarshalGrepMatch line with
      | Err e =>
          _ ← logPrintf ("failed to unmarshal grep match line: " +:+ e
                         +:+ ", line: " +:+ line);
          grepMatchLines rest matches
      | Ok m => grepMatchLines rest (matches ++ [m])
      end
  end.

(** [GrepRaw] searches for content matching the specified pattern in
    files. *)
Definition GrepRaw (s : sandboxToolBackend) (req : GrepRequest.t)
  : Prog (fallible (list GrepMatch)) :=
  let path := orZero (formatPath (GrepRequest.Path req) "" false) in
  let params : gmap string any :=
    <["pattern" := AString (GrepRequest.Pattern req)]>
      (<["path" := AString path]>
         (<["glob_pattern" := AString (GrepRequest.Glob req)]> ∅)) in
  match Pyfmt.Fmt grepPythonCodeTemplate params with
  | Err e => mret (Err ("failed to render grep template: " +:+ e))
  | Ok script =>
      r ← execute s script;
      match checked "failed to execute grep script: "
                    "grep script exited with code " r with
      | Err e => mret (Err e)
      | Ok output =>
          if isEmpty output then mret (Ok [])
          else
            matches ← grepMatchLines (outputLines output) [];
            mret (Ok matches)
      end
  end.

(** [GlobInfo] returns file information matching the glob pattern. *)
Definition GlobInfo (s : sandboxToolBackend) (req : GlobInfoRequest.t)
  : Prog (fallible (list FileInfo)) :=
  let path := orZero (formatPath (GlobInfoRequest.Path req) "/" false) in
  let params : gmap string any :=
    <["path_b64" := AString (Base64.EncodeToString path)]>
      (<["pattern_b64" := AString (Base64.EncodeToString (GlobInfoRequest.Pattern req))]> ∅) in
  match Pyfmt.Fmt globPythonCodeTemplate params with
  | Err e => mret (Err ("failed to render glob template: " +:+ e))
  | Ok script =>
      r ← execute s script;
      match checked "failed to execute glob script: "
                    "glob script exited with non-zero code " r with
      | Err e => mret (Err e)
      | Ok output =>
          if isEmpty output then mret (Ok [])
          else mret (Ok (fileInfoLines (outputLines output) []))
      end
  end.

(** [Write] creates file content.  A Go [error] result is [Some] of the
    error or [None] for [nil]. *)
Definition Write (s : sandboxToolBackend) (req : WriteRequest.t) : Prog (option error) :=
  match formatPath (WriteRequest.FilePath req) "" true with
  | Err e => mret (Some e)
  | Ok path =>
      let params : gmap string any :=
        <["file_path" := AString path]>
          (<["content_b64" := AString (Base64.EncodeToString (WriteRequest.Content req))]> ∅) in
      match Pyfmt.Fmt writePythonCodeTemplate params with
      | Err e => mret (Some ("failed to render write template: " +:+ e))
      | Ok script =>
          r ← execute s script;
          match checked "failed to execute write script: "
                        "write script exited with non-zero code " r with
          | Err e => mret (Some e)
          | Ok _ => mret None
          end
      end
  end.

(** [Edit] replaces string occurrences in a file. *)
Definition Edit (s : sandboxToolBackend) (req : EditRequest.t) : Prog (option error) :=
  match formatPath (EditRequest.FilePath req) "" true with
  | Err e => mret (Some e)
  | Ok path =>
      if isEmpty (EditRequest.OldString req) then mret (Some "old string is required")
      else if String.eqb (EditRequest.OldString req) (EditRequest.NewString req) then
        mret (Some "new string must be different from old string")
      else
        let replaceAll := if negb (EditRequest.ReplaceAll req) then 0 else 1 in
        let params : gmap string any :=
          <["file_path" := AString path]>
            (<["old_b64" := AString (Base64.EncodeToString (EditRequest.OldString req))]>
               (<["new_b64" := AString (Base64.EncodeToString (EditRequest.NewString req))]>
                  (<["replace_all" := AInt replaceAll]> ∅))) in
        match Pyfmt.Fmt editPythonCodeTemplate params with
        | Err e => mret (Some ("failed to render edit template: " +:+ e))
        | Ok script =>
            r ← execute s script;
            match checked "failed to execute edit script: "
                          "edit script exited with non-zero code " r with
            | Err e => mret (Some e)
            | Ok _ => mret None
            end
        end
  end.

Definition Execute (s : sandboxToolBackend) (input : ExecuteRequest.t)
  : Prog (fallible ExecuteResponse.t) :=
  if isEmpty (ExecuteRequest.Command input) then mret (Err "command is required")
  else
    let params : gmap string any :=
      <["command_b64" := AString (Base64.EncodeToString (ExecuteRequest.Command input))]> ∅ in
    match Pyfmt.Fmt executePythonCodeTemplate params with
    | Err e => mret (Err ("failed to render execute template: " +:+ e))
    | Ok script =>
        r ← execute s script;
        match checked "failed to execute command script: "
                      "command exited with non-zero code " r with
        | Err e => mret (Err e)
        | Ok output => mret (Ok (ExecuteResponse.mk output))
        end
    end.

End Backend.

(** ** The read script

    The Python source of [readPythonCodeTemplate], run on the values its
    three parameters are rendered from.  A file system gives the text of the
    regular file at a path, as text mode reads it. *)

Module Python.

Definition newline : ascii := ascii_of_nat 10.

(** [f.readlines()]: the lines of the text, each with its newline (a last
    line may have none). *)
Fixpoint readlines (text : list ascii) : list (list ascii) :=
  match text with
  | [] => []
  | c :: rest =>
      if Ascii.eqb c newline then [c] :: readlines rest
      else match readlines rest with
           | [] => [[c]]
           | l :: ls => (c :: l) :: ls
           end
  end.

Fixpoint dropNewlines (r : list ascii) : list ascii :=
  match r with
  | [] => []
  | c :: rest => if Ascii.eqb c newline then dropNewlines rest else r
  end.

(** [line.rstrip('\n')] *)
Definition rstripNewline (line : list ascii) : list ascii :=
  rev (dropNewlines (rev line)).

(** An index of a slice: a negative one counts from the end, and both
    kinds are clamped to the list. *)
Definition sliceIndex (len i : Z) : Z :=
  if i <? 0 then Z.max 0 (i + len) else Z.min i len.

(** [l[start:stop]] *)
Definition slice {A} (l : list A) (start stop : Z) : list A :=
  let len := Z.of_nat (List.length l) in
  let lo := sliceIndex len start in
  let hi := sliceIndex len stop in
  firstn (Z.to_nat (hi - lo)) (skipn (Z.to_nat lo) l).

Fixpoint spaces (n : nat) : string :=
  match n with O => "" | S n' => String " " (spaces n') end.

(** [f'{n:6d}'] *)
Definition format6d (n : Z) : string :=
  let d := Strings.Itoa n in
  spaces (6 - String.length d) +:+ d.

Definition tab : string := String (ascii_of_nat 9) "".
Definition nl : string := String newline "".

(** The loop over [enumerate(selected_lines)], [i] being the index of the
    first line of [selected]. *)
Fixpoint printLines (offset i : Z) (selected : list (list ascii)) : string :=
  match selected with
  | [] => ""
  | line :: rest =>
      let line_num := offset + i + 1 in
      let line_content := Strings.ofBytes (rstripNewline line) in
      format6d line_num +:+ tab +:+ line_content +:+ nl
      +:+ printLines offset (i + 1) rest
  end.

(** What the script prints and the status it exits with. *)
Definition readScript (fs : string -> option string)
    (file_path : string) (offset limit : Z) : string * Z :=
  match fs file_path with
  | None => ("Error: File not found" +:+ nl, -1)
  | Some text =>
      if (String.length text =? 0)%nat then
        ("System reminder: File exists but has empty contents" +:+ nl, 0)
      else
        let lines := readlines (Strings.bytes text) in
        let start_idx := offset in
        let end_idx := offset + limit in
        let selected_lines := slice lines start_idx end_idx in
        (printLines offset 0 selected_lines, 0)
  end.

End Python.

(** ** The edit script and the execute script

    The Python source of [editPythonCodeTemplate] and of
    [executePythonCodeTemplate], run on the values their parameters decode
    to.  A file system maps the path of each regular file to its text;
    opening any other path for reading raises.  The shell is a function from
    a command to what [subprocess.run] returns for it, or to the exception it
    raises. *)

Module PyStr.

(** [text.count(old)] for a non-empty [old]: the occurrences that do not
    overlap, found from the left.  [skip] counts the characters of the last
    occurrence that are still to be passed. *)
Fixpoint countFrom (old : string) (skip : nat) (text : string) : nat :=
  match text with
  | EmptyString => O
  | String c rest =>
      match skip with
      | S k => countFrom old k rest
      | O =>
          if Strings.HasPrefix text old
          then S (countFrom old (String.length old - 1) rest)
          else countFrom old O rest
      end
  end.

(** [text.count(old)]; the empty string occurs between every two characters
    and at both ends. *)
Definition count (text old : string) : nat :=
  if isEmpty old then S (String.length text) else countFrom old O text.

(** [text.replace(old, new, limit)] for a non-empty [old]; [limit] is the
    number of replacements still allowed, [None] for no bound. *)
Fixpoint replaceFrom (old new : string) (limit : option nat) (skip : nat)
    (text : string) : string :=
  match text with
  | EmptyString => ""
  | String c rest =>
      match skip with
      | S k => replaceFrom old new limit k rest
      | O =>
          let allowed := match limit with Some O => false | _ => true end in
          if allowed && Strings.HasPrefix text old then
            new +:+ replaceFrom old new (option_map pred limit)
                      (String.length old - 1) rest
          else String c (replaceFrom old new limit O rest)
      end
  end.

(** The same for the empty [old]: [new] goes before every character and
    after the last. *)
Fixpoint replaceEmpty (new : string) (limit : option nat) (text : string) : string :=
  match limit with
  | Some O => text
  | _ =>
      new +:+ match text with
              | EmptyString => ""
              | String c rest => String c (replaceEmpty new (option_map pred limit) rest)
              end
  end.

(** [text.replace(old, new)] and [text.replace(old, new, 1)] *)
Definition replace (text old new : string) (limit : option nat) : string :=
  if isEmpty old then replaceEmpty new limit text
  else replaceFrom old new limit O text.

End PyStr.

Module Scripts.

(** How a script ends: it exits with a status after printing to standard
    output, or an exception it does not catch ends it. *)
Inductive outcome : Type :=
| Exited (stdout : string) (status : Z)
| Raised (exception : string).

Definition status (o : outcome) : option Z :=
  match o with
  | Exited _ c => Some c
  | Raised _ => None
  end.

(** The edit script; [replace_all] is the int the template renders. *)
Definition editScript (fs : gmap string string) (file_path old new : string)
    (replace_all : Z) : outcome * gmap string string :=
  match fs !! file_path with
  | None => (Raised "FileNotFoundError", fs)
  | Some text =>
      let count := PyStr.count text old in
      if (count =? 0)%nat then
        (Exited ("Error: String not found in file: '" +:+ old +:+ "'" +:+ Python.nl) (-1),
         fs)
      else if (1 <? count)%nat && (replace_all =? 0) then
        (Exited ("Error: String '" +:+ old
                 +:+ "' appears multiple times. Use replace_all=True to replace all occurrences."
                 +:+ Python.nl) (-1),
         fs)
      else
        let result :=
          if negb (replace_all =? 0) then PyStr.replace text old new None
          else PyStr.replace text old new (Some 1%nat) in
        (Exited (Strings.Itoa (Z.of_nat count) +:+ Python.nl) 0,
         <[file_path := result]> fs)
  end.

(** What [subprocess.run(..., capture_output=True, text=True)] returns. *)
Record completed : Type := {
  stdout : string;
  stderr : string;
  returncode : Z
}.

(** What the execute script writes to standard output and to standard
    error, and the status it exits with. *)
Definition executeScript (shell : string -> fallible completed) (command : string)
  : string * string * Z :=
  match shell command with
  | Err e => ("", "Error executing command script: " +:+ e +:+ Python.nl, 1)
  | Ok result =>
      if negb (isEmpty (stderr result)) then
        ("", "Error executing command: " +:+ stderr result +:+ Python.nl,
         if negb (returncode result =? 0) then returncode result else 1)
      else (stdout result, "", 0)
  end.

End Scripts.

(** ** Definitions the statements below use *)

(** The regions the constructor accepts; the empty one stands for Beijing. *)
Definition validRegion (r : Region) : bool :=
  isEmpty r || String.eqb r RegionOfBeijing || String.eqb r RegionOfShangHai.

(** A configuration that names both a session and a user session. *)
Definition bothSessions : Config.t :=
  Config.mk "ak" "sk" None "" "tool" "session-1" "user-session-1" 0 0.

(** The buffer of a rooted path keeps its leading separator. *)
Definition rootedInv (st : list ascii * nat) : Prop :=
  exists t, fst st = "/"%char :: t /\ snd st = 1%nat.

(** The buffer of an unrooted path never begins with a separator. *)
Definition unrootedInv (st : list ascii * nat) : Prop :=
  match fst st with
  | [] => True
  | c :: _ => c <> "/"%char
  end.

(** The request body [execute] sends for a script. *)
Definition requestBytes `{Crypto} {FileInfo GrepMatch : Type} `{Json FileInfo GrepMatch}
    (s : sandboxToolBackend) (command : string) : string :=
  marshalRequest (buildRequest s (marshalMap (operationPayloadMap s command))).

(** The one request a run of [invokeTool] hands to the client. *)
Definition signedRequest `{Crypto} (w : World) (s : sandboxToolBackend)
    (body : string) : Request.t :=
  let queries := Url.Set_ (Url.Set_ [] "Action" "InvokeTool") "Version" "2025-10-30" in
  fst (run w (signRequest s
                (Http.NewRequest Http.MethodPost
                   (baseURL s +:+ "/" +:+ "?" +:+ Url.Encode queries) body)
                queries body)).

(** The defaults [Read] writes into the request. *)
Definition defaultedOffset (offset : Z) : Z := if offset <=? 0 then 0 else offset.
Definition defaultedLimit (limit : Z) : Z := if limit <=? 0 then 200 else limit.

(** A parameter map in which every value is a string or an int prints a
    field by [Pyfmt.show]; the literal text of a format string around a
    field is found by comparing segments. *)
Definition lits (s : string) : list Pyfmt.segment :=
  map Pyfmt.Lit (Strings.bytes s).

Definition segEqb (x y : Pyfmt.segment) : bool :=
  match x, y with
  | Pyfmt.Lit a, Pyfmt.Lit c => Ascii.eqb a c
  | Pyfmt.Field n, Pyfmt.Field m => String.eqb n m
  | _, _ => false
  end.

Fixpoint segsPrefix (p s : list Pyfmt.segment) : bool :=
  match p, s with
  | [], _ => true
  | _ :: _, [] => false
  | x :: p', y :: s' => segEqb x y && segsPrefix p' s'
  end.

Fixpoint segsInfix (p s : list Pyfmt.segment) : bool :=
  segsPrefix p s
  || match s with
     | [] => false
     | _ :: s' => segsInfix p s'
     end.

(** The format string has the field [name] between the literal texts [L]
    and [R]. *)
Definition hasField (format L name R : string) : bool :=
  match Pyfmt.parse Pyfmt.Text format with
  | Ok segs => segsInfix (lits L ++ Pyfmt.Field name :: lits R) segs
  | Err _ => false
  end.

(** Every field of the format string is one of [names]. *)
Definition fieldsIn (format : string) (names : list string) : bool :=
  match Pyfmt.parse Pyfmt.Text format with
  | Ok segs =>
      forallb (fun seg =>
                 match seg with
                 | Pyfmt.Lit _ => true
                 | Pyfmt.Field n => existsb (String.eqb n) names
                 end) segs
  | Err _ => false
  end.

(** A computation that returns at once: it reads no clock, sends no request
    and logs nothing, whatever the world. *)
Definition returnsAtOnce {A} (p : Prog A) (a : A) : Prop := p = Ret a.

(** ** A concrete world for examples

    Stand-ins for the libraries: a "hash" that is the identity, an "HMAC"
    that joins key and message, and decoders that read a few fixed texts.
    They serve to run the backend on concrete inputs. *)

Definition toyCrypto : Crypto :=
  {| sha256Sum := fun data => data;
     hmacSum := fun key msg => key +:+ "|" +:+ msg |}.

Definition okEnvelope : result.t :=
  result.mk [output.mk "stream" "X" "" ""] true.
Definition failedEnvelope : result.t :=
  result.mk [output.mk "error" "" "E" "V"] false.

(** Records are decoded to their own text; a line decodes when it begins
    with an opening brace. *)
Definition toyJson : Json string string :=
  {| marshalMap := fun m =>
       match m !! "code" with
       | Some (AString c) => c
       | _ => ""
       end;
     marshalRequest := fun r => invokeToolRequest.OperationPayload r;
     unmarshalResponse := fun body =>
       if Strings.HasPrefix body "<" then Err "invalid character '<'"
       else Ok (response.mk body);
     unmarshalResult := fun text =>
       if String.eqb text "ok" then Ok okEnvelope
       else if String.eqb text "failed" then Ok failedEnvelope
       else if Strings.HasPrefix text "lines:" then
         Ok (result.mk [output.mk "stream" (String.substring 6 (String.length text) text) "" ""] true)
       else Err "unexpected end of JSON input";
     unmarshalFileInfo := fun line =>
       if Strings.HasPrefix line "{" then Ok line else Err "invalid character";
     unmarshalGrepMatch := fun line =>
       if Strings.HasPrefix line "{" then Ok line else Err "invalid character" |}.

Definition toyBackend : sandboxToolBackend :=
  {| secretAccessKey := "sk"; accessKeyID := "ak";
     baseURL := regionOfBeijingBaseURL; region := RegionOfBeijing;
     httpClient := DefaultClient; toolID := "tool";
     userSessionID := "user-1"; sessionID := "";
     sessionTTL := 0; executionTimeout := 0 |}.

(** A world whose sandbox answers every request with the given inner
    envelope text. *)
Definition answering (text : string) : World :=
  {| clock := "20261031T120000Z";
     roundTrip := fun _ _ => Ok (Response.mk 200 (Ok text)) |}.

(** A world whose network is down. *)
Definition unreachable : World :=
  {| clock := "20261031T120000Z";
     roundTrip := fun _ _ => Err "dial tcp: connection refused" |}.

(** The inner envelope a run of [execute] decodes, or the error of the
    transport or of one of the two decoding steps. *)
Definition decodedEnvelope `{Crypto} {FileInfo GrepMatch : Type} `{Json FileInfo GrepMatch}
    (w : World) (s : sandboxToolBackend) (command : string) : fallible result.t :=
  match fst (run w (invokeTool s Http.MethodPost (requestBytes s command))) with
  | Err e => Err e
  | Ok respBody =>
      match unmarshalResponse respBody with
      | Err e => Err e
      | Ok resp => unmarshalResult (response.Result resp)
      end
  end.

(** The text of the first output, empty when there is none. *)
Definition firstText (ret : result.t) : string :=
  match head (result.Outputs ret) with
  | Some o => output.Text o
  | None => ""
  end.

(** The records the lines of an output decode to, in order, a line that
    does not decode giving none; and the lines [GrepRaw] logs. *)
Definition decodedFileInfos `{Json FileInfo GrepMatch} (lines : list string)
  : list FileInfo :=
  omap (fun line => match unmarshalFileInfo line with
                    | Ok fi => Some fi
                    | Err _ => None
                    end) lines.

Definition decodedGrepMatches `{Json FileInfo GrepMatch} (lines : list string)
  : list GrepMatch :=
  omap (fun line => match unmarshalGrepMatch line with
                    | Ok m => Some m
                    | Err _ => None
                    end) lines.

Definition grepLogLines `{Json FileInfo GrepMatch} (lines : list string)
  : list string :=
  omap (fun line => match unmarshalGrepMatch line with
                    | Ok _ => None
                    | Err e => Some ("failed to unmarshal grep match line: " +:+ e
                                     +:+ ", line: " +:+ line)
                    end) lines.

(** The script an operation renders, the empty string standing for one
    that does not render. *)
Definition rendered (format : string) (params : gmap string any) : string :=
  match Pyfmt.Fmt format params with
  | Ok script => script
  | Err _ => ""
  end.

(** An output of three lines, the second of which is no JSON record. *)
Definition threeLines : string :=
  "lines:{a}" +:+ String (ascii_of_nat 10) "not json"
  +:+ String (ascii_of_nat 10) "{b}" +:+ String (ascii_of_nat 10) "".

(** ** The signature, as the specification lays it out

    The canonical request: method, path, query string, the four signed
    headers as [name:value] lines (a value trimmed of the white space
    around it), an empty line, the names of the signed headers and the hash
    of the body. *)
Definition signedHeaderNames : string := "host;x-date;x-content-sha256;content-type".

Definition canonicalRequest `{Crypto} (method queryString host date body : string)
  : string :=
  let lf := String (ascii_of_nat 10) "" in
  let payloadHash := Hex.EncodeToString (sha256Sum body) in
  method +:+ lf +:+ "/" +:+ lf +:+ queryString +:+ lf
  +:+ "host:" +:+ host +:+ lf
  +:+ "x-date:" +:+ Strings.TrimSpace date +:+ lf
  +:+ "x-content-sha256:" +:+ Strings.TrimSpace payloadHash +:+ lf
  +:+ "content-type:application/json" +:+ lf
  +:+ lf
  +:+ signedHeaderNames +:+ lf
  +:+ payloadHash.

Definition credentialScopeOf (authDate region : string) : string :=
  authDate +:+ "/" +:+ region +:+ "/" +:+ "agentkit" +:+ "/" +:+ "request".

Definition stringToSign `{Crypto} (date region canonical : string) : string :=
  let lf := String (ascii_of_nat 10) "" in
  "HMAC-SHA256" +:+ lf +:+ date +:+ lf
  +:+ credentialScopeOf (String.substring 0 8 date) region +:+ lf
  +:+ Hex.EncodeToString (sha256Sum canonical).

(** The chain of four HMACs of the signing key. *)
Definition signingKey `{Crypto} (secretKey authDate region : string) : string :=
  hmacSum (hmacSum (hmacSum (hmacSum secretKey authDate) region) "agentkit") "request".

(** ** Files as lists of lines *)

(** The text of a file whose lines, none holding a newline, each end with
    one. *)
Fixpoint textOfLines (lines : list string) : string :=
  match lines with
  | [] => ""
  | l :: rest => l +:+ Python.nl +:+ textOfLines rest
  end.

Definition noNewline (l : string) : bool :=
  forallb (fun c => negb (Ascii.eqb c Python.newline)) (Strings.bytes l).


(** A file system with one file. *)
Definition oneFile (path text : string) : string -> option string :=
  fun p => if String.eqb p path then Some text else None.


(** A search for a text with a quote in it. *)
Definition quotedPattern : GrepRequest.t := GrepRequest.mk "it's" "/tmp" "".

(** ** Definitions the further properties use *)

(** A configuration for the Shanghai region with its own client. *)
Definition shanghaiConfig : Config.t :=
  Config.mk "ak" "sk" (Some (CustomClient 7)) "cn-shanghai" "tool" "" "user-1" 3600 30.

(** The text [execute] returns for a decoded envelope. *)
Definition envelopeText (ret : result.t) : string :=
  match result.Outputs ret with
  | [] => ""
  | o :: _ =>
      if result.Success ret then output.Text o
      else if negb (isEmpty (output.Text o)) then output.Text o
      else if negb (isEmpty (output.EName o)) then
        output.EName o +:+ ": " +:+ output.EValue o
      else ""
  end.

(** The characters of the base64 alphabet and the padding. *)
Definition b64Char (c : ascii) : bool :=
  Url.isAlnum c || Ascii.eqb c "+" || Ascii.eqb c "/" || Ascii.eqb c "=".

(** A world whose sandbox answers every request with the given status and
    an empty body. *)
Definition refusing (code : Z) : World :=
  {| clock := "20261031T120000Z";
     roundTrip := fun _ _ => Ok (Response.mk code (Ok "")) |}.

(** The four header keys [signRequest] sets. *)
Definition signedKeys : list string :=
  ["X-Date"; "X-Content-Sha256"; "Content-Type"; "Authorization"].

(** A shell whose every command prints [out], writes [err] to standard
    error and returns [code]. *)
Definition constantShell (out err : string) (code : Z) : string -> fallible Scripts.completed :=
  fun _ => Ok (Scripts.Build_completed out err code).

(** A file system with the one file [/data/notes.txt]. *)
Definition notesFs (text : string) : gmap string string :=
  <["/data/notes.txt" := text]> ∅.

(** ** The JSON documents the encoders write

    What [sonic.MarshalString] makes of the payload map and [sonic.Marshal]
    of the [invokeToolRequest]: an object whose members are strings, ints
    or null, and the text that prints it. *)

Inductive jvalue : Type :=
| JNull
| JInt (z : Z)
| JString (s : string).

Definition jobject : Type := list (string * jvalue).

Module Sonic.

Definition ofAny (v : any) : jvalue :=
  match v with
  | AString s => JString s
  | AInt z => JInt z
  end.

(** A map is written as an object with one member for each key.  The
    encoder sorts keys only when asked to, so the members come in the order
    in which the runtime walks the map, which is [order] here. *)
Definition ofMap (order : list (string * any) -> list (string * any))
    (m : gmap string any) : jobject :=
  map (fun kv => (fst kv, ofAny (snd kv))) (order (map_to_list m)).

(** A struct is written as an object with one member for each field, under
    the name its tag gives, in the order of the fields.  No tag of
    [invokeToolRequest] says [omitempty], so a nil [Ttl] is written, as
    null. *)
Definition ofRequest (r : invokeToolRequest.t) : jobject :=
  [("ToolId", JString (invokeToolRequest.ToolID r));
   ("SessionId", JString (invokeToolRequest.SessionID r));
   ("UserSessionId", JString (invokeToolRequest.UserSessionID r));
   ("OperationPayload", JString (invokeToolRequest.OperationPayload r));
   ("OperationType", JString (invokeToolRequest.OperationType r));
   ("Ttl", match invokeToolRequest.Ttl r with
           | Some ttl => JInt ttl
           | None => JNull
           end)].

(** The value of the first member of that name. *)
Fixpoint member (key : string) (o : jobject) : option jvalue :=
  match o with
  | [] => None
  | (k, v) :: rest => if String.eqb k key then Some v else member key rest
  end.

(** A string between double quotes, as the encoder writes it when HTML
    escaping is off, its default: the quote and the backslash behind a
    backslash, line feed, carriage return and tab by their letters, the
    other control bytes by their code, every other byte as it is. *)
Definition escape (c : ascii) : string :=
  let n := nat_of_ascii c in
  if Nat.eqb n 34 then "\" +:+ dq
  else if Nat.eqb n 92 then "\\"
  else if Nat.eqb n 10 then "\n"
  else if Nat.eqb n 13 then "\r"
  else if Nat.eqb n 9 then "\t"
  else if Nat.ltb n 32 then "\u00" +:+ Hex.EncodeToString (String c "")
  else String c "".

Definition quote (s : string) : string :=
  dq +:+ String.concat "" (map escape (Strings.bytes s)) +:+ dq.

Definition printValue (quote : string -> string) (v : jvalue) : string :=
  match v with
  | JNull => "null"
  | JInt z => Strings.Itoa z
  | JString s => quote s
  end.

Definition printMember (quote : string -> string) (kv : string * jvalue) : string :=
  quote (fst kv) +:+ ":" +:+ printValue quote (snd kv).

Definition printObject (quote : string -> string) (o : jobject) : string :=
  "{" +:+ Strings.Join (map (printMember quote) o) "," +:+ "}".

End Sonic.

(** The encoders of [sonic], for a way to quote strings and an order of
    map keys, beside the decoders of [decoders]. *)
Definition wireJson {FileInfo GrepMatch : Type} (quote : string -> string)
    (order : list (string * any) -> list (string * any))
    (decoders : Json FileInfo GrepMatch) : Json FileInfo GrepMatch :=
  {| marshalMap := fun m => Sonic.printObject quote (Sonic.ofMap order m);
     marshalRequest := fun r => Sonic.printObject quote (Sonic.ofRequest r);
     unmarshalResponse := unmarshalResponse;
     unmarshalResult := unmarshalResult;
     unmarshalFileInfo := unmarshalFileInfo;
     unmarshalGrepMatch := unmarshalGrepMatch |}.

(** A backend with a session lifetime and an execution timeout. *)
Definition timedBackend : sandboxToolBackend :=
  {| secretAccessKey := "sk"; accessKeyID := "ak";
     baseURL := regionOfBeijingBaseURL; region := RegionOfBeijing;
     httpClient := DefaultClient; toolID := "tool";
     userSessionID := "user-1"; sessionID := "";
     sessionTTL := 600; executionTimeout := 30 |}.

(** A text between double quotes that needs no escape. *)
Definition quoted (s : string) : string := dq +:+ s +:+ dq.

(** The body [execute] sends for [print(1)] from a backend without session
    lifetime and without execution timeout, the keys of the payload in one
    of their two orders. *)
Definition untimedBody : string :=
  "{" +:+ quoted "ToolId" +:+ ":" +:+ quoted "tool"
  +:+ "," +:+ quoted "SessionId" +:+ ":" +:+ quoted ""
  +:+ "," +:+ quoted "UserSessionId" +:+ ":" +:+ quoted "user-1"
  +:+ "," +:+ quoted "OperationPayload" +:+ ":"
  +:+ quoted ("{\" +:+ quoted "kernelName\" +:+ ":\" +:+ quoted "python3\"
              +:+ ",\" +:+ quoted "code\" +:+ ":\" +:+ quoted "print(1)\" +:+ "}")
  +:+ "," +:+ quoted "OperationType" +:+ ":" +:+ quoted "RunCode"
  +:+ "," +:+ quoted "Ttl" +:+ ":null}".

(** ** Tests of the library models against the values Go computes *)

Example Clean_examples :
  map Filepath.Clean
    [""; "/"; "a/b/../c"; "/../abc"; "abc/def/../../.."; "/abc/def/../../..";
     "abc/def/../../../ghi/jkl/../../../mno"; "abc/./../def"; "abc//./../def";
     "abc/../../././../def"; "//a//b/./c/.."; "../../a/"; "/home/gem/"]
  = ["."; "/"; "a/c"; "/abc"; ".."; "/"; "../../mno"; "def"; "def"; "../../def";
     "/a/b"; "../../a"; "/home/gem"].
Proof. vm_compute. reflexivity. Qed.

Example Base64_examples :
  map Base64.EncodeToString [""; "f"; "fo"; "foo"; "foob"; "fooba"; "foobar"; "it's"]
  = [""; "Zg=="; "Zm8="; "Zm9v"; "Zm9vYg=="; "Zm9vYmE="; "Zm9vYmFy"; "aXQncw=="].
Proof. vm_compute. reflexivity. Qed.

Example b64decode_examples :
  map Base64.b64decode ["Zm9vYmFy"; "Zm9vYg=="; "Zm9vYmE="; "Zm9"]
  = [Some "foobar"; Some "foob"; Some "fooba"; None].
Proof. vm_compute. reflexivity. Qed.

Example Url_examples :
  Url.Encode (Url.Set_ (Url.Set_ [] "Version" "2025-10-30") "Action" "InvokeTool")
  = "Action=InvokeTool&Version=2025-10-30"
  /\ Url.QueryEscape "a b&c/d" = "a+b%26c%2Fd"
  /\ Url.Host "https://agentkit.cn-beijing.volces.com/?Action=InvokeTool"
     = "agentkit.cn-beijing.volces.com"
  /\ map Textproto.CanonicalMIMEHeaderKey ["x-date"; "X-Content-Sha256"; "content-type"]
     = ["X-Date"; "X-Content-Sha256"; "Content-Type"]
  /\ Hex.EncodeToString "Hi!" = "486921"
  /\ Strings.TrimSpace (" " +:+ "a b" +:+ String (ascii_of_nat 10) " ") = "a b".
Proof. vm_compute. repeat split; reflexivity. Qed.

Example TrimSpace_examples :
  map Strings.TrimSpace
    [ Strings.ofBytes [Strings.b 9; Strings.b 10; " "; "a"; " "; "b"; " "; Strings.b 13; Strings.b 10]%char;
      Strings.ofBytes ([Strings.b 194; Strings.b 160; "a"; Strings.b 227; Strings.b 128; Strings.b 128])%char;
      Strings.ofBytes ([Strings.b 194; "a"; Strings.b 133])%char;
      "   "; ""; "{}" ]
  = [ "a b"; "a"; Strings.ofBytes ([Strings.b 194; "a"; Strings.b 133])%char; ""; ""; "{}" ]
  /\ Strings.Split ("a" +:+ String (ascii_of_nat 10) "b" +:+ String (ascii_of_nat 10) "")
                   (ascii_of_nat 10) = ["a"; "b"; ""]
  /\ Strings.Split "" (ascii_of_nat 10) = [""]
  /\ Strings.ReplaceByte "a+b+c" "+" "%20" = "a%20b%20c"
  /\ map Strings.Itoa [0; 7; -1; 200; 1000] = ["0"; "7"; "-1"; "200"; "1000"].
Proof. vm_compute. repeat split; reflexivity. Qed.

Example Python_examples :
  Python.slice [1; 2; 3; 4; 5] 1 3 = [2; 3]
  /\ Python.slice [1; 2; 3; 4; 5] 3 10 = [4; 5]
  /\ Python.slice [1; 2; 3; 4; 5] 7 9 = []
  /\ Python.slice [1; 2; 3; 4; 5] (-2) 5 = [4; 5]
  /\ map Strings.ofBytes
        (Python.readlines (Strings.bytes ("a" +:+ Python.nl +:+ Python.nl +:+ "b")))
     = ["a" +:+ Python.nl; Python.nl; "b"]
  /\ map Python.format6d [1; 501; 1234567] = ["     1"; "   501"; "1234567"].
Proof. vm_compute. repeat split; reflexivity. Qed.

Example PyStr_examples :
  map (fun p => PyStr.count (fst p) (snd p))
      [("aaaa", "aa"); ("abcabc", "bc"); ("abc", ""); ("", "x"); ("abab", "aba")]
  = [2; 2; 4; 0; 1]%nat
  /\ PyStr.replace "aaaa" "aa" "b" None = "bb"
  /\ PyStr.replace "aaaa" "aa" "b" (Some 1%nat) = "baa"
  /\ PyStr.replace "abc" "" "-" None = "-a-b-c-"
  /\ PyStr.replace "abc" "" "-" (Some 1%nat) = "-abc"
  /\ PyStr.replace "" "" "-" None = "-"
  /\ PyStr.replace "x foo y foo" "foo" "quux" None = "x quux y quux"
  /\ PyStr.replace "ababa" "aba" "X" None = "Xba".
Proof. vm_compute. repeat split; reflexivity. Qed.

Example Fmt_examples :
  Pyfmt.Fmt "a = '{x}'; n = {n}; f'{{y:6d}}'" (<["x" := AString "v"]> (<["n" := AInt (-12)]> ∅))
  = Ok "a = 'v'; n = -12; f'{y:6d}'"
  /\ isErr (Pyfmt.Fmt "{missing}" ∅) = true
  /\ isErr (Pyfmt.Fmt "a } b" ∅) = true
  /\ isErr (Pyfmt.Fmt "a { b" ∅) = true.
Proof. vm_compute. repeat split; reflexivity. Qed.

(** * Properties *)

(** ** Construction *)

Lemma isEmpty_true (s : string) : isEmpty s = true <-> s = "".
Proof. unfold isEmpty. apply String.eqb_eq. Qed.

Lemma isEmpty_false (s : string) : isEmpty s = false <-> s <> "".
Proof. unfold isEmpty. apply String.eqb_neq. Qed.

(** C3, counterexample: with both [SessionID] and [UserSessionID] set the
    constructor succeeds, so "exactly one" is not what it checks. *)
Lemma NewSandboxToolBackend_accepts_both_sessions :
  Config.SessionID bothSessions <> ""
  /\ Config.UserSessionID bothSessions <> ""
  /\ isErr (NewSandboxToolBackend bothSessions) = false.
Proof. repeat split; vm_compute; congruence. Qed.

(** C3, as amended: [NewSandboxToolBackend] returns an error, and no
    backend, when [AccessKeyID], [SecretAccessKey] or [ToolID] is empty, when
    both [SessionID] and [UserSessionID] are empty, or when the region is not
    one of the known ones; in every other case, also when both session
    identifiers are set, it succeeds. *)
Theorem NewSandboxToolBackend_succeeds_iff (config : Config.t) :
  isErr (NewSandboxToolBackend config) = false
  <-> Config.AccessKeyID config <> ""
      /\ Config.SecretAccessKey config <> ""
      /\ Config.ToolID config <> ""
      /\ (Config.SessionID config <> "" \/ Config.UserSessionID config <> "")
      /\ validRegion (Config.Region config) = true.
Proof.
  unfold NewSandboxToolBackend, validRegion.
  rewrite <- !isEmpty_false.
  destruct (isEmpty (Config.AccessKeyID config)); simpl;
    [ split; [discriminate | intros (? & _); discriminate] | ].
  destruct (isEmpty (Config.SecretAccessKey config)); simpl;
    [ split; [discriminate | intros (_ & ? & _); discriminate] | ].
  destruct (isEmpty (Config.ToolID config)); simpl;
    [ split; [discriminate | intros (_ & _ & ? & _); discriminate] | ].
  destruct (isEmpty (Config.SessionID config));
    destruct (isEmpty (Config.UserSessionID config)); simpl;
    try (split; [discriminate | intros (_ & _ & _ & [?|?] & _); discriminate]).
  all: destruct (isEmpty (Config.Region config)); simpl; [ intuition | ].
  all: destruct (String.eqb (Config.Region config) RegionOfBeijing); simpl;
       [ intuition | ].
  all: destruct (String.eqb (Config.Region config) RegionOfShangHai); simpl;
       [ intuition | ].
  all: split; [ discriminate | intros (_ & _ & _ & _ & ?); discriminate ].
Qed.

(** ** Running computations *)

Lemma run_bind {A B} (w : World) (p : Prog A) (f : A -> Prog B) :
  run w (p ≫= f)
  = (fst (run w (f (fst (run w p)))),
     snd (run w p) ++ snd (run w (f (fst (run w p))))).
Proof.
  change (p ≫= f) with (bind p f).
  induction p as [a | k IH | c r k IH | m k IH]; simpl.
  - destruct (run w (f a)); reflexivity.
  - apply IH.
  - rewrite IH. destruct (run w (k (roundTrip w c r))); reflexivity.
  - rewrite IH. destruct (run w k); reflexivity.
Qed.

Lemma run_ret {A} (w : World) (a : A) : run w (mret a) = (a, []).
Proof. reflexivity. Qed.

(** ** Strings *)

Lemma HasPrefix_app (sub post : string) : Strings.HasPrefix (sub +:+ post) sub = true.
Proof.
  induction sub as [| c sub IH]; simpl; [reflexivity |].
  rewrite Ascii.eqb_refl. exact IH.
Qed.

Lemma Contains_prefix (s sub : string) :
  Strings.HasPrefix s sub = true -> Strings.Contains s sub = true.
Proof. intros Hp. destruct s; cbn [Strings.Contains]; rewrite Hp; reflexivity. Qed.

Lemma Contains_app (pre sub post : string) :
  Strings.Contains (pre +:+ sub +:+ post) sub = true.
Proof.
  induction pre as [| c pre IH].
  - change ("" +:+ sub +:+ post) with (sub +:+ post).
    apply Contains_prefix, HasPrefix_app.
  - change (String c pre +:+ sub +:+ post) with (String c (pre +:+ sub +:+ post)).
    cbn [Strings.Contains]. rewrite IH. apply orb_true_r.
Qed.

Lemma HasPrefix_cons (c : ascii) (s : string) :
  Strings.HasPrefix (String c s) "/" = Ascii.eqb c "/".
Proof.
  cbn [Strings.HasPrefix]. rewrite Ascii.eqb_sym.
  destruct s; apply andb_true_r.
Qed.

(** ** [filepath.Clean] keeps a path rooted or unrooted *)

Lemma backtrack_ge (out : list ascii) (dotdot w : nat) :
  (dotdot <= w)%nat -> (dotdot <= Filepath.backtrack out dotdot w)%nat.
Proof.
  induction w as [| w IH]; simpl; intros Hle; [lia |].
  destruct (Nat.ltb_spec dotdot (S w)); simpl; [| lia].
  destruct (negb _); [apply IH; lia | lia].
Qed.

Lemma SplitByte_no_sep (s : list ascii) (sep : ascii) :
  Forall (fun e => ~ In sep e) (Strings.SplitByte s sep).
Proof.
  induction s as [| c s IH]; simpl.
  - repeat constructor. intros [].
  - destruct (Ascii.eqb_spec c sep) as [-> | Hne].
    + constructor; [intros [] | exact IH].
    + destruct (Strings.SplitByte s sep) as [| e es]; simpl.
      * repeat constructor. intros [? | []]. congruence.
      * inversion IH; subst. constructor; [| assumption].
        intros [? | ?]; [congruence | contradiction].
Qed.

Lemma elemEqb_nil (e : list ascii) : Filepath.elemEqb e [] = false -> e <> [].
Proof. intros Hf ->. discriminate. Qed.

Lemma cleanStep_rooted (st : list ascii * nat) (e : list ascii) :
  rootedInv st -> rootedInv (Filepath.cleanStep true st e).
Proof.
  destruct st as [out dotdot]. intros (t & Hout & Hdd). simpl in *. subst.
  unfold Filepath.cleanStep.
  destruct (Filepath.elemEqb e []); [exists t; auto |].
  destruct (Filepath.elemEqb e Filepath.dotElem); [exists t; auto |].
  destruct (Filepath.elemEqb e Filepath.dotdotElem).
  - destruct (Nat.ltb_spec 1 (length ("/"%char :: t))) as [Hlt |]; [| exists t; auto].
    pose proof (backtrack_ge ("/"%char :: t) 1 (length ("/"%char :: t) - 1)) as Hb.
    destruct (Filepath.backtrack _ _ _) as [| k]; [lia |].
    simpl. eexists; split; reflexivity.
  - match goal with |- context [if ?b then _ else _] => destruct b end;
      simpl; eexists; split; reflexivity.
Qed.

Lemma cleanStep_unrooted (st : list ascii * nat) (e : list ascii) :
  ~ In "/"%char e -> unrootedInv st -> unrootedInv (Filepath.cleanStep false st e).
Proof.
  destruct st as [out dotdot]. unfold unrootedInv. simpl. intros He Hout.
  unfold Filepath.cleanStep.
  destruct (Filepath.elemEqb e []) eqn:Hnil; [exact Hout |].
  destruct (Filepath.elemEqb e Filepath.dotElem); [exact Hout |].
  destruct (Filepath.elemEqb e Filepath.dotdotElem).
  - destruct (dotdot <? length out)%nat; simpl.
    + destruct out as [| c out]; [destruct (Filepath.backtrack _ _ _); exact I |].
      destruct (Filepath.backtrack _ _ _); simpl; [exact I | exact Hout].
    + destruct out as [| c out]; simpl; [discriminate | exact Hout].
  - simpl. destruct out as [| c out]; simpl.
    + apply elemEqb_nil in Hnil. destruct e as [| c e]; [congruence |].
      simpl. intros ->. apply He. left. reflexivity.
    + exact Hout.
Qed.

Lemma fold_cleanStep_rooted (es : list (list ascii)) (st : list ascii * nat) :
  rootedInv st -> rootedInv (fold_left (Filepath.cleanStep true) es st).
Proof.
  revert st. induction es as [| e es IH]; simpl; intros st Hst; [exact Hst |].
  apply IH, cleanStep_rooted, Hst.
Qed.

Lemma fold_cleanStep_unrooted (es : list (list ascii)) (st : list ascii * nat) :
  Forall (fun e => ~ In "/"%char e) es ->
  unrootedInv st -> unrootedInv (fold_left (Filepath.cleanStep false) es st).
Proof.
  revert st. induction es as [| e es IH]; simpl; intros st Hes Hst; [exact Hst |].
  inversion Hes; subst. apply IH; [assumption |]. apply cleanStep_unrooted; assumption.
Qed.

Lemma Clean_IsAbs (path : string) :
  Filepath.IsAbs (Filepath.Clean path) = Filepath.IsAbs path.
Proof.
  unfold Filepath.Clean, Filepath.IsAbs.
  destruct path as [| c rest]; [reflexivity |].
  rewrite HasPrefix_cons. simpl Strings.bytes. cbv iota.
  unfold Filepath.isSep.
  destruct (Ascii.eqb c "/") eqn:Hc.
  - pose proof (fold_cleanStep_rooted
                  (Strings.SplitByte (c :: list_ascii_of_string rest) "/")
                  (["/"%char], 1%nat)) as Hinv.
    destruct (fold_left _ _ _) as [out dd].
    destruct Hinv as (t & Hout & _); [exists []; auto |]. simpl in Hout. subst out.
    reflexivity.
  - pose proof (fold_cleanStep_unrooted
                  (Strings.SplitByte (c :: list_ascii_of_string rest) "/")
                  ([], O) (SplitByte_no_sep _ _) I) as Hinv.
    destruct (fold_left _ _ _) as [out dd]. unfold unrootedInv in Hinv. simpl in Hinv.
    destruct out as [| d out]; [reflexivity |].
    change (Strings.ofBytes (d :: out)) with (String d (Strings.ofBytes out)).
    rewrite HasPrefix_cons. apply Ascii.eqb_neq. exact Hinv.
Qed.

(** ** The transport *)

Section Transport.

Context `{Crypto} {FileInfo GrepMatch : Type} `{Json FileInfo GrepMatch}.

Lemma run_signRequest (w : World) (s : sandboxToolBackend) (request : Request.t)
    (queries : Url.Values) (body : string) :
  snd (run w (signRequest s request queries body)) = []
  /\ Request.Body (fst (run w (signRequest s request queries body))) = Request.Body request.
Proof. unfold signRequest. rewrite run_bind. split; reflexivity. Qed.

(** A run of [invokeTool] sends one request, through the client of the
    backend, and logs nothing. *)
Lemma run_invokeTool (w : World) (s : sandboxToolBackend) (body : string) :
  snd (run w (invokeTool s Http.MethodPost body))
  = [EvRequest (httpClient s) (signedRequest w s body)]
  /\ Request.Body (signedRequest w s body) = body.
Proof.
  unfold invokeTool, signedRequest.
  set (q := Url.Set_ _ _ _). set (r0 := Http.NewRequest _ _ _).
  destruct (run_signRequest w s r0 q body) as [Ht Hb].
  split; [| exact Hb].
  rewrite run_bind, Ht, run_bind. unfold clientDo.
  cbn [run fst snd app].
  destruct (roundTrip w (httpClient s) _) as [resp | e]; [| reflexivity].
  destruct (Response.Body resp); [| reflexivity].
  destruct (negb _); reflexivity.
Qed.

(** So does a run of [execute], and the body of the request is the
    marshalled [invokeToolRequest]. *)
Lemma run_execute (w : World) (s : sandboxToolBackend) (command : string) :
  snd (run w (execute s command))
  = [EvRequest (httpClient s) (signedRequest w s (requestBytes s command))].
Proof.
  unfold execute. rewrite run_bind.
  destruct (run_invokeTool w s (requestBytes s command)) as [Ht _].
  unfold requestBytes in *. rewrite Ht.
  destruct (fst (run w (invokeTool _ _ _))) as [respBody | e]; [| reflexivity].
  destruct (unmarshalResponse respBody) as [resp | e]; [| reflexivity].
  destruct (unmarshalResult _) as [ret | e]; [| reflexivity].
  destruct (negb _); reflexivity.
Qed.

End Transport.

(** ** Rendering *)

Lemma segEqb_eq (x y : Pyfmt.segment) : segEqb x y = true -> x = y.
Proof.
  destruct x, y; simpl; try discriminate.
  - intros E%Ascii.eqb_eq. congruence.
  - intros E%String.eqb_eq. congruence.
Qed.

Lemma segsPrefix_spec (p s : list Pyfmt.segment) :
  segsPrefix p s = true -> exists t, s = p ++ t.
Proof.
  revert s. induction p as [| x p IH]; intros s; simpl.
  - exists s. reflexivity.
  - destruct s as [| y s]; [discriminate |].
    intros [E1 E2]%andb_true_iff. apply segEqb_eq in E1. subst y.
    destruct (IH s E2) as [t ->]. exists t. reflexivity.
Qed.

Lemma segsInfix_spec (p s : list Pyfmt.segment) :
  segsInfix p s = true -> exists a t, s = a ++ p ++ t.
Proof.
  induction s as [| y s IH]; simpl.
  - rewrite orb_false_r. intros [t ->]%segsPrefix_spec. exists [], t. reflexivity.
  - intros [E | E]%orb_true_iff.
    + apply segsPrefix_spec in E as [t E]. exists [], t. exact E.
    + destruct (IH E) as (a & t & ->). exists (y :: a), t. reflexivity.
Qed.

Lemma append_assoc (a c d : string) : (a +:+ c) +:+ d = a +:+ c +:+ d.
Proof.
  induction a as [| x a IH]; [reflexivity |].
  change (String x ((a +:+ c) +:+ d) = String x (a +:+ c +:+ d)).
  f_equal. exact IH.
Qed.

Lemma render_app (params : gmap string any) (a c : list Pyfmt.segment) (s : string) :
  Pyfmt.render params (a ++ c) = Ok s ->
  exists x y, Pyfmt.render params a = Ok x /\ Pyfmt.render params c = Ok y
              /\ s = x +:+ y.
Proof.
  revert s. induction a as [| seg a IH]; intros s; simpl.
  - intros E. exists "", s. auto.
  - destruct seg as [ch | name].
    + destruct (Pyfmt.render params (a ++ c)) as [r |] eqn:E; [| discriminate].
      intros [= <-]. destruct (IH r eq_refl) as (x & y & -> & Hy & ->).
      exists (String ch x), y. auto.
    + destruct (params !! name) as [v |]; [| discriminate].
      destruct (Pyfmt.render params (a ++ c)) as [r |] eqn:E; [| discriminate].
      intros [= <-]. destruct (IH r eq_refl) as (x & y & -> & Hy & ->).
      exists (Pyfmt.show v +:+ x), y. rewrite append_assoc. auto.
Qed.

Lemma ofBytes_bytes (s : string) : Strings.ofBytes (Strings.bytes s) = s.
Proof. apply string_of_list_ascii_of_string. Qed.

Lemma bytes_ofBytes (l : list ascii) : Strings.bytes (Strings.ofBytes l) = l.
Proof. apply list_ascii_of_string_of_list_ascii. Qed.

Lemma render_lits (params : gmap string any) (s : string) :
  Pyfmt.render params (lits s) = Ok s.
Proof.
  induction s as [| c s IH]; [reflexivity |].
  change (lits (String c s)) with (Pyfmt.Lit c :: lits s).
  cbn [Pyfmt.render]. rewrite IH. reflexivity.
Qed.

(** The rendering of a format string holds, between the texts that
    surround a field, what [show] prints for the value of the field. *)
Lemma Fmt_field (format : string) (params : gmap string any)
    (L name R script : string) (v : any) :
  Pyfmt.Fmt format params = Ok script ->
  hasField format L name R = true ->
  params !! name = Some v ->
  Strings.Contains script (L +:+ Pyfmt.show v +:+ R) = true.
Proof.
  unfold Pyfmt.Fmt, hasField.
  destruct (Pyfmt.parse Pyfmt.Text format) as [segs |]; [| discriminate].
  intros Hr Hin Hv. apply segsInfix_spec in Hin as (a & t & ->).
  apply render_app in Hr as (x & y & _ & Hy & ->).
  rewrite <- app_assoc in Hy. apply render_app in Hy as (l & z & Hl & Hz & ->).
  rewrite render_lits in Hl. injection Hl as <-.
  simpl in Hz. rewrite Hv in Hz.
  destruct (Pyfmt.render params (lits R ++ t)) as [r |] eqn:E; [| discriminate].
  injection Hz as <-.
  apply render_app in E as (r1 & r2 & Hr1 & _ & ->).
  rewrite render_lits in Hr1. injection Hr1 as <-.
  replace (x +:+ L +:+ Pyfmt.show v +:+ R +:+ r2)
    with (x +:+ (L +:+ Pyfmt.show v +:+ R) +:+ r2).
  - apply Contains_app.
  - rewrite !append_assoc. reflexivity.
Qed.

Lemma Fmt_ok (format : string) (params : gmap string any) (names : list string) :
  fieldsIn format names = true ->
  Forall (fun n => is_Some (params !! n)) names ->
  exists script, Pyfmt.Fmt format params = Ok script.
Proof.
  unfold fieldsIn, Pyfmt.Fmt.
  destruct (Pyfmt.parse Pyfmt.Text format) as [segs |]; [| discriminate].
  intros Hall Hnames. induction segs as [| seg segs IH]; simpl in *.
  - eauto.
  - apply andb_true_iff in Hall as [Hseg Hall]. destruct (IH Hall) as [r ->].
    destruct seg as [c | n]; [eauto |].
    apply existsb_exists in Hseg as (m & Hin & ->%String.eqb_eq).
    rewrite Forall_forall in Hnames. destruct (Hnames m) as [v ->]; [| eauto].
    apply list_elem_of_In. exact Hin.
Qed.

Lemma returnsAtOnce_run {A} (p : Prog A) (a : A) (w : World) :
  returnsAtOnce p a -> run w p = (a, []).
Proof. intros ->. reflexivity. Qed.

(** ** Path validation *)

Lemma formatPath_relative (path : string) :
  Filepath.IsAbs path = false ->
  formatPath path "" true
  = Err ("path must be an absolute path: " +:+ Filepath.Clean path).
Proof.
  intros Hrel. unfold formatPath.
  replace (isEmpty path && negb (isEmpty "")) with false
    by (symmetry; apply andb_false_r).
  rewrite Clean_IsAbs, Hrel. reflexivity.
Qed.

Lemma formatPath_absolute (path : string) :
  Filepath.IsAbs path = true ->
  formatPath path "" true = Ok (Filepath.Clean path).
Proof.
  intros Habs. unfold formatPath.
  replace (isEmpty path && negb (isEmpty "")) with false
    by (symmetry; apply andb_false_r).
  rewrite Clean_IsAbs, Habs. reflexivity.
Qed.

Lemma absolute_path_message (path : string) :
  Strings.Contains ("path must be an absolute path: " +:+ path) "absolute path" = true.
Proof.
  change ("path must be an absolute path: " +:+ path)
    with ("path must be an " +:+ "absolute path" +:+ (": " +:+ path)).
  apply Contains_app.
Qed.

Section Operations.

Context `{Crypto} {FileInfo GrepMatch : Type} `{Json FileInfo GrepMatch}.

(** An operation that goes on after [execute] without logging sends the one
    request of [execute]. *)
Lemma run_after_execute {A} (w : World) (s : sandboxToolBackend) (script : string)
    (k : string * option Z * option error -> Prog A) :
  (forall r, snd (run w (k r)) = []) ->
  snd (run w (execute s script ≫= k))
  = [EvRequest (httpClient s) (signedRequest w s (requestBytes s script))].
Proof. intros Hk. rewrite run_bind, run_execute, Hk. reflexivity. Qed.

(** C6: for a path that is not absolute, [Read], [Write] and [Edit] return
    at once, with no remote call, an error that mentions "absolute path";
    [LsInfo] and [GlobInfo] called with the empty path pass validation with
    the path "/" and send the script rendered for it. *)
Theorem relative_path_rejected_empty_path_defaults
    (s : sandboxToolBackend) (path : string) :
  Filepath.IsAbs path = false ->
  (forall offset limit, exists e,
      returnsAtOnce (Read s (ReadRequest.mk path offset limit))
                    (ReadRequest.mk path offset limit, Err e)
      /\ Strings.Contains e "absolute path" = true)
  /\ (forall content, exists e,
         returnsAtOnce (Write s (WriteRequest.mk path content)) (Some e)
         /\ Strings.Contains e "absolute path" = true)
  /\ (forall old new all, exists e,
         returnsAtOnce (Edit s (EditRequest.mk path old new all)) (Some e)
         /\ Strings.Contains e "absolute path" = true)
  /\ formatPath "" "/" true = Ok "/"
  /\ formatPath "" "/" false = Ok "/"
  /\ (forall w, exists script,
         Pyfmt.Fmt lsInfoPythonCodeTemplate (<["path" := AString "/"]> ∅) = Ok script
         /\ Strings.Contains script "path = '/'" = true
         /\ snd (run w (LsInfo s (LsInfoRequest.mk "")))
            = [EvRequest (httpClient s) (signedRequest w s (requestBytes s script))])
  /\ (forall pattern w, exists script,
         Pyfmt.Fmt globPythonCodeTemplate
           (<["path_b64" := AString (Base64.EncodeToString "/")]>
              (<["pattern_b64" := AString (Base64.EncodeToString pattern)]> ∅))
         = Ok script
         /\ Base64.EncodeToString "/" = "Lw=="
         /\ Strings.Contains script "path = base64.b64decode('Lw==').decode('utf-8')" = true
         /\ snd (run w (GlobInfo s (GlobInfoRequest.mk "" pattern)))
            = [EvRequest (httpClient s) (signedRequest w s (requestBytes s script))]).
Proof.
  intros Hrel. pose proof (formatPath_relative path Hrel) as Hfp.
  split; [| split; [| split; [| split; [| split; [| split]]]]].
  - intros offset limit. eexists. split; [| apply absolute_path_message].
    unfold returnsAtOnce, Read. cbn [ReadRequest.FilePath]. rewrite Hfp. reflexivity.
  - intros content. eexists. split; [| apply absolute_path_message].
    unfold returnsAtOnce, Write. cbn [WriteRequest.FilePath]. rewrite Hfp. reflexivity.
  - intros old new all. eexists. split; [| apply absolute_path_message].
    unfold returnsAtOnce, Edit. cbn [EditRequest.FilePath]. rewrite Hfp. reflexivity.
  - vm_compute. reflexivity.
  - vm_compute. reflexivity.
  - intros w.
    destruct (Fmt_ok lsInfoPythonCodeTemplate (<["path" := AString "/"]> ∅) ["path"])
      as [script Hs].
    { vm_compute. reflexivity. }
    { repeat constructor. vm_compute. eauto. }
    exists script. split; [exact Hs |]. split.
    + apply (Fmt_field _ _ "path = '" "path" "'" script (AString "/") Hs).
      * vm_compute. reflexivity.
      * vm_compute. reflexivity.
    + unfold LsInfo. cbn [LsInfoRequest.Path].
      replace (formatPath "" "/" true) with (@Ok string "/") by (vm_compute; reflexivity).
      cbv iota. rewrite Hs. apply run_after_execute.
      intros [[o c] e]. unfold checked. destruct e; [reflexivity |].
      destruct (nonZero c); [reflexivity |]. destruct (isEmpty o); reflexivity.
  - intros pattern w.
    set (params := <["path_b64" := _]> _).
    destruct (Fmt_ok globPythonCodeTemplate params ["path_b64"; "pattern_b64"])
      as [script Hs].
    { vm_compute. reflexivity. }
    { subst params. generalize (Base64.EncodeToString pattern). intros p64.
      repeat constructor; vm_compute; eauto. }
    exists script. split; [exact Hs |]. split; [vm_compute; reflexivity |]. split.
    { apply (Fmt_field _ params "path = base64.b64decode('" "path_b64"
               "').decode('utf-8')" script (AString "Lw==") Hs).
      - vm_compute. reflexivity.
      - subst params. generalize (Base64.EncodeToString pattern). intros p64.
        vm_compute. reflexivity. }
    unfold GlobInfo. cbn [GlobInfoRequest.Path GlobInfoRequest.Pattern].
    replace (formatPath "" "/" false) with (@Ok string "/") by (vm_compute; reflexivity).
    cbn [orZero]. fold params. rewrite Hs. apply run_after_execute.
    intros [[o c] e]. unfold checked. destruct e; [reflexivity |].
    destruct (nonZero c); [reflexivity |]. destruct (isEmpty o); reflexivity.
Qed.

End Operations.

(** C6 at the relative path [docs/readme.md]. *)
Lemma relative_path_rejected_witness :
  Filepath.IsAbs "docs/readme.md" = false
  /\ exists e,
      returnsAtOnce
        (@Read toyCrypto string string toyJson toyBackend
               (ReadRequest.mk "docs/readme.md" 0 10))
        (ReadRequest.mk "docs/readme.md" 0 10, Err e)
      /\ Strings.Contains e "absolute path" = true.
Proof.
  split; [reflexivity |].
  apply (@relative_path_rejected_empty_path_defaults toyCrypto string string toyJson
           toyBackend "docs/readme.md"); reflexivity.
Defined.

Section EditAndRead.

Context `{Crypto} {FileInfo GrepMatch : Type} `{Json FileInfo GrepMatch}.

(** The parameters [Edit] renders its template with. *)
Lemma Edit_renders (path old64 new64 : string) (all : Z) :
  exists script,
    Pyfmt.Fmt editPythonCodeTemplate
      (<["file_path" := AString path]>
         (<["old_b64" := AString old64]>
            (<["new_b64" := AString new64]>
               (<["replace_all" := AInt all]> ∅)))) = Ok script.
Proof.
  apply (Fmt_ok _ _ ["file_path"; "old_b64"; "new_b64"; "replace_all"]).
  - vm_compute. reflexivity.
  - repeat constructor; vm_compute; eauto.
Qed.

(** C7: [Edit] returns an error at once, before any script is rendered or
    sent, when [OldString] is empty or equal to [NewString]; a run of [Edit]
    that sends a request has passed both checks; and when the path is
    absolute and both checks pass, [Edit] renders the edit template and sends
    the script. *)
Theorem Edit_validates_before_remote_call (s : sandboxToolBackend) (req : EditRequest.t) :
  (EditRequest.OldString req = "" \/ EditRequest.OldString req = EditRequest.NewString req ->
   exists e, returnsAtOnce (Edit s req) (Some e))
  /\ (forall w, snd (run w (Edit s req)) <> [] ->
        EditRequest.OldString req <> ""
        /\ EditRequest.OldString req <> EditRequest.NewString req)
  /\ (Filepath.IsAbs (EditRequest.FilePath req) = true ->
      EditRequest.OldString req <> "" ->
      EditRequest.OldString req <> EditRequest.NewString req ->
      forall w, exists script,
        Pyfmt.Fmt editPythonCodeTemplate
          (<["file_path" := AString (Filepath.Clean (EditRequest.FilePath req))]>
             (<["old_b64" := AString (Base64.EncodeToString (EditRequest.OldString req))]>
                (<["new_b64" := AString (Base64.EncodeToString (EditRequest.NewString req))]>
                   (<["replace_all" := AInt (if EditRequest.ReplaceAll req then 1 else 0)]> ∅))))
        = Ok script
        /\ snd (run w (Edit s req))
           = [EvRequest (httpClient s) (signedRequest w s (requestBytes s script))]).
Proof.
  assert (Hearly : EditRequest.OldString req = ""
                   \/ EditRequest.OldString req = EditRequest.NewString req ->
                   exists e, returnsAtOnce (Edit s req) (Some e)).
  { intros Hbad. unfold returnsAtOnce, Edit.
    destruct (formatPath _ _ _) as [path | e]; [| eauto].
    destruct (isEmpty (EditRequest.OldString req)) eqn:He; [eauto |].
    destruct (String.eqb_spec (EditRequest.OldString req) (EditRequest.NewString req))
      as [Heq | Hne]; [eauto |].
    apply isEmpty_false in He. destruct Hbad; contradiction. }
  split; [exact Hearly |]. split.
  - intros w Hsent.
    destruct (String.eqb_spec (EditRequest.OldString req) "") as [He | He].
    + destruct (Hearly (or_introl He)) as [e Hr]. rewrite Hr in Hsent. contradiction.
    + split; [exact He |]. intros Heq.
      destruct (Hearly (or_intror Heq)) as [e Hr]. rewrite Hr in Hsent. contradiction.
  - intros Habs Hold Hneq w.
    destruct (Edit_renders (Filepath.Clean (EditRequest.FilePath req))
                (Base64.EncodeToString (EditRequest.OldString req))
                (Base64.EncodeToString (EditRequest.NewString req))
                (if EditRequest.ReplaceAll req then 1 else 0)) as [script Hs].
    exists script. split; [exact Hs |].
    unfold Edit. rewrite (formatPath_absolute _ Habs).
    apply isEmpty_false in Hold. rewrite Hold.
    apply String.eqb_neq in Hneq. rewrite Hneq.
    replace (if negb (EditRequest.ReplaceAll req) then 0 else 1)
      with (if EditRequest.ReplaceAll req then 1 else 0)
      by (destruct (EditRequest.ReplaceAll req); reflexivity).
    rewrite Hs. apply run_after_execute.
    intros [[o c] e]. unfold checked. destruct e; [reflexivity |].
    destruct (nonZero c); reflexivity.
Qed.

(** C10, as amended: when the path of the request is absolute, [Read]
    leaves in the caller's request the offset 0 in place of one that is zero
    or negative and the limit 200 in place of one that is zero or negative,
    and leaves [FilePath] as it was; when the path is not absolute, [Read]
    returns before it writes anything and the request is unchanged. *)
Theorem Read_mutates_request_after_validation
    (w : World) (s : sandboxToolBackend) (req : ReadRequest.t) :
  let req' := fst (fst (run w (Read s req))) in
  (Filepath.IsAbs (ReadRequest.FilePath req) = true ->
   req' = ReadRequest.mk (ReadRequest.FilePath req)
            (defaultedOffset (ReadRequest.Offset req))
            (defaultedLimit (ReadRequest.Limit req)))
  /\ (Filepath.IsAbs (ReadRequest.FilePath req) = false -> req' = req).
Proof.
  cbv zeta. split; intros Hp; unfold Read.
  - rewrite (formatPath_absolute _ Hp). unfold defaultedOffset, defaultedLimit.
    destruct req as [fp off lim]. cbn [ReadRequest.FilePath ReadRequest.Offset ReadRequest.Limit].
    destruct (off <=? 0); cbn [ReadRequest.FilePath ReadRequest.Offset ReadRequest.Limit];
      destruct (lim <=? 0); cbn [ReadRequest.FilePath ReadRequest.Offset ReadRequest.Limit];
      (destruct (Pyfmt.Fmt _ _); [rewrite run_bind |]; reflexivity).
  - rewrite (formatPath_relative _ Hp). reflexivity.
Qed.

End EditAndRead.

(** C10, counterexample: with a relative path and a zero limit, [Read]
    returns the request as it got it, offset and limit not defaulted. *)
Lemma Read_relative_path_leaves_request :
  let req := ReadRequest.mk "notes.txt" (-1) 0 in
  ReadRequest.Offset req <= 0
  /\ ReadRequest.Limit req <= 0
  /\ fst (fst (run unreachable (@Read toyCrypto string string toyJson toyBackend req))) = req
  /\ ReadRequest.Limit
       (fst (fst (run unreachable (@Read toyCrypto string string toyJson toyBackend req))))
     <> 200.
Proof. vm_compute. repeat split; congruence. Qed.

(** C7 at an edit whose two strings are the same. *)
Lemma Edit_validates_witness :
  exists e,
    returnsAtOnce
      (@Edit toyCrypto string string toyJson toyBackend
             (EditRequest.mk "/data/file.txt" "same" "same" false))
      (Some e).
Proof.
  apply (@Edit_validates_before_remote_call toyCrypto string string toyJson toyBackend
           (EditRequest.mk "/data/file.txt" "same" "same" false)).
  right. reflexivity.
Defined.

(** C10 as amended, at an absolute path with offset -3 and limit 0. *)
Lemma Read_mutates_request_witness :
  Filepath.IsAbs "/data/file.txt" = true
  /\ fst (fst (run (answering "ok")
                 (@Read toyCrypto string string toyJson toyBackend
                        (ReadRequest.mk "/data/file.txt" (-3) 0))))
     = ReadRequest.mk "/data/file.txt" 0 200.
Proof.
  split; [reflexivity |].
  apply (@Read_mutates_request_after_validation toyCrypto string string toyJson
           (answering "ok") toyBackend (ReadRequest.mk "/data/file.txt" (-3) 0)).
  reflexivity.
Defined.

(** ** The exit code and the optional fields of [execute] *)

Section Execute.

Context `{Crypto} {FileInfo GrepMatch : Type} `{Json FileInfo GrepMatch}.

(** C1: when the envelope decodes, [execute] returns no error and an exit
    code that is 0 for a true success flag, with the text of the first output
    (empty when there is none), and -1 for a false one, with the text of the
    first output when that is not empty and otherwise ["ename: evalue"] when
    [ename] is not empty; the exit code is nil exactly when the transport or
    one of the decoding steps failed. *)
Theorem execute_exit_code (w : World) (s : sandboxToolBackend) (command : string) :
  let '(text, exitCode, err) := fst (run w (execute s command)) in
  (forall ret, decodedEnvelope w s command = Ok ret ->
     err = None
     /\ (result.Success ret = true -> exitCode = Some 0 /\ text = firstText ret)
     /\ (result.Success ret = false ->
         exitCode = Some (-1)
         /\ (result.Outputs ret = [] -> text = "")
         /\ (forall o, head (result.Outputs ret) = Some o ->
               (output.Text o <> "" -> text = output.Text o)
               /\ (output.Text o = "" -> output.EName o <> "" ->
                   text = output.EName o +:+ ": " +:+ output.EValue o)
               /\ (output.Text o = "" -> output.EName o = "" -> text = ""))))
  /\ (exitCode = None <-> isErr (decodedEnvelope w s command) = true)
  /\ (exitCode = None -> err <> None /\ text = "").
Proof.
  unfold execute, decodedEnvelope. rewrite run_bind. unfold requestBytes.
  destruct (fst (run w (invokeTool _ _ _))) as [respBody | e].
  2: { cbn. split; [discriminate |]. split; [tauto |]. split; [discriminate | reflexivity]. }
  destruct (unmarshalResponse respBody) as [resp | e].
  2: { cbn. split; [discriminate |]. split; [tauto |]. split; [discriminate | reflexivity]. }
  destruct (unmarshalResult (response.Result resp)) as [ret | e].
  2: { cbn. split; [discriminate |]. split; [tauto |]. split; [discriminate | reflexivity]. }
  destruct ret as [outputs success]. unfold firstText.
  destruct success; cbn [negb result.Success result.Outputs run fst snd mret Prog_ret isErr].
  - split; [| split; [split; discriminate | discriminate]].
    intros ret [= <-]. cbn [result.Success result.Outputs].
    split; [reflexivity |]. split; [| discriminate].
    intros _. split; [reflexivity |]. destruct outputs; reflexivity.
  - split; [| split; [split; discriminate | discriminate]].
    intros ret [= <-]. cbn [result.Success result.Outputs].
    split; [reflexivity |]. split; [discriminate |].
    intros _. split; [reflexivity |]. split.
    + intros ->. reflexivity.
    + intros o Ho. destruct outputs as [| o' rest]; [discriminate |].
      injection Ho as ->.
      destruct (isEmpty (output.Text o)) eqn:Et; cbn [negb].
      * apply isEmpty_true in Et.
        destruct (isEmpty (output.EName o)) eqn:En; cbn [negb].
        -- apply isEmpty_true in En. repeat split; intros; congruence.
        -- apply isEmpty_false in En. repeat split; intros; congruence.
      * apply isEmpty_false in Et. repeat split; intros; congruence.
Qed.

(** Before the encoders run: the map [execute] hands to
    [sonic.MarshalString] has a [timeout] entry exactly when
    [executionTimeout] is positive, and the [invokeToolRequest] it hands to
    [sonic.Marshal] has a non-nil [Ttl] exactly when [sessionTTL] is
    positive; otherwise the entry is absent and [Ttl] is nil. *)
Theorem execute_optional_fields (w : World) (s : sandboxToolBackend) (command : string) :
  let payload := operationPayloadMap s command in
  let req := buildRequest s (marshalMap payload) in
  snd (run w (execute s command))
  = [EvRequest (httpClient s) (signedRequest w s (marshalRequest req))]
  /\ Request.Body (signedRequest w s (marshalRequest req)) = marshalRequest req
  /\ invokeToolRequest.OperationPayload req = marshalMap payload
  /\ payload !! "code" = Some (AString command)
  /\ payload !! "kernelName" = Some (AString "python3")
  /\ (is_Some (payload !! "timeout") <-> 0 < executionTimeout s)
  /\ payload !! "timeout"
     = (if 0 <? executionTimeout s then Some (AInt (executionTimeout s)) else None)
  /\ (is_Some (invokeToolRequest.Ttl req) <-> 0 < sessionTTL s)
  /\ invokeToolRequest.Ttl req
     = (if 0 <? sessionTTL s then Some (sessionTTL s) else None).
Proof.
  cbv zeta.
  split; [apply run_execute |].
  split; [apply run_invokeTool |].
  unfold buildRequest, operationPayloadMap.
  split; [destruct (0 <? sessionTTL s); reflexivity |].
  destruct (Z.leb_spec (executionTimeout s) 0) as [Ht | Ht];
    destruct (Z.ltb_spec 0 (executionTimeout s)) as [Ht' | Ht']; try lia;
    (split; [reflexivity |]); (split; [reflexivity |]).
  - split; [split; [intros [x Hx]; discriminate | lia] |]. split; [reflexivity |].
    destruct (Z.ltb_spec 0 (sessionTTL s)); cbn [invokeToolRequest.Ttl];
      (split; [split; [intros [x Hx]; try discriminate; lia | intros; try lia; eauto]
              | reflexivity]).
  - split; [split; [lia | intros _; eexists; reflexivity] |]. split; [reflexivity |].
    destruct (Z.ltb_spec 0 (sessionTTL s)); cbn [invokeToolRequest.Ttl];
      (split; [split; [intros [x Hx]; try discriminate; lia | intros; try lia; eauto]
              | reflexivity]).
Qed.

End Execute.

(** C1 at the failure envelope of the specification. *)
Lemma execute_exit_code_witness :
  decodedEnvelope (H := toyCrypto) (H0 := toyJson) (answering "failed") toyBackend "print(1)"
  = Ok failedEnvelope
  /\ fst (run (answering "failed")
            (@execute toyCrypto string string toyJson toyBackend "print(1)"))
     = ("E: V", Some (-1), None).
Proof.
  split; [reflexivity |].
  pose proof (@execute_exit_code toyCrypto string string toyJson
                (answering "failed") toyBackend "print(1)") as Hc.
  destruct (fst (run _ _)) as [[text exitCode] err].
  destruct Hc as [Hdec _].
  destruct (Hdec failedEnvelope eq_refl) as (-> & _ & Hfail).
  destruct (Hfail eq_refl) as (-> & _ & Hout).
  destruct (Hout (output.mk "error" "" "E" "V") eq_refl) as (_ & Htext & _).
  rewrite (Htext eq_refl); [reflexivity | discriminate].
Defined.

(** The envelopes of the specification's examples, and a dead network. *)
Example execute_examples :
  fst (run (answering "ok") (@execute toyCrypto string string toyJson toyBackend "print(1)"))
  = ("X", Some 0, None)
  /\ fst (run (answering "failed") (@execute toyCrypto string string toyJson toyBackend "x"))
     = ("E: V", Some (-1), None)
  /\ fst (run (answering "{") (@execute toyCrypto string string toyJson toyBackend "x"))
     = ("", None, Some "failed to unmarshal result data: unexpected end of JSON input")
  /\ fst (run unreachable (@execute toyCrypto string string toyJson toyBackend "x"))
     = ("", None,
        Some "failed to invoke tool: do request err: dial tcp: connection refused").
Proof. vm_compute. repeat split; reflexivity. Qed.

(** ** Lines that do not decode *)

Section Lines.

Context `{Crypto} {FileInfo GrepMatch : Type} `{Json FileInfo GrepMatch}.

Lemma fileInfoLines_spec (lines : list string) (files : list FileInfo) :
  fileInfoLines lines files = files ++ decodedFileInfos lines.
Proof.
  revert files. induction lines as [| line rest IH]; intros files; simpl.
  - rewrite app_nil_r. reflexivity.
  - unfold decodedFileInfos. cbn [omap list_omap].
    destruct (unmarshalFileInfo line) as [fi | e].
    + rewrite IH, <- app_assoc. reflexivity.
    + apply IH.
Qed.

Lemma grepMatchLines_spec (w : World) (lines : list string) (matches : list GrepMatch) :
  run w (grepMatchLines lines matches)
  = (matches ++ decodedGrepMatches lines, map EvLog (grepLogLines lines)).
Proof.
  revert matches. induction lines as [| line rest IH]; intros matches.
  - simpl. rewrite app_nil_r. reflexivity.
  - unfold decodedGrepMatches, grepLogLines. cbn [grepMatchLines omap list_omap].
    destruct (unmarshalGrepMatch line) as [m | e].
    + rewrite IH, <- app_assoc. reflexivity.
    + rewrite run_bind. unfold logPrintf. cbn [run fst snd app].
      rewrite IH. reflexivity.
Qed.

Lemma logged_map_EvLog (msgs : list string) : logged (map EvLog msgs) = msgs.
Proof. induction msgs as [| m msgs IH]; [reflexivity |]. simpl. f_equal. exact IH. Qed.

(** C9: when the script ran and exited with no error, [LsInfo] and
    [GlobInfo] return the records of the lines that decode, in order, and
    log nothing; [GrepRaw] returns the matches of the lines that decode, in
    order, and logs one message for each line that does not; none of them
    returns an error because of a line that does not decode. *)
Theorem malformed_lines_are_skipped (w : World) (s : sandboxToolBackend)
    (output : string) (exitCode : option Z) :
  nonZero exitCode = None ->
  (forall req path script,
      formatPath (LsInfoRequest.Path req) "/" true = Ok path ->
      Pyfmt.Fmt lsInfoPythonCodeTemplate (<["path" := AString path]> ∅) = Ok script ->
      fst (run w (execute s script)) = (output, exitCode, None) ->
      fst (run w (LsInfo s req))
      = Ok (if isEmpty output then [] else decodedFileInfos (outputLines output))
      /\ logged (snd (run w (LsInfo s req))) = [])
  /\ (forall req script,
        Pyfmt.Fmt globPythonCodeTemplate
          (<["path_b64" := AString (Base64.EncodeToString
                                      (orZero (formatPath (GlobInfoRequest.Path req) "/" false)))]>
             (<["pattern_b64" := AString (Base64.EncodeToString (GlobInfoRequest.Pattern req))]> ∅))
        = Ok script ->
        fst (run w (execute s script)) = (output, exitCode, None) ->
        fst (run w (GlobInfo s req))
        = Ok (if isEmpty output then [] else decodedFileInfos (outputLines output))
        /\ logged (snd (run w (GlobInfo s req))) = [])
  /\ (forall req script,
        Pyfmt.Fmt grepPythonCodeTemplate
          (<["pattern" := AString (GrepRequest.Pattern req)]>
             (<["path" := AString (orZero (formatPath (GrepRequest.Path req) "" false))]>
                (<["glob_pattern" := AString (GrepRequest.Glob req)]> ∅)))
        = Ok script ->
        fst (run w (execute s script)) = (output, exitCode, None) ->
        fst (run w (GrepRaw s req))
        = Ok (if isEmpty output then [] else decodedGrepMatches (outputLines output))
        /\ logged (snd (run w (GrepRaw s req)))
           = (if isEmpty output then [] else grepLogLines (outputLines output))).
Proof.
  intros Hcode. split; [| split].
  - intros req path script Hfp Hs Hrun. unfold LsInfo.
    rewrite Hfp, Hs, run_bind, run_execute, Hrun. unfold checked. rewrite Hcode.
    destruct (isEmpty output); [split; reflexivity |].
    rewrite fileInfoLines_spec. split; reflexivity.
  - intros req script Hs Hrun. unfold GlobInfo.
    rewrite Hs, run_bind, run_execute, Hrun. unfold checked. rewrite Hcode.
    destruct (isEmpty output); [split; reflexivity |].
    rewrite fileInfoLines_spec. split; reflexivity.
  - intros req script Hs Hrun. unfold GrepRaw.
    rewrite Hs, run_bind, run_execute, Hrun. unfold checked. rewrite Hcode.
    destruct (isEmpty output); [split; reflexivity |].
    rewrite run_bind, grepMatchLines_spec. cbn [fst snd run mret Prog_ret app].
    split; [reflexivity |].
    rewrite app_nil_r. cbn [logged omap list_omap]. apply logged_map_EvLog.
Qed.

End Lines.

(** C9 at an output whose second line is no JSON record. *)
Lemma malformed_lines_are_skipped_witness :
  fst (run (answering threeLines)
         (@LsInfo toyCrypto string string toyJson toyBackend (LsInfoRequest.mk "/tmp")))
  = Ok ["{a}"; "{b}"]
  /\ fst (run (answering threeLines)
            (@GrepRaw toyCrypto string string toyJson toyBackend
                      (GrepRequest.mk "a" "/tmp" "")))
     = Ok ["{a}"; "{b}"]
  /\ logged (snd (run (answering threeLines)
                    (@GrepRaw toyCrypto string string toyJson toyBackend
                              (GrepRequest.mk "a" "/tmp" ""))))
     = ["failed to unmarshal grep match line: invalid character, line: not json"].
Proof.
  pose proof (@malformed_lines_are_skipped toyCrypto string string toyJson
                (answering threeLines) toyBackend
                (String.substring 6 (String.length threeLines) threeLines)
                (Some 0) eq_refl) as (Hls & _ & Hgrep).
  split; [| split].
  - refine (proj1 (Hls (LsInfoRequest.mk "/tmp") "/tmp"
                     (rendered lsInfoPythonCodeTemplate (<["path" := AString "/tmp"]> ∅))
                     _ _ _)); vm_compute; reflexivity.
  - refine (proj1 (Hgrep (GrepRequest.mk "a" "/tmp" "")
                     (rendered grepPythonCodeTemplate
                        (<["pattern" := AString "a"]>
                           (<["path" := AString "/tmp"]>
                              (<["glob_pattern" := AString ""]> ∅))))
                     _ _)); vm_compute; reflexivity.
  - refine (proj2 (Hgrep (GrepRequest.mk "a" "/tmp" "")
                     (rendered grepPythonCodeTemplate
                        (<["pattern" := AString "a"]>
                           (<["path" := AString "/tmp"]>
                              (<["glob_pattern" := AString ""]> ∅))))
                     _ _)); vm_compute; reflexivity.
Defined.

(** ** Request signing *)

Lemma HeaderGet_Set_eq (r : Request.t) (key key' value : string) :
  Textproto.CanonicalMIMEHeaderKey key = Textproto.CanonicalMIMEHeaderKey key' ->
  Http.HeaderGet (Http.HeaderSet r key value) key' = value.
Proof.
  intros E. unfold Http.HeaderGet, Http.HeaderSet. cbn [Request.Header].
  rewrite E, lookup_insert_eq. reflexivity.
Qed.

Lemma HeaderGet_Set_ne (r : Request.t) (key key' value : string) :
  Textproto.CanonicalMIMEHeaderKey key <> Textproto.CanonicalMIMEHeaderKey key' ->
  Http.HeaderGet (Http.HeaderSet r key value) key' = Http.HeaderGet r key'.
Proof.
  intros E. unfold Http.HeaderGet, Http.HeaderSet. cbn [Request.Header].
  rewrite lookup_insert_ne by exact E. reflexivity.
Qed.

Lemma Header_Set_eq (r : Request.t) (key value : string) :
  Request.Header (Http.HeaderSet r key value) !! Textproto.CanonicalMIMEHeaderKey key
  = Some value.
Proof. unfold Http.HeaderSet. cbn [Request.Header]. apply lookup_insert_eq. Qed.

Lemma Header_Set_ne (r : Request.t) (key value k : string) :
  Textproto.CanonicalMIMEHeaderKey key <> k ->
  Request.Header (Http.HeaderSet r key value) !! k = Request.Header r !! k.
Proof.
  intros E. unfold Http.HeaderSet. cbn [Request.Header].
  apply lookup_insert_ne. exact E.
Qed.

Section Signing.

Context `{Crypto}.

(** C4: the signing key is the chain of four HMACs over the first eight
    characters of the [X-Date] timestamp, the region, the service and
    ["request"], and the [Authorization] header is the algorithm, the access
    key with the credential scope, the names of the signed headers and the
    hex-encoded HMAC of the string to sign under that key. *)
Theorem signRequest_authorization (w : World) (s : sandboxToolBackend)
    (request : Request.t) (queries : Url.Values) (body : string) :
  let signed := fst (run w (signRequest s request queries body)) in
  let date := clock w in
  let authDate := String.substring 0 8 date in
  let key := signingKey (secretAccessKey s) authDate (region s) in
  let canonical :=
    canonicalRequest (Request.Method request)
      (Strings.ReplaceByte (Url.Encode queries) "+" "%20")
      (Request.Host request) date body in
  getSignedKey (secretAccessKey s) authDate (region s) service = key
  /\ Request.Header signed !! "X-Date" = Some date
  /\ Request.Header signed !! "X-Content-Sha256"
     = Some (Hex.EncodeToString (sha256Sum body))
  /\ Request.Header signed !! "Content-Type" = Some "application/json"
  /\ Request.Header signed !! "Authorization"
     = Some ("HMAC-SHA256 Credential=" +:+ accessKeyID s +:+ "/"
             +:+ credentialScopeOf authDate (region s)
             +:+ ", SignedHeaders=" +:+ signedHeaderNames
             +:+ ", Signature="
             +:+ Hex.EncodeToString
                   (hmacSum key (stringToSign date (region s) canonical))).
Proof.
  cbv zeta. unfold signRequest. rewrite run_bind.
  change (fst (run w timeNow)) with (clock w). cbn [fst run mret Prog_ret].
  set (date := clock w).
  set (payload := Hex.EncodeToString (hashSHA256 body)).
  set (r1 := Http.HeaderSet request "X-Date" date).
  set (r2 := Http.HeaderSet r1 "X-Content-Sha256" payload).
  set (r3 := Http.HeaderSet r2 "Content-Type" "application/json").
  assert (Hhost : Request.Host r3 = Request.Host request) by reflexivity.
  assert (Hmeth : Request.Method r3 = Request.Method request) by reflexivity.
  assert (Hd : Http.HeaderGet r3 "x-date" = date).
  { subst r3 r2. rewrite !HeaderGet_Set_ne by (vm_compute; discriminate).
    apply HeaderGet_Set_eq. reflexivity. }
  assert (Hp : Http.HeaderGet r3 "x-content-sha256" = payload).
  { subst r3. rewrite HeaderGet_Set_ne by (vm_compute; discriminate).
    apply HeaderGet_Set_eq. reflexivity. }
  assert (Hc : Http.HeaderGet r3 "content-type" = "application/json").
  { apply HeaderGet_Set_eq. reflexivity. }
  split; [reflexivity |].
  split.
  { rewrite Header_Set_ne by (vm_compute; discriminate).
    subst r3 r2. rewrite !Header_Set_ne by (vm_compute; discriminate).
    apply (Header_Set_eq request "X-Date"). }
  split.
  { rewrite Header_Set_ne by (vm_compute; discriminate).
    subst r3. rewrite !Header_Set_ne by (vm_compute; discriminate).
    apply (Header_Set_eq r1 "X-Content-Sha256"). }
  split.
  { rewrite Header_Set_ne by (vm_compute; discriminate).
    apply (Header_Set_eq r2 "Content-Type"). }
  rewrite (Header_Set_eq r3 "Authorization"). f_equal.
  unfold signedHeaders. cbn [map]. rewrite Hhost, Hmeth.
  change (String.eqb "host" "host") with true.
  change (String.eqb "x-date" "host") with false.
  change (String.eqb "x-content-sha256" "host") with false.
  change (String.eqb "content-type" "host") with false.
  cbv iota. rewrite Hd, Hp, Hc.
  unfold canonicalRequest, stringToSign, credentialScopeOf, signingKey, getSignedKey,
    hmacSHA256, hashSHA256, signedHeaderNames, service, nl in *.
  cbn [Strings.Join]. fold date. fold payload.
  change (Strings.TrimSpace "application/json") with "application/json".
  rewrite !append_assoc. reflexivity.
Qed.

End Signing.

(** The header of a request signed in the concrete world. *)
Example signRequest_example :
  Request.Header
    (fst (run (answering "ok")
            (@signRequest toyCrypto toyBackend
               (Http.NewRequest "POST" "https://agentkit.cn-beijing.volces.com/?Action=InvokeTool&Version=2025-10-30" "{}")
               [("Action", "InvokeTool"); ("Version", "2025-10-30")] "{}")))
  !! "Authorization"
  = Some ("HMAC-SHA256 Credential=ak/20261031/cn-beijing/agentkit/request, "
          +:+ "SignedHeaders=host;x-date;x-content-sha256;content-type, Signature="
          +:+ Hex.EncodeToString
                (hmacSum (Crypto := toyCrypto)
                   "sk|20261031|cn-beijing|agentkit|request"
                   (stringToSign (H := toyCrypto) "20261031T120000Z" "cn-beijing"
                      (canonicalRequest (H := toyCrypto) "POST"
                         "Action=InvokeTool&Version=2025-10-30"
                         "agentkit.cn-beijing.volces.com" "20261031T120000Z" "{}")))).
Proof. vm_compute. reflexivity. Qed.

(** ** The read script *)

Lemma bytes_app (a c : string) :
  Strings.bytes (a +:+ c) = Strings.bytes a ++ Strings.bytes c.
Proof.
  induction a as [| x a IH]; [reflexivity |].
  change (Strings.bytes (String x (a +:+ c)) = x :: (Strings.bytes a ++ Strings.bytes c)).
  unfold Strings.bytes in *. simpl. f_equal. exact IH.
Qed.

Lemma readlines_line (l rest : list ascii) :
  forallb (fun c => negb (Ascii.eqb c Python.newline)) l = true ->
  Python.readlines (l ++ Python.newline :: rest)
  = (l ++ [Python.newline]) :: Python.readlines rest.
Proof.
  induction l as [| c l IH]; intros Hl.
  - reflexivity.
  - simpl in Hl. apply andb_true_iff in Hl as [Hc Hl].
    apply negb_true_iff in Hc.
    change ((c :: l) ++ Python.newline :: rest) with (c :: (l ++ Python.newline :: rest)).
    cbn [Python.readlines]. rewrite Hc, (IH Hl). reflexivity.
Qed.

Lemma readlines_textOfLines (lines : list string) :
  forallb noNewline lines = true ->
  Python.readlines (Strings.bytes (textOfLines lines))
  = map (fun l => Strings.bytes l ++ [Python.newline]) lines.
Proof.
  induction lines as [| l lines IH]; intros Hl; [reflexivity |].
  simpl in Hl. apply andb_true_iff in Hl as [Hl Hrest].
  cbn [textOfLines map]. rewrite !bytes_app.
  change (Strings.bytes Python.nl) with [Python.newline].
  change ([Python.newline] ++ Strings.bytes (textOfLines lines))
    with (Python.newline :: Strings.bytes (textOfLines lines)).
  rewrite (readlines_line _ _ Hl), (IH Hrest). reflexivity.
Qed.

Lemma dropNewlines_rev (l : list ascii) :
  forallb (fun c => negb (Ascii.eqb c Python.newline)) l = true ->
  Python.dropNewlines (rev l) = rev l.
Proof.
  intros Hl. destruct (rev l) as [| c r] eqn:E; [reflexivity |].
  assert (Hin : In c l) by (apply in_rev; rewrite E; left; reflexivity).
  rewrite forallb_forall in Hl. specialize (Hl c Hin).
  apply negb_true_iff in Hl. cbn [Python.dropNewlines]. rewrite Hl. reflexivity.
Qed.



Lemma slice_window {A} (l : list A) (offset limit : Z) :
  0 <= offset -> 0 < limit ->
  Python.slice l offset (offset + limit)
  = firstn (Z.to_nat limit) (skipn (Z.to_nat offset) l).
Proof.
  intros Ho Hl. unfold Python.slice, Python.sliceIndex.
  destruct (Z.ltb_spec offset 0); [lia |].
  destruct (Z.ltb_spec (offset + limit) 0); [lia |].
  set (len := Z.of_nat (length l)).
  destruct (Z.le_gt_cases offset len) as [Hin | Hout].
  - rewrite (Z.min_l offset len) by lia.
    destruct (Z.le_gt_cases (offset + limit) len) as [Hfit | Hover].
    + rewrite Z.min_l by lia. f_equal. f_equal. lia.
    + rewrite Z.min_r by lia.
      rewrite !firstn_all2; [reflexivity | |]; rewrite length_skipn; subst len; lia.
  - rewrite (Z.min_r offset len) by lia. rewrite Z.min_r by lia.
    rewrite Z.sub_diag. cbn [Z.to_nat firstn].
    rewrite (skipn_all2 (n := Z.to_nat offset)) by (subst len; lia).
    destruct (Z.to_nat limit); reflexivity.
Qed.


Section ReadPagination.

Context `{Crypto} {FileInfo GrepMatch : Type} `{Json FileInfo GrepMatch}.

(** The read template renders for every path, offset and limit, and the
    script holds the three values where the template has their fields. *)
Lemma Read_renders (path : string) (offset limit : Z) :
  exists script,
    Pyfmt.Fmt readPythonCodeTemplate
      (<["file_path" := AString path]>
         (<["offset" := AInt offset]> (<["limit" := AInt limit]> ∅))) = Ok script
    /\ Strings.Contains script ("file_path = '" +:+ path +:+ "'") = true
    /\ Strings.Contains script ("offset = " +:+ Strings.Itoa offset +:+ Python.nl) = true
    /\ Strings.Contains script ("limit = " +:+ Strings.Itoa limit +:+ Python.nl) = true.
Proof.
  set (params := <["file_path" := _]> _).
  destruct (Fmt_ok readPythonCodeTemplate params ["file_path"; "offset"; "limit"])
    as [script Hs].
  { vm_compute. reflexivity. }
  { subst params. repeat constructor; vm_compute; eauto. }
  exists script. split; [exact Hs |]. split; [| split].
  - apply (Fmt_field _ _ "file_path = '" "file_path" "'" script (AString path) Hs);
      vm_compute; reflexivity.
  - apply (Fmt_field _ _ "offset = " "offset" Python.nl script (AInt offset) Hs);
      vm_compute; reflexivity.
  - apply (Fmt_field _ _ "limit = " "limit" Python.nl script (AInt limit) Hs);
      vm_compute; reflexivity.
Qed.


End ReadPagination.


(** ** Base64 *)

Lemma N_lt_64_cases (P : N -> Prop) :
  (forall k, (k < 64)%nat -> P (N.of_nat k)) -> forall n, (n < 64)%N -> P n.
Proof.
  intros HP n Hn. rewrite <- (N2Nat.id n). apply HP. lia.
Qed.

Lemma below_64 (P : nat -> bool) :
  forallb P (seq 0 64) = true -> forall k, (k < 64)%nat -> P k = true.
Proof.
  intros Hall k Hk. rewrite forallb_forall in Hall. apply Hall.
  apply in_seq. lia.
Qed.

Lemma dec6_enc6 (n : N) : (n < 64)%N -> Base64.dec6 (Base64.enc6 n) = Some n.
Proof.
  revert n. apply N_lt_64_cases. intros k Hk.
  pose proof (below_64
    (fun k => match Base64.dec6 (Base64.enc6 (N.of_nat k)) with
              | Some m => N.eqb m (N.of_nat k)
              | None => false
              end)) as Hall.
  specialize (Hall ltac:(vm_compute; reflexivity) k Hk). cbv beta in Hall.
  destruct (Base64.dec6 _) as [m |]; [| discriminate].
  apply N.eqb_eq in Hall. congruence.
Qed.

Lemma enc6_not_pad (n : N) :
  (n < 64)%N -> Ascii.eqb (Base64.enc6 n) Base64.padChar = false.
Proof.
  revert n. apply N_lt_64_cases. intros k Hk.
  pose proof (below_64
    (fun k => negb (Ascii.eqb (Base64.enc6 (N.of_nat k)) Base64.padChar))) as Hall.
  specialize (Hall ltac:(vm_compute; reflexivity) k Hk). cbv beta in Hall.
  apply negb_true_iff in Hall. exact Hall.
Qed.

Lemma byteVal_bound (x : ascii) : (Base64.byteVal x < 256)%N.
Proof. apply N_ascii_bounded. Qed.

Lemma mkByte_byteVal (x : ascii) : Base64.mkByte (Base64.byteVal x) = x.
Proof. apply ascii_N_embedding. Qed.

Lemma sextets (a c d : N) :
  (a < 256 -> c < 256 -> d < 256 ->
   a / 4 < 64 /\ (a mod 4) * 16 + c / 16 < 64
   /\ (c mod 16) * 4 + d / 64 < 64 /\ d mod 64 < 64
   /\ (a mod 4) * 16 < 64 /\ (c mod 16) * 4 < 64
   /\ a / 4 * 4 + ((a mod 4) * 16 + c / 16) / 16 = a
   /\ a / 4 * 4 + ((a mod 4) * 16) / 16 = a
   /\ (((a mod 4) * 16 + c / 16) mod 16) * 16 + ((c mod 16) * 4 + d / 64) / 4 = c
   /\ (((a mod 4) * 16 + c / 16) mod 16) * 16 + ((c mod 16) * 4) / 4 = c
   /\ (((c mod 16) * 4 + d / 64) mod 4) * 64 + d mod 64 = d)%N.
Proof.
  intros Ha Hc Hd.
  pose proof (N.div_mod a 4 ltac:(lia)). pose proof (N.mod_lt a 4 ltac:(lia)).
  pose proof (N.div_mod c 16 ltac:(lia)). pose proof (N.mod_lt c 16 ltac:(lia)).
  pose proof (N.div_mod d 64 ltac:(lia)). pose proof (N.mod_lt d 64 ltac:(lia)).
  set (a1 := (a / 4)%N) in *. set (a0 := (a mod 4)%N) in *.
  set (c1 := (c / 16)%N) in *. set (c0 := (c mod 16)%N) in *.
  set (d1 := (d / 64)%N) in *. set (d0 := (d mod 64)%N) in *.
  assert (E1 : ((a0 * 16 + c1) / 16 = a0)%N).
  { symmetry. apply (N.div_unique _ 16 a0 c1); lia. }
  assert (E2 : ((a0 * 16 + c1) mod 16 = c1)%N).
  { symmetry. apply (N.mod_unique _ 16 a0 c1); lia. }
  assert (E3 : ((c0 * 4 + d1) / 4 = c0)%N).
  { symmetry. apply (N.div_unique _ 4 c0 d1); lia. }
  assert (E4 : ((c0 * 4 + d1) mod 4 = d1)%N).
  { symmetry. apply (N.mod_unique _ 4 c0 d1); lia. }
  assert (E5 : ((a0 * 16) / 16 = a0)%N) by (apply N.div_mul; lia).
  assert (E6 : ((c0 * 4) / 4 = c0)%N) by (apply N.div_mul; lia).
  rewrite E1, E2, E3, E4, E5, E6. repeat split; lia.
Qed.

Lemma decodeBytes_encodeBytes (src : list ascii) :
  Base64.decodeBytes (Base64.encodeBytes src) = Some src.
Proof.
  assert (Hgen : forall n src, (length src <= n)%nat ->
                   Base64.decodeBytes (Base64.encodeBytes src) = Some src).
  2: { apply (Hgen (length src)). lia. }
  clear src. induction n as [| n IH]; intros src Hlen.
  { destruct src; [reflexivity | simpl in Hlen; lia]. }
  destruct src as [| x [| y [| z rest]]]; [reflexivity | | |].
  - pose proof (sextets _ 0 0 (byteVal_bound x) ltac:(lia) ltac:(lia))
      as (H1 & _ & _ & _ & H2 & _ & _ & E & _).
    cbn [Base64.encodeBytes Base64.decodeBytes].
    rewrite (dec6_enc6 _ H1), (dec6_enc6 _ H2).
    change (Ascii.eqb Base64.padChar Base64.padChar) with true. cbv iota.
    rewrite E, mkByte_byteVal. reflexivity.
  - pose proof (sextets _ _ 0 (byteVal_bound x) (byteVal_bound y) ltac:(lia))
      as (H1 & H2 & _ & _ & _ & H3 & E1 & _ & _ & E2 & _).
    cbn [Base64.encodeBytes Base64.decodeBytes].
    rewrite (dec6_enc6 _ H1), (dec6_enc6 _ H2), (enc6_not_pad _ H3), (dec6_enc6 _ H3).
    change (Ascii.eqb Base64.padChar Base64.padChar) with true. cbv iota.
    rewrite E1, E2, !mkByte_byteVal. reflexivity.
  - pose proof (sextets _ _ _ (byteVal_bound x) (byteVal_bound y) (byteVal_bound z))
      as (H1 & H2 & H3 & H4 & _ & _ & E1 & _ & E2 & _ & E3).
    cbn [Base64.encodeBytes Base64.decodeBytes].
    rewrite (dec6_enc6 _ H1), (dec6_enc6 _ H2), (enc6_not_pad _ H3), (dec6_enc6 _ H3),
      (enc6_not_pad _ H4), (dec6_enc6 _ H4).
    rewrite IH by (simpl in Hlen; lia).
    rewrite E1, E2, E3, !mkByte_byteVal. reflexivity.
Qed.

(** What Python's [b64decode] makes of a string the Go side encoded is the
    string. *)
Lemma b64decode_EncodeToString (s : string) :
  Base64.b64decode (Base64.EncodeToString s) = Some s.
Proof.
  unfold Base64.b64decode, Base64.EncodeToString.
  rewrite bytes_ofBytes, decodeBytes_encodeBytes. simpl. rewrite ofBytes_bytes.
  reflexivity.
Qed.

(** ** What reaches the scripts encoded, and what does not *)

Lemma requests_app (t u : list event) : requests (t ++ u) = requests t ++ requests u.
Proof.
  induction t as [| e t IH]; [reflexivity |].
  destruct e as [c r | m].
  - change (r :: requests (t ++ u) = r :: requests t ++ requests u).
    f_equal. exact IH.
  - exact IH.
Qed.

Lemma requests_map_EvLog (msgs : list string) : requests (map EvLog msgs) = [].
Proof. induction msgs as [| m msgs IH]; [reflexivity | exact IH]. Qed.

Section Encoding.

Context `{Crypto} {FileInfo GrepMatch : Type} `{Json FileInfo GrepMatch}.

(** X24: [Write] sends the content base64-encoded, inside a call that
    decodes it; decoding gives the content back. *)
Lemma Write_content_is_encoded (w : World) (s : sandboxToolBackend) (req : WriteRequest.t) :
  Filepath.IsAbs (WriteRequest.FilePath req) = true ->
  exists script,
    snd (run w (Write s req))
    = [EvRequest (httpClient s) (signedRequest w s (requestBytes s script))]
    /\ Strings.Contains script
         ("content = base64.b64decode('"
          +:+ Base64.EncodeToString (WriteRequest.Content req)
          +:+ "').decode('utf-8')") = true
    /\ Base64.b64decode (Base64.EncodeToString (WriteRequest.Content req))
       = Some (WriteRequest.Content req).
Proof.
  intros Habs.
  set (params := (<["file_path" := AString (Filepath.Clean (WriteRequest.FilePath req))]>
                    (<["content_b64" := AString (Base64.EncodeToString (WriteRequest.Content req))]> ∅))
                 : gmap string any).
  destruct (Fmt_ok writePythonCodeTemplate params ["file_path"; "content_b64"])
    as [script Hs].
  { vm_compute. reflexivity. }
  { subst params. generalize (Base64.EncodeToString (WriteRequest.Content req)).
    intros c64. repeat constructor; vm_compute; eauto. }
  exists script. split; [| split; [| apply b64decode_EncodeToString]].
  - unfold Write. rewrite (formatPath_absolute _ Habs). fold params. rewrite Hs.
    apply run_after_execute. intros [[o c] e]. unfold checked.
    destruct e; [reflexivity |]. destruct (nonZero c); reflexivity.
  - apply (Fmt_field _ params "content = base64.b64decode('" "content_b64"
             "').decode('utf-8')" script
             (AString (Base64.EncodeToString (WriteRequest.Content req))) Hs).
    + vm_compute. reflexivity.
    + subst params. generalize (Base64.EncodeToString (WriteRequest.Content req)).
      intros c64. vm_compute. reflexivity.
Qed.

(** So does [Edit] with the two strings. *)
Lemma Edit_strings_are_encoded (path old new : string) (all : Z) (script : string) :
  Pyfmt.Fmt editPythonCodeTemplate
    (<["file_path" := AString path]>
       (<["old_b64" := AString (Base64.EncodeToString old)]>
          (<["new_b64" := AString (Base64.EncodeToString new)]>
             (<["replace_all" := AInt all]> ∅)))) = Ok script ->
  Strings.Contains script
    ("old = base64.b64decode('" +:+ Base64.EncodeToString old +:+ "').decode('utf-8')") = true
  /\ Strings.Contains script
       ("new = base64.b64decode('" +:+ Base64.EncodeToString new +:+ "').decode('utf-8')") = true.
Proof.
  generalize (Base64.EncodeToString old) (Base64.EncodeToString new).
  intros o64 n64 Hs. split.
  - apply (Fmt_field _ _ "old = base64.b64decode('" "old_b64" "').decode('utf-8')"
             script (AString o64) Hs); vm_compute; reflexivity.
  - apply (Fmt_field _ _ "new = base64.b64decode('" "new_b64" "').decode('utf-8')"
             script (AString n64) Hs); vm_compute; reflexivity.
Qed.

(** X25: [Execute] sends the command base64-encoded, inside a call that
    decodes it. *)
Lemma Execute_command_is_encoded (w : World) (s : sandboxToolBackend)
    (input : ExecuteRequest.t) :
  ExecuteRequest.Command input <> "" ->
  exists script,
    snd (run w (Execute s input))
    = [EvRequest (httpClient s) (signedRequest w s (requestBytes s script))]
    /\ Strings.Contains script
         ("command = base64.b64decode('"
          +:+ Base64.EncodeToString (ExecuteRequest.Command input)
          +:+ "').decode('utf-8')") = true.
Proof.
  intros Hcmd.
  set (params := (<["command_b64" := AString (Base64.EncodeToString (ExecuteRequest.Command input))]> ∅)
                 : gmap string any).
  destruct (Fmt_ok executePythonCodeTemplate params ["command_b64"]) as [script Hs].
  { vm_compute. reflexivity. }
  { subst params. generalize (Base64.EncodeToString (ExecuteRequest.Command input)).
    intros c64. repeat constructor; vm_compute; eauto. }
  exists script. split.
  - unfold Execute. apply isEmpty_false in Hcmd. rewrite Hcmd. fold params. rewrite Hs.
    apply run_after_execute. intros [[o c] e]. unfold checked.
    destruct e; [reflexivity |]. destruct (nonZero c); reflexivity.
  - apply (Fmt_field _ params "command = base64.b64decode('" "command_b64"
             "').decode('utf-8')" script
             (AString (Base64.EncodeToString (ExecuteRequest.Command input))) Hs).
    + vm_compute. reflexivity.
    + subst params. generalize (Base64.EncodeToString (ExecuteRequest.Command input)).
      intros c64. vm_compute. reflexivity.
Qed.

(** [GrepRaw] puts the pattern into the script as it is, between two
    quotes. *)
Lemma GrepRaw_pattern_is_raw (w : World) (s : sandboxToolBackend) (req : GrepRequest.t) :
  exists script,
    Pyfmt.Fmt grepPythonCodeTemplate
      (<["pattern" := AString (GrepRequest.Pattern req)]>
         (<["path" := AString (orZero (formatPath (GrepRequest.Path req) "" false))]>
            (<["glob_pattern" := AString (GrepRequest.Glob req)]> ∅))) = Ok script
    /\ requests (snd (run w (GrepRaw s req)))
       = [signedRequest w s (requestBytes s script)]
    /\ Strings.Contains script ("pattern = '" +:+ GrepRequest.Pattern req +:+ "'") = true.
Proof.
  set (params := <["pattern" := _]> _).
  destruct (Fmt_ok grepPythonCodeTemplate params ["pattern"; "path"; "glob_pattern"])
    as [script Hs].
  { vm_compute. reflexivity. }
  { subst params. generalize (orZero (formatPath (GrepRequest.Path req) "" false)).
    intros p. repeat constructor; vm_compute; eauto. }
  exists script. split; [exact Hs |]. split.
  - unfold GrepRaw. fold params. rewrite Hs, run_bind, run_execute.
    cbn [snd]. rewrite requests_app.
    change (requests [EvRequest (httpClient s) (signedRequest w s (requestBytes s script))])
      with [signedRequest w s (requestBytes s script)].
    cbn [app]. f_equal.
    destruct (fst (run w (execute s script))) as [[o c] e]. unfold checked.
    destruct e; [reflexivity |]. destruct (nonZero c); [reflexivity |].
    destruct (isEmpty o); [reflexivity |].
    rewrite run_bind, grepMatchLines_spec. cbn [fst snd run mret Prog_ret].
    rewrite app_nil_r. apply requests_map_EvLog.
  - apply (Fmt_field _ params "pattern = '" "pattern" "'" script
             (AString (GrepRequest.Pattern req)) Hs).
    + vm_compute. reflexivity.
    + subst params. generalize (orZero (formatPath (GrepRequest.Path req) "" false)).
      intros p. vm_compute. reflexivity.
Qed.

(** C2, at the failing input: for the pattern [it's], the script [GrepRaw]
    sends holds the pattern itself between quotes, which the quote inside it
    ends early, and holds neither its base64 encoding nor a call that would
    decode one. *)
Theorem GrepRaw_pattern_is_not_encoded (w : World) (s : sandboxToolBackend) :
  exists script,
    requests (snd (run w (GrepRaw s quotedPattern)))
    = [signedRequest w s (requestBytes s script)]
    /\ Strings.Contains script "pattern = 'it's'" = true
    /\ Strings.Contains script (Base64.EncodeToString "it's") = false
    /\ Strings.Contains script "b64decode" = false.
Proof.
  destruct (GrepRaw_pattern_is_raw w s quotedPattern) as (script & Hs & Hreq & Hraw).
  exists script. split; [exact Hreq |]. split; [exact Hraw |].
  vm_compute in Hs. injection Hs as <-. split; vm_compute; reflexivity.
Qed.

End Encoding.

(** * Further properties of the backend *)

(** ** Construction and path validation *)

(** X1: a backend that [NewSandboxToolBackend] returns carries the
    credentials, tool, session identifiers, TTL and timeout of the
    configuration, the client of the configuration or else the default one,
    the region of the configuration or else Beijing, and the base URL of that
    region. *)
Theorem NewSandboxToolBackend_fields (config : Config.t) (b : sandboxToolBackend) :
  NewSandboxToolBackend config = Ok b ->
  accessKeyID b = Config.AccessKeyID config
  /\ secretAccessKey b = Config.SecretAccessKey config
  /\ toolID b = Config.ToolID config
  /\ sessionID b = Config.SessionID config
  /\ userSessionID b = Config.UserSessionID config
  /\ sessionTTL b = Config.SessionTTL config
  /\ executionTimeout b = Config.ExecutionTimeout config
  /\ httpClient b = default DefaultClient (Config.HTTPClient config)
  /\ region b = (if isEmpty (Config.Region config) then "cn-beijing"
                 else Config.Region config)
  /\ (region b = "cn-beijing"
      /\ baseURL b = "https://agentkit.cn-beijing.volces.com"
      \/ region b = "cn-shanghai"
         /\ baseURL b = "https://agentkit.cn-shanghai.volces.com").
Proof.
  unfold NewSandboxToolBackend.
  destruct (isEmpty (Config.AccessKeyID config)); [discriminate |].
  destruct (isEmpty (Config.SecretAccessKey config)); [discriminate |].
  destruct (isEmpty (Config.ToolID config)); [discriminate |].
  destruct (isEmpty (Config.SessionID config) && isEmpty (Config.UserSessionID config));
    [discriminate |].
  set (r := if isEmpty (Config.Region config) then RegionOfBeijing else Config.Region config).
  destruct (String.eqb_spec r RegionOfBeijing) as [Hb | Hb].
  - intros [= <-]. cbn [accessKeyID secretAccessKey toolID sessionID userSessionID
                        sessionTTL executionTimeout httpClient region baseURL].
    repeat split; try reflexivity.
    left. split; [exact Hb | reflexivity].
  - destruct (String.eqb_spec r RegionOfShangHai) as [Hs | Hs]; [| discriminate].
    intros [= <-]. cbn [accessKeyID secretAccessKey toolID sessionID userSessionID
                        sessionTTL executionTimeout httpClient region baseURL].
    repeat split; try reflexivity.
    right. split; [exact Hs | reflexivity].
Qed.

(** X1 at a configuration for Shanghai with a client of its own. *)
Lemma NewSandboxToolBackend_fields_witness :
  exists b, NewSandboxToolBackend shanghaiConfig = Ok b
            /\ httpClient b = CustomClient 7
            /\ baseURL b = "https://agentkit.cn-shanghai.volces.com".
Proof.
  eexists. split; [reflexivity |].
  pose proof (NewSandboxToolBackend_fields shanghaiConfig _ eq_refl)
    as (_ & _ & _ & _ & _ & _ & _ & Hc & _ & Hu).
  split; [exact Hc |]. reflexivity.
Defined.

Lemma Clean_nonempty (path : string) : Filepath.Clean path <> "".
Proof.
  unfold Filepath.Clean. destruct (Strings.bytes path) as [| c l]; [discriminate |].
  destruct (fold_left _ _ _) as [out dd]. destruct out; discriminate.
Qed.

(** X2: [formatPath] never fails when an absolute path is not required; a
    path it returns is never empty, and is absolute when that was required;
    the default path plays no part for a path that is not empty. *)
Theorem formatPath_result (path defaultPath : string) (requireAbs : bool) :
  (exists p, formatPath path defaultPath false = Ok p)
  /\ (forall p, formatPath path defaultPath requireAbs = Ok p ->
        p <> "" /\ (requireAbs = true -> Filepath.IsAbs p = true))
  /\ (path <> "" ->
      formatPath path defaultPath requireAbs = formatPath path "" requireAbs)
  /\ (path = "" -> defaultPath <> "" ->
      formatPath path defaultPath requireAbs = formatPath defaultPath "" requireAbs).
Proof.
  unfold formatPath. split; [| split; [| split]].
  - eexists. reflexivity.
  - intros p. set (q := Filepath.Clean _).
    destruct requireAbs; cbn [andb].
    + destruct (Filepath.IsAbs q) eqn:Hq; cbn [negb]; [| discriminate].
      intros [= <-]. split; [apply Clean_nonempty | intros _; exact Hq].
    + intros [= <-]. split; [apply Clean_nonempty | discriminate].
  - intros Hne. apply isEmpty_false in Hne. rewrite Hne. reflexivity.
  - intros -> Hd. apply isEmpty_false in Hd. rewrite Hd. reflexivity.
Qed.

(** X2 at a relative path, which passes when an absolute one is not
    required. *)
Lemma formatPath_result_witness :
  formatPath "a/../b/" "/" true = Err "path must be an absolute path: b"
  /\ formatPath "a/../b/" "/" false = formatPath "a/../b/" "" false.
Proof.
  split; [reflexivity |].
  apply (formatPath_result "a/../b/" "/" false). discriminate.
Defined.

Section LocalChecks.

Context `{Crypto} {FileInfo GrepMatch : Type} `{Json FileInfo GrepMatch}.

(** X3: [LsInfo] requires an absolute path: called with a path that is
    neither empty nor absolute it returns at once, with no remote call, an
    error that mentions "absolute path". *)
Theorem LsInfo_rejects_relative_path (s : sandboxToolBackend) (path : string) :
  path <> "" -> Filepath.IsAbs path = false ->
  exists e, returnsAtOnce (LsInfo s (LsInfoRequest.mk path)) (Err e)
            /\ Strings.Contains e "absolute path" = true.
Proof.
  intros Hne Hrel. eexists. split; [| apply absolute_path_message].
  unfold returnsAtOnce, LsInfo. cbn [LsInfoRequest.Path].
  destruct (formatPath_result path "/" true) as (_ & _ & Hdef & _).
  rewrite (Hdef Hne), (formatPath_relative _ Hrel). reflexivity.
Qed.

(** X4: [Execute] with an empty command returns the error "command is
    required" at once, with no remote call; a run of [Execute] that sends a
    request was given a command. *)
Theorem Execute_requires_command (s : sandboxToolBackend) (input : ExecuteRequest.t) :
  (ExecuteRequest.Command input = "" ->
   returnsAtOnce (Execute s input) (Err "command is required"))
  /\ (forall w, snd (run w (Execute s input)) <> [] -> ExecuteRequest.Command input <> "").
Proof.
  assert (Hempty : ExecuteRequest.Command input = "" ->
                   returnsAtOnce (Execute s input) (Err "command is required")).
  { intros He. unfold returnsAtOnce, Execute. rewrite He. reflexivity. }
  split; [exact Hempty |].
  intros w Hsent He. rewrite (Hempty He) in Hsent. contradiction.
Qed.

End LocalChecks.

(** X3 at the relative path [src]. *)
Lemma LsInfo_rejects_relative_path_witness :
  exists e,
    returnsAtOnce (@LsInfo toyCrypto string string toyJson toyBackend (LsInfoRequest.mk "src"))
                  (Err e)
    /\ Strings.Contains e "absolute path" = true.
Proof.
  apply (@LsInfo_rejects_relative_path toyCrypto string string toyJson toyBackend "src");
    [discriminate | reflexivity].
Defined.

(** X4 at the empty command. *)
Lemma Execute_requires_command_witness :
  returnsAtOnce
    (@Execute toyCrypto string string toyJson toyBackend (ExecuteRequest.mk ""))
    (Err "command is required").
Proof.
  apply (@Execute_requires_command toyCrypto string string toyJson toyBackend
           (ExecuteRequest.mk "")).
  reflexivity.
Defined.

(** ** What the transport returns and how the operations pass it on *)

Section Results.

Context `{Crypto} {FileInfo GrepMatch : Type} `{Json FileInfo GrepMatch}.

Lemma invokeTool_value (w : World) (s : sandboxToolBackend) (body : string) :
  fst (run w (invokeTool s Http.MethodPost body))
  = match roundTrip w (httpClient s) (signedRequest w s body) with
    | Err e => Err ("do request err: " +:+ e)
    | Ok response =>
        match Response.Body response with
        | Err e => Err ("failed to read response body: " +:+ e)
        | Ok responseBody =>
            if Response.StatusCode response =? 200 then Ok responseBody
            else Err ("request failed with status code "
                      +:+ Strings.Itoa (Response.StatusCode response))
        end
    end.
Proof.
  unfold invokeTool, signedRequest.
  set (q := Url.Set_ _ _ _). set (r0 := Http.NewRequest _ _ _).
  rewrite run_bind, run_bind. unfold clientDo. cbn [run fst snd].
  destruct (roundTrip w (httpClient s) _) as [resp | e]; [| reflexivity].
  destruct (Response.Body resp); [| reflexivity].
  destruct (Response.StatusCode resp =? 200); reflexivity.
Qed.

Lemma execute_decoded (w : World) (s : sandboxToolBackend) (command : string)
    (ret : result.t) :
  decodedEnvelope w s command = Ok ret ->
  fst (run w (execute s command))
  = (envelopeText ret, Some (if result.Success ret then 0 else -1), None).
Proof.
  unfold decodedEnvelope, execute, requestBytes. rewrite run_bind.
  destruct (fst (run w (invokeTool _ _ _))) as [respBody | e]; [| discriminate].
  destruct (unmarshalResponse respBody) as [resp | e]; [| discriminate].
  destruct (unmarshalResult (response.Result resp)) as [r | e]; [| discriminate].
  intros [= ->]. unfold envelopeText.
  destruct ret as [outputs success].
  cbn [result.Success result.Outputs].
  destruct success; cbn [negb]; destruct outputs; reflexivity.
Qed.

(** The scripts render for every value of their parameters. *)
Lemma ls_renders (path : string) :
  exists script,
    Pyfmt.Fmt lsInfoPythonCodeTemplate (<["path" := AString path]> ∅) = Ok script.
Proof.
  apply (Fmt_ok _ _ ["path"]); [vm_compute; reflexivity |].
  repeat constructor; vm_compute; eauto.
Qed.

Lemma grep_renders (pattern path glob : string) :
  exists script,
    Pyfmt.Fmt grepPythonCodeTemplate
      (<["pattern" := AString pattern]>
         (<["path" := AString path]> (<["glob_pattern" := AString glob]> ∅))) = Ok script.
Proof.
  apply (Fmt_ok _ _ ["pattern"; "path"; "glob_pattern"]); [vm_compute; reflexivity |].
  repeat constructor; vm_compute; eauto.
Qed.

Lemma glob_renders (path64 pattern64 : string) :
  exists script,
    Pyfmt.Fmt globPythonCodeTemplate
      (<["path_b64" := AString path64]> (<["pattern_b64" := AString pattern64]> ∅))
    = Ok script.
Proof.
  apply (Fmt_ok _ _ ["path_b64"; "pattern_b64"]); [vm_compute; reflexivity |].
  repeat constructor; vm_compute; eauto.
Qed.

Lemma write_renders (path content64 : string) :
  exists script,
    Pyfmt.Fmt writePythonCodeTemplate
      (<["file_path" := AString path]> (<["content_b64" := AString content64]> ∅))
    = Ok script.
Proof.
  apply (Fmt_ok _ _ ["file_path"; "content_b64"]); [vm_compute; reflexivity |].
  repeat constructor; vm_compute; eauto.
Qed.

Lemma execute_renders (command64 : string) :
  exists script,
    Pyfmt.Fmt executePythonCodeTemplate (<["command_b64" := AString command64]> ∅)
    = Ok script.
Proof.
  apply (Fmt_ok _ _ ["command_b64"]); [vm_compute; reflexivity |].
  repeat constructor; vm_compute; eauto.
Qed.

Lemma run_execute_bind {A} (w : World) (s : sandboxToolBackend) (script : string)
    (k : string * option Z * option error -> Prog A) :
  run w (execute s script ≫= k)
  = (fst (run w (k (fst (run w (execute s script))))),
     EvRequest (httpClient s) (signedRequest w s (requestBytes s script))
     :: snd (run w (k (fst (run w (execute s script)))))).
Proof. rewrite run_bind, run_execute. reflexivity. Qed.

(** Each operation, once its local checks have passed, is [execute] on its
    script followed by the check of the result. *)
Lemma Read_run (w : World) (s : sandboxToolBackend) (req : ReadRequest.t) :
  Filepath.IsAbs (ReadRequest.FilePath req) = true ->
  exists script,
    run w (Read s req)
    = ((ReadRequest.mk (ReadRequest.FilePath req)
          (defaultedOffset (ReadRequest.Offset req))
          (defaultedLimit (ReadRequest.Limit req)),
        checked "failed to execute read script: "
                "read script exited with non-zero code "
                (fst (run w (execute s script)))),
       [EvRequest (httpClient s) (signedRequest w s (requestBytes s script))]).
Proof.
  intros Habs. unfold Read. rewrite (formatPath_absolute _ Habs).
  destruct req as [fp off lim]. unfold defaultedOffset, defaultedLimit.
  cbn [ReadRequest.FilePath ReadRequest.Offset ReadRequest.Limit].
  destruct (off <=? 0); cbn [ReadRequest.FilePath ReadRequest.Offset ReadRequest.Limit];
    destruct (lim <=? 0); cbn [ReadRequest.FilePath ReadRequest.Offset ReadRequest.Limit].
  all: match goal with
       | |- context [Pyfmt.Fmt _ (<["file_path" := AString ?p]>
                                    (<["offset" := AInt ?o]> (<["limit" := AInt ?l]> ∅)))] =>
           destruct (Read_renders p o l) as (script & Hs & _)
       end;
       exists script; rewrite Hs, run_execute_bind; reflexivity.
Qed.

Lemma Write_run (w : World) (s : sandboxToolBackend) (req : WriteRequest.t) :
  Filepath.IsAbs (WriteRequest.FilePath req) = true ->
  exists script,
    run w (Write s req)
    = (match checked "failed to execute write script: "
                     "write script exited with non-zero code "
                     (fst (run w (execute s script))) with
       | Err e => Some e
       | Ok _ => None
       end,
       [EvRequest (httpClient s) (signedRequest w s (requestBytes s script))]).
Proof.
  intros Habs. unfold Write. rewrite (formatPath_absolute _ Habs).
  destruct (write_renders (Filepath.Clean (WriteRequest.FilePath req))
              (Base64.EncodeToString (WriteRequest.Content req))) as [script Hs].
  exists script. rewrite Hs, run_execute_bind.
  destruct (checked _ _ _); reflexivity.
Qed.

Lemma Edit_run (w : World) (s : sandboxToolBackend) (req : EditRequest.t) :
  Filepath.IsAbs (EditRequest.FilePath req) = true ->
  EditRequest.OldString req <> "" ->
  EditRequest.OldString req <> EditRequest.NewString req ->
  exists script,
    run w (Edit s req)
    = (match checked "failed to execute edit script: "
                     "edit script exited with non-zero code "
                     (fst (run w (execute s script))) with
       | Err e => Some e
       | Ok _ => None
       end,
       [EvRequest (httpClient s) (signedRequest w s (requestBytes s script))]).
Proof.
  intros Habs Hold Hneq. unfold Edit. rewrite (formatPath_absolute _ Habs).
  apply isEmpty_false in Hold. rewrite Hold.
  apply String.eqb_neq in Hneq. rewrite Hneq.
  destruct (Edit_renders (Filepath.Clean (EditRequest.FilePath req))
              (Base64.EncodeToString (EditRequest.OldString req))
              (Base64.EncodeToString (EditRequest.NewString req))
              (if negb (EditRequest.ReplaceAll req) then 0 else 1)) as [script Hs].
  exists script. rewrite Hs, run_execute_bind.
  destruct (checked _ _ _); reflexivity.
Qed.

Lemma LsInfo_run (w : World) (s : sandboxToolBackend) (req : LsInfoRequest.t)
    (path : string) :
  formatPath (LsInfoRequest.Path req) "/" true = Ok path ->
  exists script,
    run w (LsInfo s req)
    = (match checked "failed to execute ls script: "
                     "ls script exited with non-zero code "
                     (fst (run w (execute s script))) with
       | Err e => Err e
       | Ok output =>
           Ok (if isEmpty output then [] else decodedFileInfos (outputLines output))
       end,
       [EvRequest (httpClient s) (signedRequest w s (requestBytes s script))]).
Proof.
  intros Hfp. unfold LsInfo. rewrite Hfp.
  destruct (ls_renders path) as [script Hs].
  exists script. rewrite Hs, run_execute_bind.
  destruct (checked _ _ _) as [o | e]; [| reflexivity].
  destruct (isEmpty o); [reflexivity |]. rewrite fileInfoLines_spec. reflexivity.
Qed.

Lemma GlobInfo_run (w : World) (s : sandboxToolBackend) (req : GlobInfoRequest.t) :
  exists script,
    Pyfmt.Fmt globPythonCodeTemplate
      (<["path_b64" := AString (Base64.EncodeToString
                                  (orZero (formatPath (GlobInfoRequest.Path req) "/" false)))]>
         (<["pattern_b64" := AString (Base64.EncodeToString (GlobInfoRequest.Pattern req))]> ∅))
    = Ok script
    /\ run w (GlobInfo s req)
       = (match checked "failed to execute glob script: "
                        "glob script exited with non-zero code "
                        (fst (run w (execute s script))) with
          | Err e => Err e
          | Ok output =>
              Ok (if isEmpty output then [] else decodedFileInfos (outputLines output))
          end,
          [EvRequest (httpClient s) (signedRequest w s (requestBytes s script))]).
Proof.
  destruct (glob_renders
              (Base64.EncodeToString (orZero (formatPath (GlobInfoRequest.Path req) "/" false)))
              (Base64.EncodeToString (GlobInfoRequest.Pattern req))) as [script Hs].
  exists script. split; [exact Hs |].
  unfold GlobInfo. rewrite Hs, run_execute_bind.
  destruct (checked _ _ _) as [o | e]; [| reflexivity].
  destruct (isEmpty o); [reflexivity |]. rewrite fileInfoLines_spec. reflexivity.
Qed.

Lemma GrepRaw_run (w : World) (s : sandboxToolBackend) (req : GrepRequest.t) :
  exists script,
    run w (GrepRaw s req)
    = (match checked "failed to execute grep script: "
                     "grep script exited with code "
                     (fst (run w (execute s script))) with
       | Err e => Err e
       | Ok output =>
           Ok (if isEmpty output then [] else decodedGrepMatches (outputLines output))
       end,
       EvRequest (httpClient s) (signedRequest w s (requestBytes s script))
       :: match checked "failed to execute grep script: "
                        "grep script exited with code "
                        (fst (run w (execute s script))) with
          | Err _ => []
          | Ok output =>
              if isEmpty output then []
              else map EvLog (grepLogLines (outputLines output))
          end).
Proof.
  destruct (grep_renders (GrepRequest.Pattern req)
              (orZero (formatPath (GrepRequest.Path req) "" false))
              (GrepRequest.Glob req)) as [script Hs].
  exists script. unfold GrepRaw. rewrite Hs, run_execute_bind.
  destruct (checked _ _ _) as [o | e]; [| reflexivity].
  destruct (isEmpty o); [reflexivity |].
  rewrite run_bind, grepMatchLines_spec. cbn [fst snd run mret Prog_ret].
  rewrite app_nil_r. reflexivity.
Qed.

Lemma Execute_run (w : World) (s : sandboxToolBackend) (input : ExecuteRequest.t) :
  ExecuteRequest.Command input <> "" ->
  exists script,
    run w (Execute s input)
    = (match checked "failed to execute command script: "
                     "command exited with non-zero code "
                     (fst (run w (execute s script))) with
       | Err e => Err e
       | Ok output => Ok (ExecuteResponse.mk output)
       end,
       [EvRequest (httpClient s) (signedRequest w s (requestBytes s script))]).
Proof.
  intros Hcmd. unfold Execute. apply isEmpty_false in Hcmd. rewrite Hcmd.
  destruct (execute_renders (Base64.EncodeToString (ExecuteRequest.Command input)))
    as [script Hs].
  exists script. rewrite Hs, run_execute_bind.
  destruct (checked _ _ _); reflexivity.
Qed.

End Results.

Section Mapping.

Context `{Crypto} {FileInfo GrepMatch : Type} `{Json FileInfo GrepMatch}.

(** X5: [execute] returns no text and a nil exit code, with an error that
    tells the stage, when the client fails, when the body cannot be read
    (whatever the status), when the status is not 200 (whatever the body),
    and when the outer or the inner envelope does not decode. *)
Theorem execute_transport_errors (w : World) (s : sandboxToolBackend) (command : string) :
  let answer := roundTrip w (httpClient s) (signedRequest w s (requestBytes s command)) in
  let returns e := fst (run w (execute s command)) = ("", None, Some e) in
  (forall e, answer = Err e ->
     returns ("failed to invoke tool: do request err: " +:+ e))
  /\ (forall code e, answer = Ok (Response.mk code (Err e)) ->
        returns ("failed to invoke tool: failed to read response body: " +:+ e))
  /\ (forall code body, answer = Ok (Response.mk code (Ok body)) -> code <> 200 ->
        returns ("failed to invoke tool: request failed with status code "
                 +:+ Strings.Itoa code))
  /\ (forall body e, answer = Ok (Response.mk 200 (Ok body)) ->
        unmarshalResponse body = Err e ->
        returns ("failed to unmarshal response: " +:+ e))
  /\ (forall body resp e, answer = Ok (Response.mk 200 (Ok body)) ->
        unmarshalResponse body = Ok resp ->
        unmarshalResult (response.Result resp) = Err e ->
        returns ("failed to unmarshal result data: " +:+ e)).
Proof.
  cbv zeta. unfold execute. rewrite run_bind.
  change (marshalRequest (buildRequest s (marshalMap (operationPayloadMap s command))))
    with (requestBytes s command).
  rewrite invokeTool_value.
  split; [| split; [| split; [| split]]].
  - intros e ->. reflexivity.
  - intros code e ->. reflexivity.
  - intros code body -> Hcode. cbn [Response.Body Response.StatusCode].
    apply Z.eqb_neq in Hcode. rewrite Hcode. reflexivity.
  - intros body e -> He. cbn [Response.Body Response.StatusCode Z.eqb Pos.eqb].
    rewrite He. reflexivity.
  - intros body resp e -> Hr He. cbn [Response.Body Response.StatusCode Z.eqb Pos.eqb].
    rewrite Hr, He. reflexivity.
Qed.

Lemma execute_bad_status (w : World) (s : sandboxToolBackend) (code : Z) (body : string)
    (command : string) :
  (forall r, roundTrip w (httpClient s) r = Ok (Response.mk code (Ok body))) ->
  code <> 200 ->
  fst (run w (execute s command))
  = ("", None,
     Some ("failed to invoke tool: request failed with status code " +:+ Strings.Itoa code)).
Proof.
  intros Hall Hcode. unfold execute. rewrite run_bind.
  change (marshalRequest (buildRequest s (marshalMap (operationPayloadMap s command))))
    with (requestBytes s command).
  rewrite invokeTool_value, Hall. cbn [Response.Body Response.StatusCode].
  apply Z.eqb_neq in Hcode. rewrite Hcode. reflexivity.
Qed.

(** X6: when the sandbox answers with a status other than 200, every
    operation whose local checks pass returns an error that names the
    operation and the status, and no result. *)
Theorem bad_status_fails_every_operation (w : World) (s : sandboxToolBackend)
    (code : Z) (body : string) :
  (forall r, roundTrip w (httpClient s) r = Ok (Response.mk code (Ok body))) ->
  code <> 200 ->
  let cause := "failed to invoke tool: request failed with status code "
               +:+ Strings.Itoa code in
  (forall req, Filepath.IsAbs (ReadRequest.FilePath req) = true ->
     snd (fst (run w (Read s req))) = Err ("failed to execute read script: " +:+ cause))
  /\ (forall req, Filepath.IsAbs (WriteRequest.FilePath req) = true ->
        fst (run w (Write s req)) = Some ("failed to execute write script: " +:+ cause))
  /\ (forall req, Filepath.IsAbs (EditRequest.FilePath req) = true ->
        EditRequest.OldString req <> "" ->
        EditRequest.OldString req <> EditRequest.NewString req ->
        fst (run w (Edit s req)) = Some ("failed to execute edit script: " +:+ cause))
  /\ (forall req path, formatPath (LsInfoRequest.Path req) "/" true = Ok path ->
        fst (run w (LsInfo s req)) = Err ("failed to execute ls script: " +:+ cause))
  /\ (forall req,
        fst (run w (GrepRaw s req)) = Err ("failed to execute grep script: " +:+ cause))
  /\ (forall req,
        fst (run w (GlobInfo s req)) = Err ("failed to execute glob script: " +:+ cause))
  /\ (forall input, ExecuteRequest.Command input <> "" ->
        fst (run w (Execute s input)) = Err ("failed to execute command script: " +:+ cause)).
Proof.
  intros Hall Hcode. cbv zeta.
  pose proof (fun c => execute_bad_status w s code body c Hall Hcode) as Hx.
  split; [| split; [| split; [| split; [| split; [| split]]]]].
  - intros req Habs. destruct (Read_run w s req Habs) as [script ->].
    cbn [fst snd]. rewrite Hx. reflexivity.
  - intros req Habs. destruct (Write_run w s req Habs) as [script ->].
    cbn [fst snd]. rewrite Hx. reflexivity.
  - intros req Habs Ho Hn. destruct (Edit_run w s req Habs Ho Hn) as [script ->].
    cbn [fst snd]. rewrite Hx. reflexivity.
  - intros req path Hp. destruct (LsInfo_run w s req path Hp) as [script ->].
    cbn [fst snd]. rewrite Hx. reflexivity.
  - intros req. destruct (GrepRaw_run w s req) as [script ->].
    cbn [fst snd]. rewrite Hx. reflexivity.
  - intros req. destruct (GlobInfo_run w s req) as (script & _ & ->).
    cbn [fst snd]. rewrite Hx. reflexivity.
  - intros input Hc. destruct (Execute_run w s input Hc) as [script ->].
    cbn [fst snd]. rewrite Hx. reflexivity.
Qed.

(** X7: when the sandbox answers every script with an envelope whose
    success flag is false, every operation whose local checks pass returns an
    error made of the prefix of the operation, the exit code -1 and the text
    of the envelope (the first output's text, or ["ename: evalue"]). *)
Theorem remote_failure_is_reported (w : World) (s : sandboxToolBackend) (ret : result.t) :
  (forall command, decodedEnvelope w s command = Ok ret) ->
  result.Success ret = false ->
  let d := envelopeText ret in
  (forall req, Filepath.IsAbs (ReadRequest.FilePath req) = true ->
     snd (fst (run w (Read s req)))
     = Err ("read script exited with non-zero code -1: " +:+ d))
  /\ (forall req, Filepath.IsAbs (WriteRequest.FilePath req) = true ->
        fst (run w (Write s req))
        = Some ("write script exited with non-zero code -1: " +:+ d))
  /\ (forall req, Filepath.IsAbs (EditRequest.FilePath req) = true ->
        EditRequest.OldString req <> "" ->
        EditRequest.OldString req <> EditRequest.NewString req ->
        fst (run w (Edit s req))
        = Some ("edit script exited with non-zero code -1: " +:+ d))
  /\ (forall req path, formatPath (LsInfoRequest.Path req) "/" true = Ok path ->
        fst (run w (LsInfo s req))
        = Err ("ls script exited with non-zero code -1: " +:+ d))
  /\ (forall req,
        fst (run w (GrepRaw s req)) = Err ("grep script exited with code -1: " +:+ d))
  /\ (forall req,
        fst (run w (GlobInfo s req))
        = Err ("glob script exited with non-zero code -1: " +:+ d))
  /\ (forall input, ExecuteRequest.Command input <> "" ->
        fst (run w (Execute s input))
        = Err ("command exited with non-zero code -1: " +:+ d)).
Proof.
  intros Hall Hfail. cbv zeta.
  assert (Hx : forall c, fst (run w (execute s c)) = (envelopeText ret, Some (-1), None)).
  { intros c. rewrite (execute_decoded w s c ret (Hall c)), Hfail. reflexivity. }
  split; [| split; [| split; [| split; [| split; [| split]]]]].
  - intros req Habs. destruct (Read_run w s req Habs) as [script ->].
    cbn [fst snd]. rewrite Hx. reflexivity.
  - intros req Habs. destruct (Write_run w s req Habs) as [script ->].
    cbn [fst snd]. rewrite Hx. reflexivity.
  - intros req Habs Ho Hn. destruct (Edit_run w s req Habs Ho Hn) as [script ->].
    cbn [fst snd]. rewrite Hx. reflexivity.
  - intros req path Hp. destruct (LsInfo_run w s req path Hp) as [script ->].
    cbn [fst snd]. rewrite Hx. reflexivity.
  - intros req. destruct (GrepRaw_run w s req) as [script ->].
    cbn [fst snd]. rewrite Hx. reflexivity.
  - intros req. destruct (GlobInfo_run w s req) as (script & _ & ->).
    cbn [fst snd]. rewrite Hx. reflexivity.
  - intros input Hc. destruct (Execute_run w s input Hc) as [script ->].
    cbn [fst snd]. rewrite Hx. reflexivity.
Qed.

(** X8: when the sandbox answers every script with an envelope whose
    success flag is true, [Read] returns the text of the first output as it
    is, [Execute] returns it as its output, and [Write] and [Edit] return no
    error. *)
Theorem remote_success_is_passed_on (w : World) (s : sandboxToolBackend) (ret : result.t) :
  (forall command, decodedEnvelope w s command = Ok ret) ->
  result.Success ret = true ->
  (forall req, Filepath.IsAbs (ReadRequest.FilePath req) = true ->
     snd (fst (run w (Read s req))) = Ok (firstText ret))
  /\ (forall req, Filepath.IsAbs (WriteRequest.FilePath req) = true ->
        fst (run w (Write s req)) = None)
  /\ (forall req, Filepath.IsAbs (EditRequest.FilePath req) = true ->
        EditRequest.OldString req <> "" ->
        EditRequest.OldString req <> EditRequest.NewString req ->
        fst (run w (Edit s req)) = None)
  /\ (forall input, ExecuteRequest.Command input <> "" ->
        fst (run w (Execute s input)) = Ok (ExecuteResponse.mk (firstText ret))).
Proof.
  intros Hall Hok.
  assert (Hx : forall c, fst (run w (execute s c)) = (firstText ret, Some 0, None)).
  { intros c. rewrite (execute_decoded w s c ret (Hall c)), Hok.
    unfold envelopeText, firstText. rewrite Hok.
    destruct (result.Outputs ret); reflexivity. }
  split; [| split; [| split]].
  - intros req Habs. destruct (Read_run w s req Habs) as [script ->].
    cbn [fst snd]. rewrite Hx. reflexivity.
  - intros req Habs. destruct (Write_run w s req Habs) as [script ->].
    cbn [fst snd]. rewrite Hx. reflexivity.
  - intros req Habs Ho Hn. destruct (Edit_run w s req Habs Ho Hn) as [script ->].
    cbn [fst snd]. rewrite Hx. reflexivity.
  - intros input Hc. destruct (Execute_run w s input Hc) as [script ->].
    cbn [fst snd]. rewrite Hx. reflexivity.
Qed.

End Mapping.

(** X5 at a dead network. *)
Lemma execute_transport_errors_witness :
  fst (run unreachable (@execute toyCrypto string string toyJson toyBackend "print(1)"))
  = ("", None, Some "failed to invoke tool: do request err: dial tcp: connection refused").
Proof.
  apply (@execute_transport_errors toyCrypto string string toyJson unreachable
           toyBackend "print(1)").
  reflexivity.
Defined.

(** X6 at a sandbox that answers 403. *)
Lemma bad_status_fails_every_operation_witness :
  fst (run (refusing 403)
         (@Write toyCrypto string string toyJson toyBackend
                 (WriteRequest.mk "/tmp/a.txt" "hello")))
  = Some "failed to execute write script: failed to invoke tool: request failed with status code 403".
Proof.
  refine (proj1 (proj2 (@bad_status_fails_every_operation toyCrypto string string toyJson
                          (refusing 403) toyBackend 403 "" _ _))
                (WriteRequest.mk "/tmp/a.txt" "hello") _).
  - intros r. reflexivity.
  - discriminate.
  - reflexivity.
Defined.

(** X7 at the failure envelope of the specification. *)
Lemma remote_failure_is_reported_witness :
  fst (run (answering "failed")
         (@Edit toyCrypto string string toyJson toyBackend
                (EditRequest.mk "/tmp/a.txt" "old" "new" false)))
  = Some "edit script exited with non-zero code -1: E: V".
Proof.
  refine (proj1 (proj2 (proj2 (@remote_failure_is_reported toyCrypto string string toyJson
                                 (answering "failed") toyBackend failedEnvelope _ _)))
                (EditRequest.mk "/tmp/a.txt" "old" "new" false) _ _ _).
  - intros command. reflexivity.
  - reflexivity.
  - reflexivity.
  - discriminate.
  - discriminate.
Defined.

(** X8 at the success envelope of the specification. *)
Lemma remote_success_is_passed_on_witness :
  snd (fst (run (answering "ok")
              (@Read toyCrypto string string toyJson toyBackend
                     (ReadRequest.mk "/tmp/a.txt" 0 10))))
  = Ok "X".
Proof.
  refine (proj1 (@remote_success_is_passed_on toyCrypto string string toyJson
                   (answering "ok") toyBackend okEnvelope _ _)
                (ReadRequest.mk "/tmp/a.txt" 0 10) _).
  - intros command. reflexivity.
  - reflexivity.
  - reflexivity.
Defined.

(** ** The request on the wire *)

Lemma NewSandboxToolBackend_baseURL (config : Config.t) (b : sandboxToolBackend) :
  NewSandboxToolBackend config = Ok b ->
  baseURL b = regionOfBeijingBaseURL \/ baseURL b = regionOfShangHaiBaseURL.
Proof.
  unfold NewSandboxToolBackend.
  repeat match goal with
         | |- context [if ?c then _ else _] => destruct c; try discriminate
         end;
    intros [= <-]; auto.
Qed.

Lemma four_keys (a c d e k : string) (x y z u : string) :
  is_Some ((<[a := x]> (<[c := y]> (<[d := z]> (<[e := u]> (∅ : gmap string string))))) !! k)
  <-> In k [e; d; c; a].
Proof.
  rewrite !lookup_insert_is_Some. simpl.
  pose proof (lookup_empty_is_Some (M := gmap string) (A := string) k) as Hempty.
  destruct (decide (a = k)), (decide (c = k)), (decide (d = k)), (decide (e = k));
    intuition congruence.
Qed.

Section Wire.

Context `{Crypto}.

(** X9: the request an operation sends is a POST to the base URL of the
    backend followed by [/?Action=InvokeTool&Version=2025-10-30], with the
    host of that URL, the given body, and the four signed headers and no
    other; for a backend that [NewSandboxToolBackend] returned, the URL is one
    of the two endpoints. *)
Theorem request_on_the_wire (w : World) (s : sandboxToolBackend) (body : string) :
  let r := signedRequest w s body in
  Request.Method r = "POST"
  /\ Request.URL r = baseURL s +:+ "/?Action=InvokeTool&Version=2025-10-30"
  /\ Request.Host r = Url.Host (Request.URL r)
  /\ Request.Body r = body
  /\ (forall k, is_Some (Request.Header r !! k) <-> In k signedKeys)
  /\ (forall config, NewSandboxToolBackend config = Ok s ->
        Request.URL r
        = "https://agentkit.cn-beijing.volces.com/?Action=InvokeTool&Version=2025-10-30"
          /\ Request.Host r = "agentkit.cn-beijing.volces.com"
        \/ Request.URL r
           = "https://agentkit.cn-shanghai.volces.com/?Action=InvokeTool&Version=2025-10-30"
           /\ Request.Host r = "agentkit.cn-shanghai.volces.com").
Proof.
  cbv zeta. unfold signedRequest, signRequest. rewrite run_bind.
  change (fst (run w timeNow)) with (clock w). cbn [fst run mret Prog_ret].
  split; [reflexivity |]. split; [reflexivity |]. split; [reflexivity |].
  split; [reflexivity |]. split.
  - intros k. unfold Http.HeaderSet, Http.NewRequest. cbn [Request.Header].
    change (Textproto.CanonicalMIMEHeaderKey "Authorization") with "Authorization".
    change (Textproto.CanonicalMIMEHeaderKey "Content-Type") with "Content-Type".
    change (Textproto.CanonicalMIMEHeaderKey "X-Content-Sha256") with "X-Content-Sha256".
    change (Textproto.CanonicalMIMEHeaderKey "X-Date") with "X-Date".
    apply four_keys.
  - intros config Hc. cbn [Request.URL Request.Host Http.HeaderSet Http.NewRequest].
    destruct (NewSandboxToolBackend_baseURL config s Hc) as [-> | ->];
      [left | right]; split; reflexivity.
Qed.

(** X10: [signRequest] changes nothing of a request but the four headers it
    sets: method, URL, host and body stay, and so does every header under
    another key; a value the request had under one of the four keys is
    replaced. *)
Theorem signRequest_frame (w : World) (s : sandboxToolBackend) (request : Request.t)
    (queries : Url.Values) (body : string) :
  let signed := fst (run w (signRequest s request queries body)) in
  Request.Method signed = Request.Method request
  /\ Request.URL signed = Request.URL request
  /\ Request.Host signed = Request.Host request
  /\ Request.Body signed = Request.Body request
  /\ (forall k, ~ In k signedKeys ->
        Request.Header signed !! k = Request.Header request !! k)
  /\ Request.Header signed !! "X-Date" = Some (clock w)
  /\ Request.Header signed !! "Content-Type" = Some "application/json".
Proof.
  cbv zeta. unfold signRequest. rewrite run_bind.
  change (fst (run w timeNow)) with (clock w). cbn [fst run mret Prog_ret].
  split; [reflexivity |]. split; [reflexivity |]. split; [reflexivity |].
  split; [reflexivity |]. split; [| split].
  - intros k Hk. simpl in Hk.
    rewrite !Header_Set_ne; [reflexivity | | | |]; vm_compute; intros <-; tauto.
  - rewrite !Header_Set_ne by (vm_compute; discriminate).
    apply (Header_Set_eq request "X-Date").
  - rewrite Header_Set_ne by (vm_compute; discriminate).
    match goal with |- Request.Header (Http.HeaderSet ?r _ _) !! _ = _ =>
      apply (Header_Set_eq r "Content-Type") end.
Qed.

End Wire.

(** X9 at a backend built for Shanghai. *)
Lemma request_on_the_wire_witness :
  exists s, NewSandboxToolBackend shanghaiConfig = Ok s
    /\ Request.URL (signedRequest (H := toyCrypto) (answering "ok") s "{}")
       = "https://agentkit.cn-shanghai.volces.com/?Action=InvokeTool&Version=2025-10-30".
Proof.
  eexists. split; [reflexivity |].
  match goal with |- Request.URL (signedRequest _ ?s _) = _ =>
    destruct (proj2 (proj2 (proj2 (proj2 (proj2
                (@request_on_the_wire toyCrypto (answering "ok") s "{}")))))
                shanghaiConfig eq_refl) as [[Hu _] | [Hu _]]
  end.
  - discriminate Hu.
  - exact Hu.
Defined.

(** X10 at a request that already has a header of its own and a stale
    date. *)
Lemma signRequest_frame_witness :
  let request := Http.HeaderSet (Http.HeaderSet
                   (Http.NewRequest "POST" "https://h/?a=b" "{}") "X-Trace" "t-1")
                   "X-Date" "19700101T000000Z" in
  ~ In "X-Trace" signedKeys
  /\ Request.Header
       (fst (run (answering "ok") (@signRequest toyCrypto toyBackend request [] "{}")))
     !! "X-Trace" = Some "t-1".
Proof.
  cbv zeta. split; [simpl; intuition discriminate |].
  rewrite (proj1 (proj2 (proj2 (proj2 (proj2
             (@signRequest_frame toyCrypto (answering "ok") toyBackend _ [] "{}")))))
             "X-Trace"); [reflexivity | simpl; intuition discriminate].
Defined.

(** ** What an operation does on the network and in the log *)

Section Traces.

Context `{Crypto} {FileInfo GrepMatch : Type} `{Json FileInfo GrepMatch}.

(** X11: [LsInfo], [Read], [GlobInfo], [Write], [Edit] and [Execute] never
    send a second request and never log: a run does nothing at all, or it
    sends one request through the client of the backend. *)
Theorem at_most_one_request (w : World) (s : sandboxToolBackend) :
  let quiet (t : list event) :=
    t = [] \/ exists script,
      t = [EvRequest (httpClient s) (signedRequest w s (requestBytes s script))] in
  (forall req, quiet (snd (run w (LsInfo s req))))
  /\ (forall req, quiet (snd (run w (Read s req))))
  /\ (forall req, quiet (snd (run w (GlobInfo s req))))
  /\ (forall req, quiet (snd (run w (Write s req))))
  /\ (forall req, quiet (snd (run w (Edit s req))))
  /\ (forall input, quiet (snd (run w (Execute s input)))).
Proof.
  cbv zeta. split; [| split; [| split; [| split; [| split]]]].
  - intros req. destruct (formatPath (LsInfoRequest.Path req) "/" true) as [path | e] eqn:Hp.
    + right. destruct (LsInfo_run w s req path Hp) as [script ->]. eauto.
    + left. unfold LsInfo. rewrite Hp. reflexivity.
  - intros req. destruct (Filepath.IsAbs (ReadRequest.FilePath req)) eqn:Habs.
    + right. destruct (Read_run w s req Habs) as [script ->]. eauto.
    + left. unfold Read. rewrite (formatPath_relative _ Habs). reflexivity.
  - intros req. right. destruct (GlobInfo_run w s req) as (script & _ & ->). eauto.
  - intros req. destruct (Filepath.IsAbs (WriteRequest.FilePath req)) eqn:Habs.
    + right. destruct (Write_run w s req Habs) as [script ->]. eauto.
    + left. unfold Write. rewrite (formatPath_relative _ Habs). reflexivity.
  - intros req. destruct (Filepath.IsAbs (EditRequest.FilePath req)) eqn:Habs.
    + destruct (String.eqb_spec (EditRequest.OldString req) "") as [Ho | Ho].
      { left. unfold Edit. rewrite (formatPath_absolute _ Habs).
        apply isEmpty_true in Ho. rewrite Ho. reflexivity. }
      destruct (String.eqb_spec (EditRequest.OldString req) (EditRequest.NewString req))
        as [Hn | Hn].
      { left. unfold Edit. rewrite (formatPath_absolute _ Habs).
        apply isEmpty_false in Ho. rewrite Ho.
        apply String.eqb_eq in Hn. rewrite Hn. reflexivity. }
      right. destruct (Edit_run w s req Habs Ho Hn) as [script ->]. eauto.
    + left. unfold Edit. rewrite (formatPath_relative _ Habs). reflexivity.
  - intros input. destruct (String.eqb_spec (ExecuteRequest.Command input) "") as [Hc | Hc].
    + left. unfold Execute. apply isEmpty_true in Hc. rewrite Hc. reflexivity.
    + right. destruct (Execute_run w s input Hc) as [script ->]. eauto.
Qed.

(** X12: [GrepRaw] has no local check that can fail: whatever the request,
    a run sends exactly one request, first, and everything after it is a log
    line for an output line that did not decode; an empty path is searched as
    the current directory. *)
Theorem GrepRaw_always_sends (w : World) (s : sandboxToolBackend) (req : GrepRequest.t) :
  (exists script msgs,
      snd (run w (GrepRaw s req))
      = EvRequest (httpClient s) (signedRequest w s (requestBytes s script))
        :: map EvLog msgs)
  /\ length (requests (snd (run w (GrepRaw s req)))) = 1%nat
  /\ formatPath "" "" false = Ok ".".
Proof.
  destruct (GrepRaw_run w s req) as [script Hrun]. rewrite Hrun. cbn [snd].
  split; [| split; [| reflexivity]].
  - exists script. destruct (checked _ _ _) as [o | e].
    + destruct (isEmpty o); [exists []; reflexivity | eauto].
    + exists []. reflexivity.
  - change (length (signedRequest w s (requestBytes s script)
                    :: requests (match checked "failed to execute grep script: "
                                         "grep script exited with code "
                                         (fst (run w (execute s script))) with
                                 | Ok output =>
                                     if isEmpty output then []
                                     else map EvLog (grepLogLines (outputLines output))
                                 | Err _ => []
                                 end)) = 1%nat).
    destruct (checked _ _ _) as [o | e]; [| reflexivity].
    destruct (isEmpty o); [reflexivity |]. rewrite requests_map_EvLog. reflexivity.
Qed.

(** X13: [GlobInfo] has no local check that can fail either, and both its
    path (the root when the request has none) and its pattern reach the
    script base64-encoded, inside a call that decodes them; decoding gives
    them back. *)
Theorem GlobInfo_parameters_are_encoded (w : World) (s : sandboxToolBackend)
    (req : GlobInfoRequest.t) :
  let path := orZero (formatPath (GlobInfoRequest.Path req) "/" false) in
  exists script,
    snd (run w (GlobInfo s req))
    = [EvRequest (httpClient s) (signedRequest w s (requestBytes s script))]
    /\ Strings.Contains script
         ("path = base64.b64decode('" +:+ Base64.EncodeToString path
          +:+ "').decode('utf-8')") = true
    /\ Strings.Contains script
         ("pattern = base64.b64decode('"
          +:+ Base64.EncodeToString (GlobInfoRequest.Pattern req)
          +:+ "').decode('utf-8')") = true
    /\ Base64.b64decode (Base64.EncodeToString path) = Some path
    /\ Base64.b64decode (Base64.EncodeToString (GlobInfoRequest.Pattern req))
       = Some (GlobInfoRequest.Pattern req)
    /\ (GlobInfoRequest.Path req = "" -> path = "/").
Proof.
  cbv zeta. destruct (GlobInfo_run w s req) as (script & Hs & ->).
  exists script. split; [reflexivity |].
  revert Hs. generalize (orZero (formatPath (GlobInfoRequest.Path req) "/" false)) at 1 2 3 4.
  intros path Hs.
  split; [| split; [| split; [| split]]].
  - revert Hs. generalize (Base64.EncodeToString (GlobInfoRequest.Pattern req)).
    intros q64 Hs.
    apply (Fmt_field _ _ "path = base64.b64decode('" "path_b64" "').decode('utf-8')"
             script (AString (Base64.EncodeToString path)) Hs).
    + vm_compute. reflexivity.
    + generalize (Base64.EncodeToString path). intros p64. vm_compute. reflexivity.
  - revert Hs. generalize (Base64.EncodeToString path). intros p64 Hs.
    apply (Fmt_field _ _ "pattern = base64.b64decode('" "pattern_b64"
             "').decode('utf-8')" script
             (AString (Base64.EncodeToString (GlobInfoRequest.Pattern req))) Hs).
    + vm_compute. reflexivity.
    + generalize (Base64.EncodeToString (GlobInfoRequest.Pattern req)). intros q64.
      vm_compute. reflexivity.
  - apply b64decode_EncodeToString.
  - apply b64decode_EncodeToString.
  - intros ->. reflexivity.
Qed.




End Traces.

(** ** What base64 text is made of *)

Lemma enc6_b64Char (n : N) : (n < 64)%N -> b64Char (Base64.enc6 n) = true.
Proof.
  revert n. apply N_lt_64_cases. intros k Hk.
  apply (below_64 (fun k => b64Char (Base64.enc6 (N.of_nat k))));
    [vm_compute; reflexivity | exact Hk].
Qed.

Lemma encodeBytes_alphabet_length (src : list ascii) :
  forallb b64Char (Base64.encodeBytes src) = true
  /\ length (Base64.encodeBytes src) = (4 * ((length src + 2) / 3))%nat.
Proof.
  assert (Hgen : forall n src, (length src <= n)%nat ->
                   forallb b64Char (Base64.encodeBytes src) = true
                   /\ length (Base64.encodeBytes src) = (4 * ((length src + 2) / 3))%nat).
  2: { apply (Hgen (length src)). lia. }
  clear src. induction n as [| n IH]; intros src Hlen.
  { destruct src; [split; reflexivity | simpl in Hlen; lia]. }
  destruct src as [| x [| y [| z rest]]]; [split; reflexivity | | |].
  - pose proof (sextets _ 0 0 (byteVal_bound x) ltac:(lia) ltac:(lia))
      as (H1 & _ & _ & _ & H2 & _).
    cbn [Base64.encodeBytes forallb]. rewrite (enc6_b64Char _ H1), (enc6_b64Char _ H2).
    split; reflexivity.
  - pose proof (sextets _ _ 0 (byteVal_bound x) (byteVal_bound y) ltac:(lia))
      as (H1 & H2 & _ & _ & _ & H3 & _).
    cbn [Base64.encodeBytes forallb].
    rewrite (enc6_b64Char _ H1), (enc6_b64Char _ H2), (enc6_b64Char _ H3).
    split; reflexivity.
  - pose proof (sextets _ _ _ (byteVal_bound x) (byteVal_bound y) (byteVal_bound z))
      as (H1 & H2 & H3 & H4 & _).
    destruct (IH rest ltac:(simpl in Hlen; lia)) as [Ha Hl].
    cbn [Base64.encodeBytes forallb length].
    rewrite (enc6_b64Char _ H1), (enc6_b64Char _ H2), (enc6_b64Char _ H3),
      (enc6_b64Char _ H4), Ha, Hl.
    split; [reflexivity |].
    replace (S (S (S (length rest))) + 2)%nat with (1 * 3 + (length rest + 2))%nat by lia.
    rewrite Nat.div_add_l by lia. lia.
Qed.

Lemma length_ofBytes (l : list ascii) : String.length (Strings.ofBytes l) = length l.
Proof. induction l as [| c l IH]; [reflexivity |]. simpl. f_equal. exact IH. Qed.

Lemma length_bytes (s : string) : length (Strings.bytes s) = String.length s.
Proof. rewrite <- (ofBytes_bytes s) at 2. symmetry. apply length_ofBytes. Qed.

Lemma no_quote_in_alphabet (t : string) :
  forallb b64Char (Strings.bytes t) = true -> Strings.Contains t "'" = false.
Proof.
  induction t as [| c t IH]; [reflexivity |].
  change (Strings.bytes (String c t)) with (c :: Strings.bytes t).
  cbn [forallb]. intros [Hc Ht]%andb_true_iff.
  cbn [Strings.Contains Strings.HasPrefix]. rewrite (IH Ht), orb_false_r.
  destruct (Ascii.eqb_spec "'" c) as [<- | Hne]; [discriminate Hc |].
  reflexivity.
Qed.

(** X15: the text [base64.StdEncoding.EncodeToString] gives is made of
    letters, digits, [+], [/] and [=] only, four characters for every three
    bytes begun; so it holds no quote, and a value passed as one of the
    [_b64] parameters cannot end the Python string it is rendered into. *)
Theorem EncodeToString_is_quote_free (s : string) :
  forallb b64Char (Strings.bytes (Base64.EncodeToString s)) = true
  /\ String.length (Base64.EncodeToString s) = (4 * ((String.length s + 2) / 3))%nat
  /\ Strings.Contains (Base64.EncodeToString s) "'" = false.
Proof.
  unfold Base64.EncodeToString.
  destruct (encodeBytes_alphabet_length (Strings.bytes s)) as [Ha Hl].
  assert (Hall : forallb b64Char (Strings.bytes (Strings.ofBytes
                   (Base64.encodeBytes (Strings.bytes s)))) = true)
    by (rewrite bytes_ofBytes; exact Ha).
  split; [exact Hall |]. split.
  - rewrite length_ofBytes, Hl, length_bytes. reflexivity.
  - apply no_quote_in_alphabet. exact Hall.
Qed.

Section RawPaths.

Context `{Crypto} {FileInfo GrepMatch : Type} `{Json FileInfo GrepMatch}.

(** X16: the path, unlike the content, is not encoded: [Write], [Edit] and
    [LsInfo] put the cleaned path between two quotes of the script as it is,
    and cleaning leaves a quote in a path where it was. *)
Theorem paths_are_interpolated_raw (w : World) (s : sandboxToolBackend) (path : string) :
  Filepath.IsAbs path = true ->
  (forall content, exists script,
      snd (run w (Write s (WriteRequest.mk path content)))
      = [EvRequest (httpClient s) (signedRequest w s (requestBytes s script))]
      /\ Strings.Contains script ("file_path = '" +:+ Filepath.Clean path +:+ "'") = true)
  /\ (forall old new all, old <> "" -> old <> new -> exists script,
        snd (run w (Edit s (EditRequest.mk path old new all)))
        = [EvRequest (httpClient s) (signedRequest w s (requestBytes s script))]
        /\ Strings.Contains script
             ("with open('" +:+ Filepath.Clean path +:+ "', 'r') as f:") = true
        /\ Strings.Contains script
             ("with open('" +:+ Filepath.Clean path +:+ "', 'w') as f:") = true)
  /\ (exists script,
        snd (run w (LsInfo s (LsInfoRequest.mk path)))
        = [EvRequest (httpClient s) (signedRequest w s (requestBytes s script))]
        /\ Strings.Contains script ("path = '" +:+ Filepath.Clean path +:+ "'") = true)
  /\ Filepath.Clean "/tmp/it's" = "/tmp/it's".
Proof.
  intros Habs. split; [| split; [| split; [| reflexivity]]].
  - intros content.
    set (params := (<["file_path" := AString (Filepath.Clean path)]>
                      (<["content_b64" := AString (Base64.EncodeToString content)]> ∅))
                   : gmap string any).
    destruct (write_renders (Filepath.Clean path) (Base64.EncodeToString content))
      as [script Hs].
    exists script. split.
    + unfold Write. cbn [WriteRequest.FilePath WriteRequest.Content].
      rewrite (formatPath_absolute _ Habs), Hs, run_execute_bind. cbn [snd].
      destruct (checked _ _ _); reflexivity.
    + revert Hs. generalize (Base64.EncodeToString content), (Filepath.Clean path).
      intros c64 p Hs.
      apply (Fmt_field _ _ "file_path = '" "file_path" "'" script (AString p) Hs);
        vm_compute; reflexivity.
  - intros old new all Hold Hneq.
    destruct (Edit_renders (Filepath.Clean path) (Base64.EncodeToString old)
                (Base64.EncodeToString new) (if negb all then 0 else 1)) as [script Hs].
    exists script. split; [| split].
    + unfold Edit. cbn [EditRequest.FilePath EditRequest.OldString EditRequest.NewString
                        EditRequest.ReplaceAll].
      rewrite (formatPath_absolute _ Habs).
      apply isEmpty_false in Hold. rewrite Hold.
      apply String.eqb_neq in Hneq. rewrite Hneq.
      rewrite Hs, run_execute_bind. cbn [snd].
      destruct (checked _ _ _); reflexivity.
    + revert Hs. generalize (Base64.EncodeToString old), (Base64.EncodeToString new),
        (Filepath.Clean path), (if negb all then 0 else 1).
      intros o64 n64 p ra Hs.
      apply (Fmt_field _ _ "with open('" "file_path" "', 'r') as f:" script (AString p) Hs);
        vm_compute; reflexivity.
    + revert Hs. generalize (Base64.EncodeToString old), (Base64.EncodeToString new),
        (Filepath.Clean path), (if negb all then 0 else 1).
      intros o64 n64 p ra Hs.
      apply (Fmt_field _ _ "with open('" "file_path" "', 'w') as f:" script (AString p) Hs);
        vm_compute; reflexivity.
  - destruct (ls_renders (Filepath.Clean path)) as [script Hs].
    exists script. split.
    + unfold LsInfo. cbn [LsInfoRequest.Path].
      destruct (formatPath_result path "/" true) as (_ & _ & Hdef & _).
      assert (Hne : path <> "") by (intros ->; discriminate Habs).
      rewrite (Hdef Hne), (formatPath_absolute _ Habs), Hs, run_execute_bind. cbn [snd].
      destruct (checked _ _ _) as [o | e]; [destruct (isEmpty o) |]; reflexivity.
    + revert Hs. generalize (Filepath.Clean path). intros p Hs.
      apply (Fmt_field _ _ "path = '" "path" "'" script (AString p) Hs);
        vm_compute; reflexivity.
Qed.

End RawPaths.

(** X16 at a path with a quote in it. *)
Lemma paths_are_interpolated_raw_witness :
  Filepath.IsAbs "/tmp/it's" = true
  /\ exists script,
      snd (run (answering "ok")
             (@Write toyCrypto string string toyJson toyBackend
                     (WriteRequest.mk "/tmp/it's" "x")))
      = [EvRequest DefaultClient
           (signedRequest (H := toyCrypto) (answering "ok") toyBackend
              (requestBytes (H := toyCrypto) (H0 := toyJson) toyBackend script))]
      /\ Strings.Contains script "file_path = '/tmp/it's'" = true.
Proof.
  split; [reflexivity |].
  exact (proj1 (@paths_are_interpolated_raw toyCrypto string string toyJson
                  (answering "ok") toyBackend "/tmp/it's" eq_refl) "x").
Defined.

(** ** The scripts *)

Lemma slice_map {A B} (f : A -> B) (l : list A) (start stop : Z) :
  Python.slice (map f l) start stop = map f (Python.slice l start stop).
Proof.
  unfold Python.slice. rewrite length_map, skipn_map, firstn_map. reflexivity.
Qed.

Lemma printLines_ext (offset i : Z) (L L' : list (list ascii)) :
  map Python.rstripNewline L = map Python.rstripNewline L' ->
  Python.printLines offset i L = Python.printLines offset i L'.
Proof.
  revert i L'. induction L as [| l L IH]; intros i [| l' L'] E; try discriminate.
  - reflexivity.
  - injection E as El EL. cbn [Python.printLines]. rewrite El, (IH _ _ EL). reflexivity.
Qed.

Lemma readlines_lines_then (lines : list string) (rest : list ascii) :
  forallb noNewline lines = true ->
  Python.readlines (Strings.bytes (textOfLines lines) ++ rest)
  = map (fun l => Strings.bytes l ++ [Python.newline]) lines ++ Python.readlines rest.
Proof.
  induction lines as [| l lines IH]; intros Hl; [reflexivity |].
  simpl in Hl. apply andb_true_iff in Hl as [Hl Hrest].
  cbn [textOfLines map]. rewrite !bytes_app, <- !app_assoc.
  change (Strings.bytes Python.nl) with [Python.newline].
  change ([Python.newline] ++ (Strings.bytes (textOfLines lines) ++ rest))
    with (Python.newline :: (Strings.bytes (textOfLines lines) ++ rest)).
  rewrite (readlines_line _ _ Hl), (IH Hrest). reflexivity.
Qed.

Lemma readlines_one (l : list ascii) :
  l <> [] -> forallb (fun c => negb (Ascii.eqb c Python.newline)) l = true ->
  Python.readlines l = [l].
Proof.
  induction l as [| c l IH]; intros Hne Hl; [congruence |].
  simpl in Hl. apply andb_true_iff in Hl as [Hc Hl]. apply negb_true_iff in Hc.
  cbn [Python.readlines]. rewrite Hc.
  destruct l as [| d l]; [reflexivity |].
  rewrite IH by (congruence || exact Hl). reflexivity.
Qed.

Lemma rstripNewline_plain (l : list ascii) :
  forallb (fun c => negb (Ascii.eqb c Python.newline)) l = true ->
  Python.rstripNewline l = l.
Proof.
  intros Hl. unfold Python.rstripNewline.
  rewrite (dropNewlines_rev _ Hl). apply rev_involutive.
Qed.

Lemma rstripNewline_ended (l : list ascii) :
  forallb (fun c => negb (Ascii.eqb c Python.newline)) l = true ->
  Python.rstripNewline (l ++ [Python.newline]) = l.
Proof.
  intros Hl. unfold Python.rstripNewline. rewrite rev_app_distr.
  cbn [rev app Python.dropNewlines]. rewrite Ascii.eqb_refl.
  rewrite (dropNewlines_rev _ Hl). apply rev_involutive.
Qed.

Lemma textOfLines_nonempty (l : string) (lines : list string) (tail : string) :
  (String.length (textOfLines (l :: lines) +:+ tail) =? 0)%nat = false.
Proof.
  cbn [textOfLines]. rewrite <- (ofBytes_bytes (_ +:+ tail)), !bytes_app, length_ofBytes.
  destruct (Strings.bytes l); reflexivity.
Qed.

(** X17: the read script prints "File not found" and exits with -1 for a
    missing file, prints a reminder and exits with 0 for an empty one, and
    for an offset at or past the last line prints nothing and exits with 0:
    reading past the end is no error. *)
Theorem readScript_edges (fs : string -> option string) (path : string)
    (offset limit : Z) :
  (fs path = None ->
   Python.readScript fs path offset limit = ("Error: File not found" +:+ Python.nl, -1))
  /\ (fs path = Some "" ->
      Python.readScript fs path offset limit
      = ("System reminder: File exists but has empty contents" +:+ Python.nl, 0))
  /\ (forall lines,
        lines <> [] -> forallb noNewline lines = true ->
        fs path = Some (textOfLines lines) ->
        Z.of_nat (length lines) <= offset -> 0 < limit ->
        Python.readScript fs path offset limit = ("", 0)).
Proof.
  unfold Python.readScript. split; [| split].
  - intros ->. reflexivity.
  - intros ->. reflexivity.
  - intros lines Hne Hlines -> Hoff Hlim.
    destruct lines as [| l0 rest]; [congruence |].
    pose proof (textOfLines_nonempty l0 rest "") as Hlen.
    assert (Happ : forall t, t +:+ "" = t).
    { induction t as [| c t IH]; [reflexivity |].
      change (String c (t +:+ "") = String c t). f_equal. exact IH. }
    rewrite Happ in Hlen. rewrite Hlen.
    assert (Ho : 0 <= offset) by lia.
    rewrite (readlines_textOfLines _ Hlines), (slice_window _ _ _ Ho Hlim).
    rewrite skipn_all2 by (rewrite length_map; lia).
    destruct (Z.to_nat limit); reflexivity.
Qed.

(** X18: a last line with no newline after it is printed like any other:
    the read script prints the same for a file and for that file with the
    newline added. *)
Theorem readScript_last_line (path : string) (lines : list string) (last : string)
    (offset limit : Z) :
  forallb noNewline lines = true -> noNewline last = true -> last <> "" ->
  Python.readScript (oneFile path (textOfLines lines +:+ last)) path offset limit
  = Python.readScript (oneFile path (textOfLines (lines ++ [last]))) path offset limit.
Proof.
  intros Hlines Hlast Hne. unfold Python.readScript, oneFile. rewrite String.eqb_refl.
  assert (Hb : Strings.bytes last <> []).
  { intros E. apply Hne. rewrite <- (ofBytes_bytes last), E. reflexivity. }
  assert (Hn1 : (String.length (textOfLines lines +:+ last) =? 0)%nat = false).
  { rewrite <- (ofBytes_bytes (_ +:+ last)), bytes_app, length_ofBytes, length_app.
    destruct (Strings.bytes last); [congruence |]. simpl. apply Nat.eqb_neq. lia. }
  assert (Hn2 : (String.length (textOfLines (lines ++ [last])) =? 0)%nat = false).
  { destruct lines as [| l0 rest].
    - pose proof (textOfLines_nonempty last [] "") as E. cbn [textOfLines app] in *.
      rewrite <- (ofBytes_bytes (last +:+ _)), !bytes_app, length_ofBytes in *.
      destruct (Strings.bytes last); [congruence | reflexivity].
    - cbn [app textOfLines].
      rewrite <- (ofBytes_bytes (l0 +:+ _)), !bytes_app, length_ofBytes.
      destruct (Strings.bytes l0); reflexivity. }
  rewrite Hn1, Hn2. f_equal. apply printLines_ext.
  assert (Hall : forallb noNewline (lines ++ [last]) = true).
  { rewrite forallb_app, Hlines. simpl. rewrite Hlast. reflexivity. }
  rewrite (readlines_textOfLines _ Hall), bytes_app, (readlines_lines_then _ _ Hlines).
  rewrite (readlines_one _ Hb Hlast), map_app.
  rewrite <- !slice_map. f_equal.
  rewrite !map_app. cbn [map].
  rewrite (rstripNewline_plain _ Hlast), (rstripNewline_ended _ Hlast). reflexivity.
Qed.

(** X17 at a file of three lines read from line four on. *)
Lemma readScript_edges_witness :
  Python.readScript (oneFile "/data/a.txt" (textOfLines ["one"; "two"; "three"]))
    "/data/a.txt" 3 10 = ("", 0).
Proof.
  apply (proj2 (proj2 (readScript_edges
                         (oneFile "/data/a.txt" (textOfLines ["one"; "two"; "three"]))
                         "/data/a.txt" 3 10)) ["one"; "two"; "three"]);
    [discriminate | reflexivity | reflexivity | simpl; lia | lia].
Defined.

(** X18 at a file whose second line is not ended. *)
Lemma readScript_last_line_witness :
  Python.readScript (oneFile "/data/a.txt" (textOfLines ["one"] +:+ "two")) "/data/a.txt" 0 5
  = ("     1" +:+ Python.tab +:+ "one" +:+ Python.nl
     +:+ "     2" +:+ Python.tab +:+ "two" +:+ Python.nl, 0).
Proof.
  rewrite (readScript_last_line "/data/a.txt" ["one"] "two" 0 5);
    [reflexivity | reflexivity | reflexivity | discriminate].
Defined.

(** ** The edit script *)

Lemma append_empty (t : string) : t +:+ "" = t.
Proof.
  induction t as [| c t IH]; [reflexivity |].
  change (String c (t +:+ "") = String c t). f_equal. exact IH.
Qed.


Lemma HasPrefix_split (t old : string) :
  Strings.HasPrefix t old = true -> exists post, t = old +:+ post.
Proof.
  revert t. induction old as [| a old IH]; intros t; cbn [Strings.HasPrefix].
  - exists t. reflexivity.
  - destruct t as [| c t]; [discriminate |].
    intros [Hc Ht]%andb_true_iff. apply Ascii.eqb_eq in Hc. subst c.
    destruct (IH t Ht) as [post ->]. exists post. reflexivity.
Qed.

Lemma HasPrefix_empty (t : string) : Strings.HasPrefix t "" = true.
Proof. destruct t; reflexivity. Qed.

(** [count] gives zero exactly for a text that does not hold [old]. *)
Lemma count_zero_iff (text old : string) :
  PyStr.count text old = O <-> Strings.Contains text old = false.
Proof.
  unfold PyStr.count. destruct (isEmpty old) eqn:He.
  - apply isEmpty_true in He. subst old. split; [discriminate |].
    destruct text; cbn [Strings.Contains Strings.HasPrefix]; discriminate.
  - apply isEmpty_false in He. induction text as [| c text IH].
    + cbn [PyStr.countFrom Strings.Contains]. destruct old; [congruence |].
      split; reflexivity.
    + cbn [PyStr.countFrom Strings.Contains].
      destruct (Strings.HasPrefix (String c text) old); cbn [orb];
        [split; discriminate | exact IH].
Qed.

Lemma replaceFrom_done (old new : string) (skip : string) (post : string) :
  PyStr.replaceFrom old new (Some O) (String.length skip) (skip +:+ post) = post.
Proof.
  induction skip as [| a skip IH].
  - cbn [String.length]. change ("" +:+ post) with post.
    induction post as [| c post IHp]; [reflexivity |].
    cbn [PyStr.replaceFrom andb]. rewrite IHp. reflexivity.
  - change (String a skip +:+ post) with (String a (skip +:+ post)).
    cbn [String.length PyStr.replaceFrom]. exact IH.
Qed.

(** Replacing once replaces the first occurrence and keeps what is around
    it. *)
Lemma replace_first (text old new : string) :
  old <> "" -> Strings.Contains text old = true ->
  exists pre post,
    text = pre +:+ old +:+ post
    /\ Strings.Contains pre old = false
    /\ PyStr.replaceFrom old new (Some 1%nat) O text = pre +:+ new +:+ post.
Proof.
  intros Hne. induction text as [| c text IH]; cbn [Strings.Contains].
  - destruct old; [congruence | discriminate].
  - destruct (Strings.HasPrefix (String c text) old) eqn:Hp; cbn [orb].
    + intros _. destruct (HasPrefix_split _ _ Hp) as [post E].
      exists "", post. split; [exact E |]. split.
      { destruct old; [congruence | reflexivity]. }
      cbn [PyStr.replaceFrom andb option_map pred]. rewrite Hp.
      destruct old as [| a old']; [congruence |].
      change (String a old' +:+ post) with (String a (old' +:+ post)) in E.
      injection E as -> ->.
      cbn [String.length].
      replace (S (String.length old') - 1)%nat with (String.length old') by lia.
      change ("" +:+ new +:+ post) with (new +:+ post). f_equal.
      apply replaceFrom_done.
    + intros Hc. destruct (IH Hc) as (pre & post & -> & Hpre & Hr).
      exists (String c pre), post. split; [reflexivity |]. split.
      * cbn [Strings.Contains]. rewrite Hpre, orb_false_r.
        destruct (Strings.HasPrefix (String c pre) old) eqn:Hq; [| reflexivity].
        destruct (HasPrefix_split _ _ Hq) as [rest E].
        assert (Hcontra : Strings.HasPrefix (String c (pre +:+ old +:+ post)) old = true).
        { change (String c (pre +:+ old +:+ post)) with (String c pre +:+ old +:+ post).
          rewrite E, append_assoc. apply HasPrefix_app. }
        congruence.
      * cbn [PyStr.replaceFrom andb]. rewrite Hp, Hr. reflexivity.
Qed.



(** X19: the edit script never creates or removes a file and never touches
    a file other than its target; unless it exits with status 0 (a missing
    file, a string that is not found, a string found more than once without
    [replace_all]) it leaves the file system as it was. *)
Theorem editScript_frame (fs : gmap string string) (file_path old new : string)
    (replace_all : Z) :
  let '(o, fs') := Scripts.editScript fs file_path old new replace_all in
  (Scripts.status o <> Some 0 -> fs' = fs)
  /\ (forall q, q <> file_path -> fs' !! q = fs !! q)
  /\ (forall q, is_Some (fs' !! q) <-> is_Some (fs !! q))
  /\ (fs !! file_path = None -> o = Scripts.Raised "FileNotFoundError").
Proof.
  unfold Scripts.editScript.
  destruct (fs !! file_path) as [text |] eqn:Hf.
  2: { cbn [Scripts.status]. repeat split; auto; try discriminate; intros; assumption. }
  destruct (PyStr.count text old =? 0)%nat.
  { cbn [Scripts.status]. repeat split; auto; try discriminate. }
  destruct ((1 <? PyStr.count text old)%nat && (replace_all =? 0)).
  { cbn [Scripts.status]. repeat split; auto; try discriminate. }
  cbn [Scripts.status]. split; [congruence |]. split; [| split; [| discriminate]].
  - intros q Hq. apply lookup_insert_ne. congruence.
  - intros q. rewrite lookup_insert_is_Some.
    destruct (decide (file_path = q)) as [<- | Hq]; [| tauto].
    rewrite Hf. split; eauto.
Qed.

(** X20: the edit script exits with status 0 exactly when the file holds
    the string, and holds it once or [replace_all] is set; it reports "not
    found" exactly when the file does not hold the string, and "multiple
    times" when it holds it more than once and [replace_all] is not set. *)
Theorem editScript_outcome (fs : gmap string string) (file_path old new text : string)
    (replace_all : Z) :
  fs !! file_path = Some text ->
  let o := fst (Scripts.editScript fs file_path old new replace_all) in
  let n := PyStr.count text old in
  (Scripts.status o = Some 0
   <-> Strings.Contains text old = true /\ (n = 1%nat \/ replace_all <> 0))
  /\ (Strings.Contains text old = false <->
      o = Scripts.Exited ("Error: String not found in file: '" +:+ old +:+ "'"
                          +:+ Python.nl) (-1))
  /\ ((1 < n)%nat -> replace_all = 0 ->
      exists msg, o = Scripts.Exited msg (-1)
                  /\ Strings.Contains msg "appears multiple times" = true)
  /\ (Scripts.status o = Some 0 ->
      o = Scripts.Exited (Strings.Itoa (Z.of_nat n) +:+ Python.nl) 0).
Proof.
  intros Hf. cbv zeta. unfold Scripts.editScript. rewrite Hf.
  pose proof (count_zero_iff text old) as Hz.
  destruct (Nat.eqb_spec (PyStr.count text old) 0) as [H0 | H0].
  { assert (Hc : Strings.Contains text old = false) by (apply Hz; exact H0).
    cbn [fst Scripts.status]. rewrite Hc. split; [| split; [| split]].
    - split; [discriminate | intros [? _]; discriminate].
    - split; reflexivity.
    - intros; lia.
    - discriminate. }
  assert (Hc : Strings.Contains text old = true).
  { destruct (Strings.Contains text old); [reflexivity |]. exfalso. apply H0, Hz. reflexivity. }
  rewrite Hc.
  destruct (Nat.ltb_spec 1 (PyStr.count text old)) as [Hm | Hm];
    destruct (Z.eqb_spec replace_all 0) as [Hr | Hr];
    cbn [andb negb fst Scripts.status].
  - split; [| split; [| split]].
    + split; [discriminate | intros [_ [? | ?]]; [lia | contradiction]].
    + split; discriminate.
    + intros _ _. eexists. split; [reflexivity |].
      change ("Error: String '" +:+ old
              +:+ "' appears multiple times. Use replace_all=True to replace all occurrences."
              +:+ Python.nl)
        with ("Error: String '" +:+ old +:+ "' " +:+ "appears multiple times"
              +:+ ". Use replace_all=True to replace all occurrences." +:+ Python.nl).
      rewrite <- (append_assoc "Error: String '" old), <- (append_assoc _ "' ").
      apply Contains_app.
    + discriminate.
  - split; [| split; [| split]].
    + split; [intros _; split; [reflexivity | right; exact Hr] | reflexivity].
    + split; discriminate.
    + intros _ ?. contradiction.
    + reflexivity.
  - split; [| split; [| split]].
    + split; [intros _; split; [reflexivity | left; lia] | reflexivity].
    + split; discriminate.
    + intros; lia.
    + reflexivity.
  - split; [| split; [| split]].
    + split; [intros _; split; [reflexivity | left; lia] | reflexivity].
    + split; discriminate.
    + intros; lia.
    + reflexivity.
Qed.

(** X21: for a string that is not empty and without [replace_all], an edit
    that succeeds puts [new] in the place of the one occurrence of [old] and
    keeps the text before and after it. *)
Theorem editScript_replaces_the_occurrence (fs : gmap string string)
    (file_path old new text : string) :
  fs !! file_path = Some text -> old <> "" ->
  Scripts.status (fst (Scripts.editScript fs file_path old new 0)) = Some 0 ->
  exists pre post,
    text = pre +:+ old +:+ post
    /\ Strings.Contains pre old = false
    /\ Scripts.editScript fs file_path old new 0
       = (Scripts.Exited ("1" +:+ Python.nl) 0,
          <[file_path := pre +:+ new +:+ post]> fs).
Proof.
  intros Hf Hne Hok.
  destruct (editScript_outcome fs file_path old new text 0 Hf) as (Hiff & _ & _ & _).
  apply Hiff in Hok as [Hc [H1 | Hr]]; [| congruence].
  destruct (replace_first text old new Hne Hc) as (pre & post & Ht & Hpre & Hrep).
  exists pre, post. split; [exact Ht |]. split; [exact Hpre |].
  unfold Scripts.editScript. rewrite Hf, H1. cbn [Nat.eqb Nat.ltb Nat.leb andb Z.eqb negb].
  unfold PyStr.replace. apply isEmpty_false in Hne. rewrite Hne, Hrep. reflexivity.
Qed.


(** X19 at an edit of a string the file does not hold. *)
Lemma editScript_frame_witness :
  snd (Scripts.editScript (notesFs "alpha beta") "/data/notes.txt" "gamma" "delta" 1)
  = notesFs "alpha beta".
Proof.
  pose proof (editScript_frame (notesFs "alpha beta") "/data/notes.txt" "gamma" "delta" 1)
    as Hf.
  assert (Hst : Scripts.status
                  (fst (Scripts.editScript (notesFs "alpha beta") "/data/notes.txt"
                          "gamma" "delta" 1)) = Some (-1))
    by (vm_compute; reflexivity).
  destruct (Scripts.editScript _ _ _ _ _) as [o fs'].
  destruct Hf as [Hsame _]. cbn [snd]. apply Hsame.
  cbn [fst] in Hst. rewrite Hst. discriminate.
Defined.

(** X20 at a file that holds the string twice, edited without
    [replace_all]. *)
Lemma editScript_outcome_witness :
  exists msg,
    fst (Scripts.editScript (notesFs "foo bar foo") "/data/notes.txt" "foo" "baz" 0)
    = Scripts.Exited msg (-1)
    /\ Strings.Contains msg "appears multiple times" = true.
Proof.
  apply (proj1 (proj2 (proj2 (editScript_outcome (notesFs "foo bar foo") "/data/notes.txt"
                                "foo" "baz" "foo bar foo" 0 eq_refl))));
    [vm_compute; lia | reflexivity].
Defined.

(** X21 at a file that holds the string once. *)
Lemma editScript_replaces_the_occurrence_witness :
  exists pre post,
    "alpha beta gamma" = pre +:+ "beta" +:+ post
    /\ Strings.Contains pre "beta" = false
    /\ Scripts.editScript (notesFs "alpha beta gamma") "/data/notes.txt" "beta" "BETA" 0
       = (Scripts.Exited ("1" +:+ Python.nl) 0,
          <["/data/notes.txt" := pre +:+ "BETA" +:+ post]> (notesFs "alpha beta gamma")).
Proof.
  apply (editScript_replaces_the_occurrence (notesFs "alpha beta gamma") "/data/notes.txt"
           "beta" "BETA" "alpha beta gamma");
    [reflexivity | discriminate | reflexivity].
Defined.


Example editScript_examples :
  let edited old new all :=
    let '(o, fs) := Scripts.editScript (notesFs "foo bar foo") "/data/notes.txt" old new all in
    (o, fs !! "/data/notes.txt") in
  edited "foo" "quux" 1 = (Scripts.Exited ("2" +:+ Python.nl) 0, Some "quux bar quux")
  /\ edited "bar" "" 0 = (Scripts.Exited ("1" +:+ Python.nl) 0, Some "foo  foo")
  /\ fst (edited "foo" "x" 0) = fst (edited "foo" "y" 0)
  /\ snd (edited "foo" "x" 0) = Some "foo bar foo"
  /\ fst (Scripts.editScript (notesFs "foo") "/data/other.txt" "foo" "bar" 0)
     = Scripts.Raised "FileNotFoundError".
Proof. vm_compute. repeat split; reflexivity. Qed.

(** ** The execute script *)

(** X23: the execute script exits with status 0 exactly when the command
    ran and wrote nothing to standard error, and then prints the command's
    standard output as it is, also when the command itself returned a
    non-zero code; when the command wrote to standard error the script prints
    nothing to standard output and exits with the command's code, or with 1
    when that code is 0. *)
Theorem executeScript_status (shell : string -> fallible Scripts.completed)
    (command : string) :
  let '(out, err, code) := Scripts.executeScript shell command in
  (code = 0 <-> exists r, shell command = Ok r /\ Scripts.stderr r = "")
  /\ (forall r, shell command = Ok r -> Scripts.stderr r = "" ->
        out = Scripts.stdout r /\ err = "")
  /\ (forall r, shell command = Ok r -> Scripts.stderr r <> "" ->
        out = ""
        /\ code = (if Scripts.returncode r =? 0 then 1 else Scripts.returncode r)
        /\ code <> 0
        /\ err = "Error executing command: " +:+ Scripts.stderr r +:+ Python.nl)
  /\ (forall e, shell command = Err e -> out = "" /\ code = 1).
Proof.
  unfold Scripts.executeScript.
  destruct (shell command) as [r | e].
  - destruct (isEmpty (Scripts.stderr r)) eqn:He; cbn [negb].
    + apply isEmpty_true in He. split; [| split; [| split]].
      * split; [intros _; eauto | reflexivity].
      * intros r' [= <-] _. split; reflexivity.
      * intros r' [= <-] Hne. contradiction.
      * discriminate.
    + apply isEmpty_false in He.
      assert (Hcode : (if negb (Scripts.returncode r =? 0)
                       then Scripts.returncode r else 1) <> 0).
      { destruct (Z.eqb_spec (Scripts.returncode r) 0); cbn [negb]; lia. }
      split; [| split; [| split]].
      * split; [intros E; contradiction | intros (r' & [= <-] & Hs); contradiction].
      * intros r' [= <-] Hs. contradiction.
      * intros r' [= <-] _. split; [reflexivity |]. split; [| split; [exact Hcode | reflexivity]].
        destruct (Scripts.returncode r =? 0); reflexivity.
      * discriminate.
  - split; [| split; [| split]].
    + split; [discriminate | intros (r & Hr & _); discriminate].
    + discriminate.
    + discriminate.
    + intros e' _. split; reflexivity.
Qed.

(** X23 at a command that fails silently and at one that succeeds
    noisily. *)
Lemma executeScript_status_witness :
  Scripts.executeScript (constantShell "partial" "" 2) "make" = ("partial", "", 0)
  /\ snd (Scripts.executeScript (constantShell "done" "warning: x" 0) "make") = 1.
Proof.
  split.
  - pose proof (executeScript_status (constantShell "partial" "" 2) "make") as Hs.
    destruct (Scripts.executeScript _ _) as [[out err] code].
    destruct Hs as (Hz & Hout & _).
    destruct (Hout (Scripts.Build_completed "partial" "" 2) eq_refl eq_refl) as [-> ->].
    f_equal. apply Hz. eexists. split; reflexivity.
  - pose proof (executeScript_status (constantShell "done" "warning: x" 0) "make") as Hs.
    destruct (Scripts.executeScript _ _) as [[out err] code].
    destruct Hs as (_ & _ & Herr & _).
    destruct (Herr (Scripts.Build_completed "done" "warning: x" 0) eq_refl) as (_ & -> & _);
      [discriminate | reflexivity].
Defined.

Section EditEncoding.

Context `{Crypto} {FileInfo GrepMatch : Type} `{Json FileInfo GrepMatch}.

(** X26: when its local checks pass, [Edit] sends a script that holds both
    strings base64-encoded, each inside a call that decodes it, and the flag
    as the int 1 or 0; decoding gives the strings back. *)
Theorem Edit_sends_encoded_strings (w : World) (s : sandboxToolBackend)
    (req : EditRequest.t) :
  Filepath.IsAbs (EditRequest.FilePath req) = true ->
  EditRequest.OldString req <> "" ->
  EditRequest.OldString req <> EditRequest.NewString req ->
  exists script,
    snd (run w (Edit s req))
    = [EvRequest (httpClient s) (signedRequest w s (requestBytes s script))]
    /\ Strings.Contains script
         ("old = base64.b64decode('" +:+ Base64.EncodeToString (EditRequest.OldString req)
          +:+ "').decode('utf-8')") = true
    /\ Strings.Contains script
         ("new = base64.b64decode('" +:+ Base64.EncodeToString (EditRequest.NewString req)
          +:+ "').decode('utf-8')") = true
    /\ Strings.Contains script
         ("elif count > 1 and not "
          +:+ (if EditRequest.ReplaceAll req then "1" else "0") +:+ ":") = true
    /\ Base64.b64decode (Base64.EncodeToString (EditRequest.OldString req))
       = Some (EditRequest.OldString req)
    /\ Base64.b64decode (Base64.EncodeToString (EditRequest.NewString req))
       = Some (EditRequest.NewString req).
Proof.
  intros Habs Hold Hneq.
  set (all := if negb (EditRequest.ReplaceAll req) then 0 else 1).
  destruct (Edit_renders (Filepath.Clean (EditRequest.FilePath req))
              (Base64.EncodeToString (EditRequest.OldString req))
              (Base64.EncodeToString (EditRequest.NewString req)) all) as [script Hs].
  exists script.
  destruct (Edit_strings_are_encoded _ _ _ _ _ Hs) as [Ho Hn].
  split; [| split; [exact Ho | split; [exact Hn | split; [| split]]]].
  - unfold Edit. rewrite (formatPath_absolute _ Habs).
    apply isEmpty_false in Hold. rewrite Hold.
    apply String.eqb_neq in Hneq. rewrite Hneq.
    fold all. rewrite Hs, run_execute_bind. cbn [snd].
    destruct (checked _ _ _); reflexivity.
  - assert (Hshow : Pyfmt.show (AInt all)
                    = if EditRequest.ReplaceAll req then "1" else "0").
    { subst all. destruct (EditRequest.ReplaceAll req); reflexivity. }
    rewrite <- Hshow. revert Hs.
    generalize (Base64.EncodeToString (EditRequest.OldString req)),
      (Base64.EncodeToString (EditRequest.NewString req)),
      (Filepath.Clean (EditRequest.FilePath req)), all.
    intros o64 n64 p ra Hs.
    apply (Fmt_field _ _ "elif count > 1 and not " "replace_all" ":" script (AInt ra) Hs);
      vm_compute; reflexivity.
  - apply b64decode_EncodeToString.
  - apply b64decode_EncodeToString.
Qed.

End EditEncoding.

(** X26 at an edit of a string with a quote in it. *)
Lemma Edit_sends_encoded_strings_witness :
  exists script,
    Strings.Contains script "old = base64.b64decode('aXQncw==').decode('utf-8')" = true
    /\ snd (run (answering "ok")
              (@Edit toyCrypto string string toyJson toyBackend
                     (EditRequest.mk "/tmp/a.txt" "it's" "it is" true)))
       = [EvRequest DefaultClient
            (signedRequest (H := toyCrypto) (answering "ok") toyBackend
               (requestBytes (H := toyCrypto) (H0 := toyJson) toyBackend script))].
Proof.
  destruct (@Edit_sends_encoded_strings toyCrypto string string toyJson (answering "ok")
              toyBackend (EditRequest.mk "/tmp/a.txt" "it's" "it is" true)
              eq_refl ltac:(discriminate) ltac:(discriminate))
    as (script & Ht & Ho & _).
  exists script. split; [exact Ho | exact Ht].
Defined.

(** X24 at a content with a quote and a newline in it. *)
Lemma Write_content_is_encoded_witness :
  exists script,
    Strings.Contains script
      ("content = base64.b64decode('"
       +:+ Base64.EncodeToString ("it's" +:+ Python.nl) +:+ "').decode('utf-8')") = true
    /\ Base64.b64decode (Base64.EncodeToString ("it's" +:+ Python.nl))
       = Some ("it's" +:+ Python.nl).
Proof.
  destruct (@Write_content_is_encoded toyCrypto string string toyJson (answering "ok")
              toyBackend (WriteRequest.mk "/tmp/a.txt" ("it's" +:+ Python.nl)) eq_refl)
    as (script & _ & Hc & Hd).
  exists script. split; [exact Hc | exact Hd].
Defined.

(** X25 at a command with quotes in it. *)
Lemma Execute_command_is_encoded_witness :
  exists script,
    Strings.Contains script
      ("command = base64.b64decode('" +:+ Base64.EncodeToString "echo 'hi'"
       +:+ "').decode('utf-8')") = true.
Proof.
  destruct (@Execute_command_is_encoded toyCrypto string string toyJson (answering "ok")
              toyBackend (ExecuteRequest.mk "echo 'hi'") ltac:(discriminate))
    as (script & _ & Hc).
  exists script. exact Hc.
Defined.

(** ** The optional fields in the marshalled request *)

Example quote_ok :
  Sonic.quote "print(1)" = quoted "print(1)"
  /\ Sonic.quote ("a" +:+ dq +:+ "b\c" +:+ Python.nl)
     = dq +:+ "a\" +:+ dq +:+ "b\\c\n" +:+ dq
  /\ Sonic.quote (String (ascii_of_nat 1) "<>&") = quoted "\u0001<>&".
Proof. vm_compute. repeat split. Qed.

Lemma member_elem_of (o : jobject) (key : string) (v : jvalue) :
  NoDup (map fst o) -> (key, v) ∈ o -> Sonic.member key o = Some v.
Proof.
  induction o as [| [k x] o IH]; intros Hnd Hin.
  - inversion Hin.
  - cbn [map fst] in Hnd. apply NoDup_cons in Hnd as [Hk Hnd].
    cbn [Sonic.member]. apply elem_of_cons in Hin as [Heq | Hin].
    + injection Heq as -> ->. rewrite String.eqb_refl. reflexivity.
    + destruct (String.eqb_spec k key) as [-> | Hne]; [| auto].
      exfalso. apply Hk. apply list_elem_of_fmap. exists (key, v). auto.
Qed.

Lemma member_is_elem_of (o : jobject) (key : string) (v : jvalue) :
  Sonic.member key o = Some v -> (key, v) ∈ o.
Proof.
  induction o as [| [k x] o IH]; cbn [Sonic.member]; [discriminate |].
  destruct (String.eqb_spec k key) as [-> | Hne].
  - intros [= ->]. apply list_elem_of_here.
  - intros Hm. apply list_elem_of_further, IH, Hm.
Qed.

(** The members of an object without a repeated key are found whatever
    their order. *)
Lemma member_Permutation (o o' : jobject) (key : string) :
  Permutation o o' -> NoDup (map fst o') -> Sonic.member key o = Sonic.member key o'.
Proof.
  intros Hp Hnd.
  assert (Hnd' : NoDup (map fst o)).
  { rewrite Hp. exact Hnd. }
  destruct (Sonic.member key o') as [v |] eqn:Ho'.
  - apply member_elem_of; [exact Hnd' |].
    apply member_is_elem_of in Ho'. rewrite Hp. exact Ho'.
  - destruct (Sonic.member key o) as [v |] eqn:Ho; [| reflexivity].
    apply member_is_elem_of in Ho. rewrite Hp in Ho.
    apply (member_elem_of _ _ _ Hnd) in Ho. congruence.
Qed.

(** The object written for the payload map: the entries of the map literal
    of [execute], in some order. *)
Lemma ofMap_operationPayloadMap (order : list (string * any) -> list (string * any))
    (s : sandboxToolBackend) (command : string) :
  (forall l, Permutation (order l) l) ->
  Permutation (Sonic.ofMap order (operationPayloadMap s command))
    (if 0 <? executionTimeout s
     then [("code", JString command); ("timeout", JInt (executionTimeout s));
           ("kernelName", JString "python3")]
     else [("code", JString command); ("kernelName", JString "python3")]).
Proof.
  intros Horder. unfold Sonic.ofMap, operationPayloadMap.
  destruct (Z.leb_spec (executionTimeout s) 0) as [Ht | Ht];
    destruct (Z.ltb_spec 0 (executionTimeout s)) as [Ht' | Ht']; try lia.
  - rewrite Horder.
    rewrite map_to_list_insert
      by (rewrite lookup_insert_ne by discriminate; apply lookup_empty).
    rewrite map_to_list_insert by apply lookup_empty.
    rewrite map_to_list_empty. reflexivity.
  - rewrite Horder.
    rewrite map_to_list_insert
      by (rewrite !lookup_insert_ne by discriminate; apply lookup_empty).
    rewrite map_to_list_insert
      by (rewrite lookup_insert_ne by discriminate; apply lookup_empty).
    rewrite map_to_list_insert by apply lookup_empty.
    rewrite map_to_list_empty. reflexivity.
Qed.

(** A text joined from a list has each element of the list in it. *)
Lemma Join_elem_of (l : list string) (sep e : string) :
  e ∈ l -> exists pre post, Strings.Join l sep = pre +:+ e +:+ post.
Proof.
  induction l as [| x l IH]; intros Hin; [inversion Hin |].
  apply elem_of_cons in Hin as [-> | Hin].
  - destruct l as [| y l].
    + exists "", "". cbn [Strings.Join]. rewrite append_empty. reflexivity.
    + exists "", (sep +:+ Strings.Join (y :: l) sep). reflexivity.
  - destruct (IH Hin) as (pre & post & E). destruct l as [| y l]; [inversion Hin |].
    exists (x +:+ sep +:+ pre), post.
    change (Strings.Join (x :: y :: l) sep) with (x +:+ sep +:+ Strings.Join (y :: l) sep).
    rewrite E, !append_assoc. reflexivity.
Qed.

Lemma printObject_member (quote : string -> string) (o : jobject) (kv : string * jvalue) :
  kv ∈ o ->
  Strings.Contains (Sonic.printObject quote o) (Sonic.printMember quote kv) = true.
Proof.
  intros Hin. unfold Sonic.printObject.
  destruct (Join_elem_of (map (Sonic.printMember quote) o) "," (Sonic.printMember quote kv))
    as (pre & post & ->).
  { apply list_elem_of_fmap. exists kv. auto. }
  rewrite !append_assoc, <- (append_assoc "{" pre). apply Contains_app.
Qed.

Section Marshalled.

Context `{Crypto} {FileInfo GrepMatch : Type}.

(** C5: the text [execute] marshals into [OperationPayload] is an object of
    the entries [code] and [kernelName], and of [timeout] exactly when
    [executionTimeout] is positive; the [invokeToolRequest] has a non-nil
    [Ttl] exactly when [sessionTTL] is positive.  The body of the one
    request is the object of the six tagged fields: it always has the
    member [Ttl], the last one, whose value is [sessionTTL] when that is
    positive and null otherwise.  This holds however the encoder quotes
    strings and in whatever order it walks the map. *)
Theorem execute_marshalled_fields (quote : string -> string)
    (order : list (string * any) -> list (string * any))
    (decoders : Json FileInfo GrepMatch)
    (w : World) (s : sandboxToolBackend) (command : string) :
  (forall l, Permutation (order l) l) ->
  let payload := Sonic.ofMap order (operationPayloadMap s command) in
  let req := buildRequest s (Sonic.printObject quote payload) in
  let body := Sonic.printObject quote (Sonic.ofRequest req) in
  snd (run w (@execute _ FileInfo GrepMatch (wireJson quote order decoders) s command))
  = [EvRequest (httpClient s) (signedRequest w s body)]
  /\ Request.Body (signedRequest w s body) = body
  /\ Sonic.member "OperationPayload" (Sonic.ofRequest req)
     = Some (JString (Sonic.printObject quote payload))
  /\ Permutation payload
       (if 0 <? executionTimeout s
        then [("code", JString command); ("timeout", JInt (executionTimeout s));
              ("kernelName", JString "python3")]
        else [("code", JString command); ("kernelName", JString "python3")])
  /\ Sonic.member "timeout" payload
     = (if 0 <? executionTimeout s then Some (JInt (executionTimeout s)) else None)
  /\ (0 < executionTimeout s ->
      Strings.Contains (Sonic.printObject quote payload)
        (quote "timeout" +:+ ":" +:+ Strings.Itoa (executionTimeout s)) = true)
  /\ (is_Some (invokeToolRequest.Ttl req) <-> 0 < sessionTTL s)
  /\ map fst (Sonic.ofRequest req)
     = ["ToolId"; "SessionId"; "UserSessionId"; "OperationPayload"; "OperationType"; "Ttl"]
  /\ Sonic.member "Ttl" (Sonic.ofRequest req)
     = Some (if 0 <? sessionTTL s then JInt (sessionTTL s) else JNull)
  /\ exists pre,
       body = pre +:+ "," +:+ quote "Ttl" +:+ ":"
              +:+ (if 0 <? sessionTTL s then Strings.Itoa (sessionTTL s) else "null")
              +:+ "}".
Proof.
  intros Horder. cbv zeta.
  pose proof (ofMap_operationPayloadMap order s command Horder) as Hp.
  set (payload := Sonic.ofMap order (operationPayloadMap s command)) in *.
  split; [exact (@run_execute _ FileInfo GrepMatch (wireJson quote order decoders)
                   w s command) |].
  split; [apply run_invokeTool |].
  split; [unfold buildRequest; destruct (0 <? sessionTTL s); reflexivity |].
  split; [exact Hp |].
  split.
  { rewrite (member_Permutation _ _ "timeout" Hp).
    - destruct (0 <? executionTimeout s); reflexivity.
    - destruct (0 <? executionTimeout s); cbn [map fst];
        repeat (apply NoDup_cons; split; [rewrite ?elem_of_cons, elem_of_nil;
                                          intuition discriminate |]);
        apply NoDup_nil_2. }
  split.
  { intros Ht. apply (printObject_member quote payload
                        ("timeout", JInt (executionTimeout s))).
    rewrite Hp. destruct (Z.ltb_spec 0 (executionTimeout s)); [| lia].
    apply list_elem_of_further, list_elem_of_here. }
  unfold buildRequest.
  destruct (Z.ltb_spec 0 (sessionTTL s)) as [Hs | Hs];
    cbn [invokeToolRequest.Ttl invokeToolRequest.ToolID invokeToolRequest.SessionID
         invokeToolRequest.UserSessionID invokeToolRequest.OperationPayload
         invokeToolRequest.OperationType].
  - split; [split; [intros _; exact Hs | intros _; eexists; reflexivity] |].
    split; [reflexivity |]. split; [reflexivity |].
    eexists. unfold Sonic.printObject, Sonic.ofRequest, Sonic.printMember.
    cbn [map Strings.Join fst snd Sonic.printValue invokeToolRequest.Ttl].
    rewrite <- !append_assoc. reflexivity.
  - split; [split; [intros [x Hx]; discriminate | lia] |].
    split; [reflexivity |]. split; [reflexivity |].
    eexists. unfold Sonic.printObject, Sonic.ofRequest, Sonic.printMember.
    cbn [map Strings.Join fst snd Sonic.printValue invokeToolRequest.Ttl].
    rewrite <- !append_assoc. reflexivity.
Qed.

End Marshalled.


(** C5, counterexample: a backend whose [sessionTTL] is zero still sends
    the member [Ttl] in the body of its request, as null; the field is not
    left out.  (Its payload, with no timeout set, has no [timeout].) *)
Lemma execute_sends_null_Ttl :
  sessionTTL toyBackend = 0
  /\ executionTimeout toyBackend = 0
  /\ map Request.Body
       (requests (snd (run (answering "ok")
                         (@execute toyCrypto string string
                            (wireJson Sonic.quote (fun l => l) toyJson)
                            toyBackend "print(1)"))))
     = [untimedBody]
  /\ Strings.Contains untimedBody (quoted "Ttl" +:+ ":null") = true
  /\ Strings.Contains untimedBody "timeout" = false
  /\ Sonic.member "Ttl"
       (Sonic.ofRequest
          (buildRequest toyBackend
             (Sonic.printObject Sonic.quote
                (Sonic.ofMap (fun l => l) (operationPayloadMap toyBackend "print(1)")))))
     = Some JNull.
Proof. vm_compute. repeat split. Qed.

(** C5 at a backend with a session lifetime of 600 and a timeout of 30. *)
Lemma execute_marshalled_fields_witness :
  let payload := Sonic.ofMap (fun l => l) (operationPayloadMap timedBackend "print(1)") in
  let req := buildRequest timedBackend (Sonic.printObject Sonic.quote payload) in
  (forall l : list (string * any), Permutation l l)
  /\ Sonic.member "timeout" payload = Some (JInt 30)
  /\ Strings.Contains (Sonic.printObject Sonic.quote payload) (quoted "timeout" +:+ ":30")
     = true
  /\ Sonic.member "Ttl" (Sonic.ofRequest req) = Some (JInt 600)
  /\ exists pre,
       Sonic.printObject Sonic.quote (Sonic.ofRequest req)
       = pre +:+ "," +:+ quoted "Ttl" +:+ ":" +:+ "600" +:+ "}".
Proof.
  cbv zeta.
  assert (Ho : forall l : list (string * any), Permutation l l) by reflexivity.
  split; [exact Ho |].
  pose proof (@execute_marshalled_fields toyCrypto string string Sonic.quote
                (fun l => l) toyJson (answering "ok") timedBackend "print(1)" Ho) as Hc.
  cbv zeta in Hc.
  destruct Hc as (_ & _ & _ & _ & Ht & Hc & _ & _ & Httl & Hpre).
  split; [exact Ht |]. split; [apply Hc; reflexivity |]. split; [exact Httl |].
  exact Hpre.
Defined.
